(** * deepext: trainer, classifier adapter and callbacks

  A shallow embedding of
    - [deepext/trainer/xtrainer.py]                      (XTrainer)
    - [deepext/classifier/efficientnet/efficientnet.py]  (EfficientNet)
    - [deepext/utils/callbacks.py]                       (callbacks, schedulers)

  Conventions.
    - Python [int] is [Z]; Python [float] is idealised as a real number
      ([R]): the value of a float operation is the exact one, so rounding,
      infinities and NaN are outside the model.  What of the floats decides
      whether a call returns or raises is in the model: [int / int] and
      [math.pow] raise [OverflowError] on a result too large for a float,
      and a quotient of ints that rounds to 1.0 is 1.0.
    - A Python call that may raise is a computation [M S A]: it takes the
      mutable state [S] and gives back a [result] together with the state
      reached, also when it raises.
    - Dictionaries are stdpp [gmap]s. *)

From Stdlib Require Import ZArith List Reals Lra Lia.
From stdpp Require Import base gmap strings list fin_maps pretty.

Local Open Scope Z_scope.

(** ** Python prelude *)

Module Py.

(** The exception classes the modelled code can raise. *)
Inductive exn : Type :=
| AssertionError
| ZeroDivisionError
| OverflowError
| ValueError
| StatisticsError
| KeyError
| TypeError
| RuntimeError
| IndexError
| FileNotFoundError
| FileExistsError
| UnpicklingError.

Inductive result (A : Type) : Type :=
| Ok (a : A)
| Raise (e : exn).
Arguments Ok {A} a.
Arguments Raise {A} e.

Definition is_ok {A} (r : result A) : bool :=
  match r with Ok _ => true | Raise _ => false end.

(** A computation over a mutable state [S]. *)
Definition M (S A : Type) : Type := S -> result A * S.

Definition ret {S A} (a : A) : M S A := fun s => (Ok a, s).

Definition raise {S A} (e : exn) : M S A := fun s => (Raise e, s).

Definition bind {S A B} (c : M S A) (k : A -> M S B) : M S B :=
  fun s =>
    match c s with
    | (Ok a, s') => k a s'
    | (Raise e, s') => (Raise e, s')
    end.

Definition get {S} : M S S := fun s => (Ok s, s).
Definition put {S} (s : S) : M S unit := fun _ => (Ok tt, s).
Definition modify {S} (f : S -> S) : M S unit := fun s => (Ok tt, f s).

(** [assert cond] *)
Definition assert {S} (b : bool) : M S unit :=
  if b then ret tt else raise AssertionError.

(** [for x in l: body x] *)
Fixpoint for_each {S A} (l : list A) (body : A -> M S unit) : M S unit :=
  match l with
  | [] => ret tt
  | x :: l' => bind (body x) (fun _ => for_each l' body)
  end.

(** [for x in l: acc = body acc x], for a loop that builds a value. *)
Fixpoint for_fold {S A B} (l : list A) (acc : B) (body : B -> A -> M S B) : M S B :=
  match l with
  | [] => ret acc
  | x :: l' => bind (body acc x) (fun acc' => for_fold l' acc' body)
  end.

(** [enumerate(l)] *)
Definition enumerate {A} (l : list A) : list (nat * A) := zip (seq 0 (length l)) l.

(** [range(n)]: empty when [n <= 0]. *)
Definition range (n : Z) : list Z := Z.of_nat <$> seq 0 (Z.to_nat n).

(** [a % b] on ints: the sign follows the divisor, as [Z.modulo] does;
    a zero divisor raises. *)
Definition mod_ (a b : Z) : result Z :=
  if decide (b = 0) then Raise ZeroDivisionError else Ok (a `mod` b).

(** The range of the floats (binary64, rounding to nearest): a result of
    magnitude [2^1024 - 2^970] or more has no finite float. *)
Definition float_overflow : R := IZR (2 ^ 1024 - 2 ^ 970).

(** A float result [x]: [OverflowError] when it is out of range. *)
Definition in_float_range (x : R) : result R :=
  if Rle_dec float_overflow (Rabs x) then Raise OverflowError else Ok x.

(** The rounding of a quotient to the float 1.0.  The floats next to 1.0
    are [1 - 2^-53] and [1 + 2^-52]; rounding to nearest, ties to even,
    takes every real from [1 - 2^-54] to [1 + 2^-53] to 1.0.  Elsewhere the
    quotient is kept exact. *)
Definition round_near_one (q : R) : R :=
  if Rle_dec (1 - / IZR (2 ^ 54)) q then
    if Rle_dec q (1 + / IZR (2 ^ 53)) then 1%R else q
  else q.

(** [a / b] on ints: true division, a float.  A zero divisor raises
    [ZeroDivisionError], a quotient too large for a float [OverflowError].
    Python rounds the quotient to the nearest float; the model keeps it
    exact, except for the quotients that round to 1.0: for two ints of
    2^53 or more that differ the float quotient can be 1.0, and the code
    goes on with a base of 0.0. *)
Definition truediv (a b : Z) : result R :=
  if decide (b = 0) then Raise ZeroDivisionError
  else in_float_range (round_near_one (IZR a / IZR b)).


(** [math.pow(x, y)] on finite arguments.  Python's rules: [pow(x, 0.0)]
    is [1.0] for every [x]; a zero base with a negative exponent and a
    negative base with a non-integral exponent raise [ValueError]
    (math domain error); a power too large for a float raises
    [OverflowError]; a power too small for one is no error. *)
Definition math_pow (x y : R) : result R :=
  if Req_dec_T y 0 then Ok 1%R
  else if Req_dec_T x 0 then
    (if Rlt_dec 0 y then Ok 0%R else Raise ValueError)
  else if Rlt_dec 0 x then in_float_range (Rpower x y)
  else if Req_dec_T y (IZR (Int_part y)) then in_float_range (powerRZ x (Int_part y))
  else Raise ValueError.

(** [statistics.mean(data)]: raises on an empty sequence. *)
Definition fsum (l : list R) : R := foldr Rplus 0%R l.

Definition mean (data : list R) : result R :=
  match data with
  | [] => Raise StatisticsError
  | _ => Ok (fsum data / INR (length data))%R
  end.

End Py.

Import Py.

Declare Scope py_scope.
Delimit Scope py_scope with py.
Notation "x <- c ;; k" := (bind c (fun x => k))
(at level 100, c at next level, right associativity) : py_scope.
Notation "c ;;; k" := (bind c (fun _ => k))
(at level 100, right associativity) : py_scope.

Local Open Scope py_scope.

(** Run a computation on one component of a larger state. *)
Definition zoom {S T A} (get_ : S -> T) (set_ : T -> S -> S) (c : M T A) : M S A :=
fun s => let '(r, t') := c (get_ s) in (r, set_ t' s).

(** Turn a raised or returned value into a computation. *)
Definition of_result {S A} (r : result A) : M S A := fun s => (r, s).

(** ** The tensor runtime

  [torch] is outside the repository; what the adapter relies on is
  modelled here.  Tensors carry no device: [.cuda()], [.cpu()] and
  [.float()] keep the values. *)

Module Torch.

Record Tensor : Type := mkTensor { shape : list nat; data : list R }.

(** [optim.SGD]: one record per parameter group; [pg_params] is the number
    of parameters of the group (their ids are positions). *)
Record ParamGroup : Type := mkParamGroup {
  pg_lr : R;
  pg_momentum : R;
  pg_dampening : R;
  pg_weight_decay : R;
  pg_nesterov : bool;
  pg_params : nat
}.

(** What [optimizer.state_dict()] holds, which is also all the state the
    optimizer has besides its references to the parameters. *)
Record Optimizer : Type := mkOptimizer {
  opt_state : gmap nat Tensor;
  param_groups : list ParamGroup
}.

(** An [nn.Module]: its architecture (name and class count, fixed when
    it is built), its named parameters and buffers, and its mode. *)
Record Module_ : Type := mkModule {
  arch : string * Z;
  parameters : gmap string Tensor;
  training : bool
}.

(** Values stored in a checkpoint dictionary. *)
Inductive PyVal : Type :=
| VInt (z : Z)
| VStr (s : string)
| VStateDict (sd : gmap string Tensor)
| VOptim (o : Optimizer).

(** 2-D arrays are lists of rows. *)
Definition Array2 : Type := list (list R).

Record Image : Type := mkImage { pixels : Tensor }.

(** A [matplotlib] figure: the heat maps drawn on it. *)
Definition Figure : Type := list Array2.

(** The content of a file is modelled by the object written to it: the
    serialisation formats are the runtime's own. *)
Inductive File : Type :=
| FPickle (obj : gmap string PyVal)
| FImage (img : Image)
| FFigure (fig : Figure).

(** [numpy.random]'s global generator: an arbitrary sequence of draws and
    how many were taken. *)
Record Rng : Type := mkRng { rng_draws : nat -> Z; rng_pos : nat }.

(** The state outside the Python objects. *)
Record Env : Type := mkEnv {
  fs : gmap string File;
  dirs : gset string;
  stdout : list string;
  grad_enabled : bool;
  cuda_available : bool;
  np_random : Rng;
  figures : list Figure
}.

Definition set_fs (f : gmap string File) (e : Env) : Env :=
  mkEnv f (dirs e) (stdout e) (grad_enabled e) (cuda_available e)
        (np_random e) (figures e).
Definition set_dirs (d : gset string) (e : Env) : Env :=
  mkEnv (fs e) d (stdout e) (grad_enabled e) (cuda_available e)
        (np_random e) (figures e).
Definition set_stdout (o : list string) (e : Env) : Env :=
  mkEnv (fs e) (dirs e) o (grad_enabled e) (cuda_available e)
        (np_random e) (figures e).
Definition set_grad_enabled (g : bool) (e : Env) : Env :=
  mkEnv (fs e) (dirs e) (stdout e) g (cuda_available e)
        (np_random e) (figures e).
Definition set_np_random (r : Rng) (e : Env) : Env :=
  mkEnv (fs e) (dirs e) (stdout e) (grad_enabled e) (cuda_available e)
        r (figures e).
Definition set_figures (f : list Figure) (e : Env) : Env :=
  mkEnv (fs e) (dirs e) (stdout e) (grad_enabled e) (cuda_available e)
        (np_random e) f.

(** [print(line)] *)
Definition print (line : string) : M Env unit :=
  modify (fun e => set_stdout (stdout e ++ [line]) e).

(** Writing a file replaces what the path held.  Failures of the file
    system itself (missing directory, permissions) are not modelled. *)
Definition write_file (path : string) (f : File) : M Env unit :=
  modify (fun e => set_fs (<[path := f]> (fs e)) e).

(** [torch.save(obj, path)] *)
Definition save (obj : gmap string PyVal) (path : string) : M Env unit :=
  write_file path (FPickle obj).

(** [torch.load(path)] *)
Definition load (path : string) : M Env (gmap string PyVal) :=
  fun e =>
    match fs e !! path with
    | None => (Raise FileNotFoundError, e)
    | Some (FPickle obj) => (Ok obj, e)
    | Some _ => (Raise UnpicklingError, e)
    end.

(** [d[key]] *)
Definition getitem (d : gmap string PyVal) (key : string) : result PyVal :=
  match d !! key with
  | Some v => Ok v
  | None => Raise KeyError
  end.

(** [module.state_dict()] *)
Definition state_dict (m : Module_) : gmap string Tensor := parameters m.

(** [module.load_state_dict(sd)], strict: the names and the shapes must
    be those of the module.  (A failing load is modelled as leaving the
    module as it was.) *)
Definition load_state_dict (sd : PyVal) : M Module_ unit :=
  fun m =>
    match sd with
    | VStateDict sd =>
        if decide (shape <$> sd = shape <$> parameters m)
        then (Ok tt, mkModule (arch m) sd (training m))
        else (Raise RuntimeError, m)
    | _ => (Raise TypeError, m)
    end.

(** [module.eval()] and [module.train()] *)
Definition eval : M Module_ unit :=
  modify (fun m => mkModule (arch m) (parameters m) false).
Definition train : M Module_ unit :=
  modify (fun m => mkModule (arch m) (parameters m) true).

(** [optimizer.state_dict()] *)
Definition optimizer_state_dict (o : Optimizer) : Optimizer := o.

(** [optimizer.load_state_dict(sd)]: the groups of [sd] must match the
    optimizer's in number and in size. *)
Definition optimizer_load_state_dict (sd : PyVal) : M Optimizer unit :=
  fun o =>
    match sd with
    | VOptim sd =>
        if decide (length (param_groups sd) = length (param_groups o)) then
          if decide (pg_params <$> param_groups sd = pg_params <$> param_groups o)
          then (Ok tt, sd)
          else (Raise ValueError, o)
        else (Raise ValueError, o)
    | _ => (Raise TypeError, o)
    end.

(** [nn.Softmax(dim=1)] on a 2-D array. *)
Definition softmax_row (row : list R) : list R :=
  let s := fsum (exp <$> row) in (fun v => exp v / s)%R <$> row.

Definition Softmax_dim1 (a : Array2) : Array2 := softmax_row <$> a.

(** A tensor that is the output of a network: its values, and whether it
    is part of a gradient graph. *)
Record Output : Type := mkOutput { values : Array2; requires_grad : bool }.

(** [t.numpy()]: refused on a tensor that requires grad. *)
Definition numpy (t : Output) : result Array2 :=
  if requires_grad t then Raise RuntimeError else Ok (values t).

End Torch.

Import Torch.

(** Modelled from the spec: [deepext.utils.tensor_util.try_cuda] is not
    among the sources.  The spec describes device placement as a per-tensor
    transfer performed before each operation; a transfer keeps the value. *)
Definition try_cuda {A : Type} (x : A) : A := x.

(** ** [deepext/classifier/efficientnet/efficientnet.py] *)

Module EfficientNet.

Record t : Type := mk {
  _num_classes : Z;
  _model : Module_;
  _network : string;
  _optimizer : Optimizer
}.

Definition set_num_classes (n : Z) (self : t) : t :=
  mk n (_model self) (_network self) (_optimizer self).
Definition set_model (m : Module_) (self : t) : t :=
  mk (_num_classes self) m (_network self) (_optimizer self).
Definition set_network (s : string) (self : t) : t :=
  mk (_num_classes self) (_model self) s (_optimizer self).
Definition set_optimizer (o : Optimizer) (self : t) : t :=
  mk (_num_classes self) (_model self) (_network self) o.

(** A method runs on the adapter and on the environment. *)
Definition St : Type := t * Env.

Definition on_env {A} (c : M Env A) : M St A :=
  zoom snd (fun e s => (fst s, e)) c.
Definition on_self {A} (c : M t A) : M St A :=
  zoom fst (fun a s => (a, snd s)) c.
Definition on_model {A} (c : M Module_ A) : M St A :=
  on_self (zoom _model set_model c).
Definition on_optimizer {A} (c : M Optimizer A) : M St A :=
  on_self (zoom _optimizer set_optimizer c).

Section WithNetwork.

(** [efficientnet_lib.model.EfficientNetPredictor] is not among the sources;
    the adapter uses it through these operations.
    - [from_name network num_classes seed]: a network with new parameters
      ([seed] stands for the state of the runtime's random generator);
    - [num_parameters]: how many learnable parameters an architecture has;
    - [network_forward arch params training x]: the logits for the batch
      [x], and the parameters and buffers after the pass;
    - [train_step]: one forward pass, loss, backward pass and optimizer
      step; gives the loss and the state after the step. *)
Variable from_name : string -> Z -> nat -> Module_.
Variable num_parameters : string * Z -> nat.
Variable network_forward :
  string * Z -> gmap string Tensor -> bool -> Tensor -> Array2 * gmap string Tensor.
Variable train_step :
  Module_ -> Optimizer -> Tensor -> Tensor -> R * Module_ * Optimizer.

(** [__init__(num_classes, network, lr, momentum, weight_decay)] *)
Definition __init__ (num_classes : Z) (network : string)
    (lr momentum weight_decay : R) (seed : nat) : t :=
  let model := from_name network num_classes seed in
  {| _num_classes := num_classes;
     _model := model;
     _network := network;
     _optimizer :=
       {| opt_state := ∅;
          param_groups :=
            [ {| pg_lr := lr; pg_momentum := momentum; pg_dampening := 0;
                 pg_weight_decay := weight_decay; pg_nesterov := false;
                 pg_params := num_parameters (arch model) |} ] |} |}.

(** [self._model(inputs)]: the output is part of a gradient graph when
    gradient tracking is on. *)
Definition call_model (inputs : Tensor) : M St Output :=
  fun s =>
    let m := _model (fst s) in
    let '(out, params') := network_forward (arch m) (parameters m) (training m) inputs in
    (Ok (mkOutput out (grad_enabled (snd s))),
     (set_model (mkModule (arch m) params' (training m)) (fst s), snd s)).

(** [train_batch(train_x, teacher)] *)
Definition train_batch (train_x teacher : Tensor) : M St R :=
  on_model train ;;;
  let train_x := try_cuda train_x in
  let teacher := try_cuda teacher in
  fun s =>
    let '(loss, m', o') :=
      train_step (_model (fst s)) (_optimizer (fst s)) train_x teacher in
    (Ok loss, (set_optimizer o' (set_model m' (fst s)), snd s)).

(** [with torch.no_grad(): body]: gradient tracking is off inside and put
    back on the way out, also when [body] raises. *)
Definition with_no_grad {A} (body : M St A) : M St A :=
  fun s =>
    let prev := grad_enabled (snd s) in
    let '(r, s') := body (fst s, set_grad_enabled false (snd s)) in
    (r, (fst s', set_grad_enabled prev (snd s'))).

(** [predict(inputs)] *)
Definition predict (inputs : Tensor) : M St Array2 :=
  on_model eval ;;;
  with_no_grad (
    let inputs := try_cuda inputs in
    logits <- call_model inputs ;;
    let output := mkOutput (Softmax_dim1 (values logits)) (requires_grad logits) in
    pred_ids <- of_result (numpy output) ;;
    ret pred_ids).

(** [save_weight(save_path)] *)
Definition save_weight (save_path : string) : M St unit :=
  self <- on_self get ;;
  let dict_to_save : gmap string PyVal :=
    <["optimizer" := VOptim (optimizer_state_dict (_optimizer self))]>
    (<["state_dict" := VStateDict (state_dict (_model self))]>
    (<["network" := VStr (_network self)]>
    (<["num_class" := VInt (_num_classes self)]> ∅))) in
  on_env (save dict_to_save save_path).

(** [load_weight(weight_path)].  The fields keep the types the constructor
    gives them: a checkpoint whose ['num_class'] is not an int or whose
    ['network'] is not a str is refused with [TypeError]. *)
Definition load_weight (weight_path : string) : M St unit :=
  params <- on_env (load weight_path) ;;
  on_env (print "The pretrained weight is loaded") ;;;
  num_class <- of_result (getitem params "num_class") ;;
  match num_class with
  | VInt n =>
      on_env (print ("Num classes: " +:+ pretty n)) ;;;
      on_self (modify (set_num_classes n)) ;;;
      sd <- of_result (getitem params "state_dict") ;;
      on_model (load_state_dict sd) ;;;
      osd <- of_result (getitem params "optimizer") ;;
      on_optimizer (optimizer_load_state_dict osd) ;;;
      network <- of_result (getitem params "network") ;;
      match network with
      | VStr s => on_self (modify (set_network s))
      | _ => raise TypeError
      end
  | _ => raise TypeError
  end.

(** [get_model_config()] *)
Definition get_model_config (self : t) : gmap string PyVal :=
  <["network" := VStr (_network self)]>
  (<["optimizer" := VStr "SGD"]>
  (<["num_classes" := VInt (_num_classes self)]>
  (<["model_name" := VStr "EfficientNet"]> ∅))).

(** [get_optimizer()] *)
Definition get_optimizer (self : t) : Optimizer := _optimizer self.

End WithNetwork.

End EfficientNet.

(** ** Other libraries the callbacks call

    [numpy.random], [PIL], [cv2], [matplotlib], [seaborn] and [pathlib],
    as far as the callbacks use them. *)

Module Libs.

(** [np.random.randint(low, high)]: a draw from [low, high). *)
Definition randint (low high : Z) : M Env Z :=
  fun e =>
    if decide (high <= low) then (Raise ValueError, e)
    else
      let g := np_random e in
      (Ok (low + rng_draws g (rng_pos g) `mod` (high - low)),
       set_np_random (mkRng (rng_draws g) (S (rng_pos g))) e).

(** [seq[i]] on a Python sequence, negative indices counting from the end. *)
Definition index {A} (l : list A) (i : Z) : result A :=
  let n := Z.of_nat (length l) in
  let j := if decide (i < 0) then n + i else i in
  if decide (0 <= j < n) then
    match l !! Z.to_nat j with
    | Some x => Ok x
    | None => Raise IndexError
    end
  else Raise IndexError.

(** [tensor.cuda()] *)
Definition cuda (x : Tensor) : M Env Tensor :=
  fun e => if cuda_available e then (Ok x, e) else (Raise RuntimeError, e).

(** [ToPILImage()(tensor)] *)
Definition to_pil (x : Tensor) : Image := mkImage x.

(** [img.save(path)] and [cv2.imwrite(path, img)] *)
Definition image_save (img : Image) (path : string) : M Env unit :=
  write_file path (FImage img).
Definition imwrite (path : string) (img : Image) : M Env unit :=
  write_file path (FImage img).

(** [plt.figure()]: a new current figure (the last of the list). *)
Definition plt_figure : M Env unit :=
  modify (fun e => set_figures (figures e ++ [[]]) e).

(** [sns.heatmap(data)]: drawn on the current figure, made if there is none. *)
Definition sns_heatmap (hm : Array2) : M Env unit :=
  modify (fun e =>
    match reverse (figures e) with
    | [] => set_figures [[hm]] e
    | cur :: rest => set_figures (reverse rest ++ [cur ++ [hm]]) e
    end).

(** [plt.savefig(path)]: saves the current figure. *)
Definition plt_savefig (path : string) : M Env unit :=
  fun e =>
    let cur := match reverse (figures e) with [] => [] | cur :: _ => cur end in
    write_file path (FFigure cur)
      (match figures e with [] => set_figures [[]] e | _ => e end).

(** [plt.close('all')] *)
Definition plt_close_all : M Env unit :=
  modify (set_figures []).

(** [Path(p).exists()] and [Path(p).mkdir()] *)
Definition path_exists (p : string) (e : Env) : bool :=
  bool_decide (p ∈ dirs e) || bool_decide (is_Some (fs e !! p)).
Definition mkdir (p : string) : M Env unit :=
  fun e =>
    if path_exists p e then (Raise FileExistsError, e)
    else (Ok tt, set_dirs ({[p]} ∪ dirs e) e).

(** [t.argmax(-1).item()] on a (1, n) array: the first position of the
    largest entry; [.item()] wants a single row. *)
Fixpoint argmax_from (best : R) (besti i : Z) (row : list R) : Z :=
  match row with
  | [] => besti
  | v :: row' =>
      if Rlt_dec best v then argmax_from v i (i + 1) row'
      else argmax_from best besti (i + 1) row'
  end.

Definition argmax_item (a : Array2) : result Z :=
  match a with
  | [v :: row] => Ok (argmax_from v 0 1 row)
  | _ => Raise RuntimeError
  end.

End Libs.

Import Libs.

(** ** The model interfaces of [deepext.base] *)

Module Base.

Section Interfaces.

(** The state the models live in. *)
Context {W : Type}.

(** Modelled from the spec: [deepext.base.BaseModel] is not among the
    sources.  The spec's Model Adapter contract: exposes [train_batch],
    [predict], [save_weight], [load_weight], [get_model_config]; its class
    name names the checkpoints. *)
Record BaseModel : Type := mkBaseModel {
  class_name : string;
  train_batch : Tensor -> Tensor -> M W R;
  predict : Tensor -> M W Array2;
  save_weight : string -> M W unit;
  load_weight : string -> M W unit;
  get_model_config : W -> gmap string PyVal
}.

(** Modelled from the spec: [deepext.base.SegmentationModel] is not among
    the sources; the callback uses its drawing routine
    [draw_predicted_result(img_tensor, img_size_for_model, color_palette)]. *)
Record SegmentationModel : Type := mkSegmentationModel {
  seg_draw_predicted_result : Tensor -> list nat -> list Z -> M W Image
}.

(** Modelled from the spec: [deepext.base.DetectionModel] is not among the
    sources; the callback uses its drawing routine
    [draw_predicted_result(image, img_size_for_model, label_names)]. *)
Record DetectionModel : Type := mkDetectionModel {
  det_draw_predicted_result : Tensor -> nat * nat -> list string -> M W Image
}.

(** Modelled from the spec: [deepext.classifier.AttentionBranchNetwork] is
    not among the sources; the callback puts it in inference mode and calls
    it, getting the perception and attention predictions and the attention
    map (a 4-D array). *)
Record AttentionBranchNetwork : Type := mkAttentionBranchNetwork {
  abn_eval : M W unit;
  abn_call : Tensor -> M W (Array2 * Array2 * list (list Array2))
}.

End Interfaces.

Arguments BaseModel W : clear implicits.
Arguments SegmentationModel W : clear implicits.
Arguments DetectionModel W : clear implicits.
Arguments AttentionBranchNetwork W : clear implicits.

End Base.

Import Base.

(** ** [deepext/utils/callbacks.py] *)

Module Callbacks.

(** A dataset: [len(ds)] and [ds[i]] over a list of (image, label) pairs. *)
Definition Dataset (L : Type) : Type := list (Tensor * L).

(** The guard every periodic callback starts with:
    [(epoch + 1) % self._per_epoch != 0]. *)
Definition skips (per_epoch epoch : Z) : result bool :=
  match mod_ (epoch + 1) per_epoch with
  | Ok r => Ok (negb (bool_decide (r = 0)))
  | Raise e => Raise e
  end.

Section WithModels.

(** The models the callbacks hold live in a state [MS]; a callback runs on
    that state and on the environment. *)
Context {MS : Type}.

Local Abbreviation World := (MS * Env)%type.

Definition on_env {A} (c : M Env A) : M World A :=
  zoom snd (fun e s => (fst s, e)) c.

(** *** GenerateSegmentationImageCallback *)

Record GenerateSegmentationImageCallback : Type := mkGenerateSegmentationImageCallback {
  gsi_model : SegmentationModel World;
  gsi_output_dir : string;
  gsi_per_epoch : Z;
  gsi_dataset : Dataset unit;
  gsi_alpha : Z;
  gsi_color_palette : list Z
}.

(** [__init__]; [default_color_palette()] comes from [image_utils], which is
    not among the sources, and is passed in. *)
Definition GenerateSegmentationImageCallback__init__
    (default_color_palette : list Z)
    (model : SegmentationModel World) (output_dir : string) (per_epoch : Z)
    (dataset : Dataset unit) (alpha : Z) (color_palette_ls : option (list Z))
    : GenerateSegmentationImageCallback :=
  {| gsi_model := model;
     gsi_output_dir := output_dir;
     gsi_per_epoch := per_epoch;
     gsi_dataset := dataset;
     gsi_alpha := alpha;
     gsi_color_palette :=
       match color_palette_ls with
       | Some (c :: ls) => c :: ls
       | _ => default_color_palette
       end |}.

Definition GenerateSegmentationImageCallback__call__
    (self : GenerateSegmentationImageCallback) (epoch : Z) : M World unit :=
  skip <- of_result (skips (gsi_per_epoch self) epoch) ;;
  if skip : bool then ret tt
  else
    let data_len := Z.of_nat (length (gsi_dataset self)) in
    random_image_index <- on_env (randint 0 data_len) ;;
    item <- of_result (index (gsi_dataset self) random_image_index) ;;
    let img_tensor := fst item in
    result_img <- seg_draw_predicted_result (gsi_model self) img_tensor
                    (tail (shape img_tensor)) (gsi_color_palette self) ;;
    on_env (image_save result_img
      (gsi_output_dir self +:+ "/result_image" +:+ pretty (epoch + 1) +:+ ".png")).

(** *** GenerateAttentionMapCallback *)

Record GenerateAttentionMapCallback : Type := mkGenerateAttentionMapCallback {
  gam_out_dir : string;
  gam_per_epoch : Z;
  gam_dataset : Dataset Z;
  gam_model : AttentionBranchNetwork World
}.

(** [img_tensor.view(1, shape[0], shape[1], shape[2])] *)
Definition view_as_batch (x : Tensor) : result Tensor :=
  match shape x with
  | [c; h; w] => Ok (mkTensor [1%nat; c; h; w] (data x))
  | _ :: _ :: _ :: _ => Raise RuntimeError
  | _ => Raise IndexError
  end.

(** [batch[0]], the first image of a batch. *)
Definition first_of_batch (x : Tensor) : result Tensor :=
  match shape x with
  | S n :: dims =>
      Ok (mkTensor dims (take (foldr Nat.mul 1%nat dims) (data x)))
  | _ => Raise IndexError
  end.

Definition GenerateAttentionMapCallback__call__
    (self : GenerateAttentionMapCallback) (epoch : Z) : M World unit :=
  skip <- of_result (skips (gam_per_epoch self) epoch) ;;
  if skip : bool then ret tt
  else
    abn_eval (gam_model self) ;;;
    let data_len := Z.of_nat (length (gam_dataset self)) in
    random_image_index <- on_env (randint 0 data_len) ;;
    item <- of_result (index (gam_dataset self) random_image_index) ;;
    let label := snd item in
    img_tensor <- of_result (view_as_batch (fst item)) ;;
    img_tensor <- on_env (cuda img_tensor) ;;
    preds <- abn_call (gam_model self) img_tensor ;;
    let '(perception_pred, _, attention_map) := preds in
    pred_label <- of_result (argmax_item perception_pred) ;;
    first <- of_result (first_of_batch img_tensor) ;;
    let img := to_pil first in
    on_env (image_save img
      (gam_out_dir self +:+ "/epoch" +:+ pretty (epoch + 1) +:+ "_t" +:+ pretty label
         +:+ "_p" +:+ pretty pred_label +:+ ".png")) ;;;
    on_env plt_figure ;;;
    maps0 <- of_result (index attention_map 0) ;;
    hm <- of_result (index maps0 0) ;;
    on_env (sns_heatmap hm) ;;;
    on_env (plt_savefig
      (gam_out_dir self +:+ "/epoch" +:+ pretty (epoch + 1) +:+ "_attention.png")) ;;;
    on_env plt_close_all.

(** *** VisualizeRandomObjectDetectionResult *)

(** A box: [x_min, y_min, x_max, y_max, label]. *)
Definition BBox : Type := (R * R * R * R * Z)%type.

Record VisualizeRandomObjectDetectionResult : Type := mkVisualizeRandomObjectDetectionResult {
  vro_model : DetectionModel World;
  vro_dataset : Dataset (option (list BBox));
  vro_pred_color : Z * Z * Z;
  vro_teacher_color : Z * Z * Z;
  vro_per_epoch : Z;
  vro_out_dir : string;
  vro_img_size : nat * nat;
  vro_label_names : list string
}.

Section WithImageUtils.

(** [image_utils.draw_bounding_boxes_with_name_tag(image, bboxes, color, text)]
    is not among the sources. *)
Variable draw_bounding_boxes_with_name_tag :
  Image -> list BBox -> Z * Z * Z -> string -> Image.

Fixpoint draw_each (self : VisualizeRandomObjectDetectionResult)
    (image : Image) (bboxes : list BBox) : result Image :=
  match bboxes with
  | [] => Ok image
  | bbox :: rest =>
      match index (vro_label_names self) (snd bbox) with
      | Ok text =>
          draw_each self
            (draw_bounding_boxes_with_name_tag image [bbox] (vro_teacher_color self) text)
            rest
      | Raise e => Raise e
      end
  end.

Definition _draw_teacher_bboxes (self : VisualizeRandomObjectDetectionResult)
    (image : Image) (teacher_bboxes : option (list BBox)) : result Image :=
  match teacher_bboxes with
  | None | Some [] => Ok image
  | Some bboxes => draw_each self image bboxes
  end.

(** The dataset's images are tensors by their type, which is what the
    source asserts with [isinstance]. *)
Definition VisualizeRandomObjectDetectionResult__call__
    (self : VisualizeRandomObjectDetectionResult) (epoch : Z) : M World unit :=
  skip <- of_result (skips (vro_per_epoch self) epoch) ;;
  if skip : bool then ret tt
  else
    let data_len := Z.of_nat (length (vro_dataset self)) in
    random_image_index <- on_env (randint 0 data_len) ;;
    item <- of_result (index (vro_dataset self) random_image_index) ;;
    let '(image, teacher_bboxes) := item in
    h <- of_result (index (shape image) (-2)) ;;
    w <- of_result (index (shape image) (-1)) ;;
    result_img <- det_draw_predicted_result (vro_model self) image (h, w)
                    (vro_label_names self) ;;
    image <- of_result (_draw_teacher_bboxes self result_img teacher_bboxes) ;;
    on_env (imwrite
      (vro_out_dir self +:+ "/result_" +:+ pretty (epoch + 1) +:+ ".png") image).

End WithImageUtils.

(** *** ModelCheckout *)

Record ModelCheckout : Type := mkModelCheckout {
  mc_per_epoch : Z;
  mc_out_dir : string;
  mc_model : BaseModel World
}.

(** [__init__(model, our_dir, per_epoch)]: makes the directory if nothing
    is there.  ([Path]'s normalisation of [our_dir] is not modelled.) *)
Definition ModelCheckout__init__ (model : BaseModel World) (our_dir : string)
    (per_epoch : Z) : M World ModelCheckout :=
  e <- on_env get ;;
  (if path_exists our_dir e then ret tt else on_env (mkdir our_dir)) ;;;
  ret {| mc_per_epoch := per_epoch; mc_out_dir := our_dir; mc_model := model |}.

Definition ModelCheckout__call__ (self : ModelCheckout) (epoch : Z) : M World unit :=
  skip <- of_result (skips (mc_per_epoch self) epoch) ;;
  if skip : bool then ret tt
  else
    save_weight (mc_model self)
      (mc_out_dir self +:+ "/" +:+ class_name (mc_model self) +:+ "_ep"
         +:+ pretty (epoch + 1) +:+ ".pth").

End WithModels.

(** *** LearningRateScheduler *)

Record LearningRateScheduler : Type := mkLearningRateScheduler {
  lrs_max_epoch : Z;
  lrs_power : R
}.

(** [__init__(max_epoch, power=0.9)] *)
Definition LearningRateScheduler__init__ (max_epoch : Z) (power : option R)
    : LearningRateScheduler :=
  {| lrs_max_epoch := max_epoch; lrs_power := default (9 / 10)%R power |}.

(** [math.pow((1 - epoch / self._max_epoch), self._power)] *)
Definition LearningRateScheduler__call__ (self : LearningRateScheduler) (epoch : Z)
    : result R :=
  match truediv epoch (lrs_max_epoch self) with
  | Ok q => math_pow (1 - q) (lrs_power self)
  | Raise e => Raise e
  end.

(** *** WarmUpLRScheduler *)

Record WarmUpLRScheduler : Type := mkWarmUpLRScheduler {
  wu_warmup_lr : R;
  wu_warmup_epochs : Z;
  wu_lr : R
}.

(** [__init__(warmup_lr=1e-2, lr=1e-4, warmup_epochs=10)] *)
Definition WarmUpLRScheduler__init__ (warmup_lr lr : option R) (warmup_epochs : option Z)
    : WarmUpLRScheduler :=
  {| wu_warmup_lr := default (1 / 100)%R warmup_lr;
     wu_warmup_epochs := default 10 warmup_epochs;
     wu_lr := default (1 / 10000)%R lr |}.

Definition WarmUpLRScheduler__call__ (self : WarmUpLRScheduler) (epoch : Z) : R :=
  if decide (epoch < wu_warmup_epochs self) then wu_warmup_lr self else wu_lr self.

End Callbacks.

(** ** [deepext/trainer/xtrainer.py] *)

Module XTrainer.

(** What the trainer prints, before formatting. *)
Inductive Message : Type :=
| MsgStart (i : Z) (config : gmap string PyVal)
| MsgEpoch (epoch epochs : Z) (mean_loss : R) (metric_str : list (string * R))
| MsgTotal (total_metric_str : list (string * R)).

(** The calls the trainer makes, in the order it makes them.  The trace is
    an observer of the run: the code cannot read it. *)
Inductive Event : Type :=
| EvTrainBatch (train_x teacher : Tensor)
| EvPredict (x : Tensor)
| EvPrint (msg : Message)
| EvCallback (j : nat) (epoch : Z)
| EvCallbackReturn (j : nat) (epoch : Z).

(** An externally supplied metric: its [__name__] and the function. *)
Record MetricFunc : Type := mkMetricFunc {
  mf_name : string;
  mf_call : Array2 -> Tensor -> R
}.

Definition DataLoader : Type := list (Tensor * Tensor).

Section WithWorld.

Context {W : Type}.

(** Modelled from the spec: [deepext.assemble.learning_table.LearningTable]
    is not among the sources.  The spec: a passive record binding a model's
    data loader, epoch count, and list of per-epoch callbacks. *)
Record LearningTable : Type := mkLearningTable {
  data_loader : DataLoader;
  epochs : Z;
  callbacks : option (list (Z -> M W unit))
}.

(** Modelled from the spec: [deepext.assemble.assemble_model.AssembleModel]
    is not among the sources.  The spec: an ordered sequence of Model
    Adapters, evaluated together through its own [predict]. *)
Record AssembleModel : Type := mkAssembleModel {
  model_list : list (BaseModel W);
  assemble_predict : Tensor -> M W Array2
}.

Record t : Type := mk { _assemble_model : AssembleModel }.

(** The trainer runs on the trace and on the models' state. *)
Local Abbreviation TS := (list Event * W)%type.

Definition emit (ev : Event) : M TS unit :=
  modify (fun s => (fst s ++ [ev], snd s)).

Definition on_world {A} (c : M W A) : M TS A :=
  zoom snd (fun w s => (fst s, w)) c.

(** [train_epoch(model, data_loader)] *)
Definition train_epoch (self : t) (model : BaseModel W) (data_loader : DataLoader)
    : M TS R :=
  loss_list <-
    for_fold data_loader ([] : list R) (fun loss_list batch =>
      let train_x := try_cuda (fst batch) in
      let teacher := try_cuda (snd batch) in
      emit (EvTrainBatch train_x teacher) ;;;
      loss <- on_world (train_batch model train_x teacher) ;;
      ret (loss_list ++ [loss])) ;;
  of_result (mean loss_list).

(** [calc_metric(model, data_loader, metric_func)]; [model] is a model or
    the assemble model, used through its [predict].  Iterating [None]
    raises. *)
Definition calc_metric (self : t) (model_predict : Tensor -> M W Array2)
    (data_loader : option DataLoader) (metric_func : MetricFunc) : M TS R :=
  match data_loader with
  | None => raise TypeError
  | Some data_loader =>
      metric_ls <-
        for_fold data_loader ([] : list R) (fun metric_ls batch =>
          let x := fst batch in
          let teacher := snd batch in
          emit (EvPredict x) ;;;
          result <- on_world (model_predict x) ;;
          ret (metric_ls ++ [mf_call metric_func result teacher])) ;;
      of_result (mean metric_ls)
  end.

(** [train_one_model(model, learning_table, test_dataloader, metric_func_ls)] *)
Definition train_one_model (self : t) (model : BaseModel W)
    (learning_table : LearningTable) (test_dataloader : option DataLoader)
    (metric_func_ls : list MetricFunc) : M TS unit :=
  for_each (range (epochs learning_table)) (fun epoch =>
    mean_loss <- train_epoch self model (data_loader learning_table) ;;
    metric_str <-
      for_fold metric_func_ls ([] : list (string * R)) (fun metric_str metric_func =>
        metric <- calc_metric self (predict model) test_dataloader metric_func ;;
        ret (metric_str ++ [(mf_name metric_func, metric)])) ;;
    emit (EvPrint (MsgEpoch (epoch + 1) (epochs learning_table) mean_loss metric_str)) ;;;
    let callbacks := default [] (callbacks learning_table) in
    for_each (enumerate callbacks) (fun jc =>
      emit (EvCallback (fst jc) epoch) ;;;
      on_world (snd jc epoch) ;;;
      emit (EvCallbackReturn (fst jc) epoch))).

(** [fit(learning_tables, metric_func_ls=None, test_dataloader=None)] *)
Definition fit (self : t) (learning_tables : list LearningTable)
    (metric_func_ls : option (list MetricFunc))
    (test_dataloader : option DataLoader) : M TS unit :=
  assert (bool_decide (length learning_tables
                       = length (model_list (_assemble_model self)))) ;;;
  let metric_func_ls := default [] metric_func_ls in
  for_each (range (Z.of_nat (length learning_tables))) (fun i =>
    learning_table <- of_result (index learning_tables i) ;;
    model <- of_result (index (model_list (_assemble_model self)) i) ;;
    w <- on_world get ;;
    emit (EvPrint (MsgStart i (get_model_config model w))) ;;;
    train_one_model self model learning_table test_dataloader metric_func_ls) ;;;
  total_metric_str <-
    for_fold metric_func_ls ([] : list (string * R)) (fun total_metric_str metric_func =>
      metric <- calc_metric self (assemble_predict (_assemble_model self))
                  test_dataloader metric_func ;;
      ret (total_metric_str ++ [(mf_name metric_func, metric)])) ;;
  emit (EvPrint (MsgTotal total_metric_str)).

End WithWorld.

Arguments LearningTable W : clear implicits.
Arguments AssembleModel W : clear implicits.
Arguments t W : clear implicits.

End XTrainer.

(** ** The adapter as a [BaseModel]

    [class EfficientNet(BaseModel)]: the adapter's methods behind the
    interface the trainer and the callbacks use. *)

Definition EfficientNet_BaseModel
    (network_forward :
       string * Z -> gmap string Tensor -> bool -> Tensor -> Array2 * gmap string Tensor)
    (train_step : Module_ -> Optimizer -> Tensor -> Tensor -> R * Module_ * Optimizer)
    : BaseModel EfficientNet.St :=
  {| class_name := "EfficientNet";
     train_batch := EfficientNet.train_batch train_step;
     predict := EfficientNet.predict network_forward;
     save_weight := EfficientNet.save_weight;
     load_weight := EfficientNet.load_weight;
     get_model_config := fun s => EfficientNet.get_model_config (fst s) |}.

(** * The vocabulary of the properties *)

(** ** The adapter *)

Section AdapterVocabulary.

Import EfficientNet.

Variable network_forward :
  string * Z -> gmap string Tensor -> bool -> Tensor -> Array2 * gmap string Tensor.

(** The first dimension of [(batch size, channel, height, width)]. *)
Definition batch_size (x : Tensor) : nat := hd 0%nat (shape x).

(** What is assumed of the network, which is not among the sources: in
    inference mode a forward pass leaves parameters and buffers as they
    are, and its logits have one row per input and one column per class. *)
Definition eval_forward_pure : Prop :=
  forall a p x, snd (network_forward a p false x) = p.


(** Two adapters have the same architecture: the same network, parameters
    of the same names and shapes, and optimizers over parameter groups of
    the same sizes. *)
Definition same_architecture (a b : t) : Prop :=
  arch (_model a) = arch (_model b) /\
  shape <$> parameters (_model a) = shape <$> parameters (_model b) /\
  pg_params <$> param_groups (_optimizer a) = pg_params <$> param_groups (_optimizer b).

(** The dictionary [save_weight] writes. *)
Definition checkpoint_of (self : t) : gmap string PyVal :=
  <["optimizer" := VOptim (optimizer_state_dict (_optimizer self))]>
  (<["state_dict" := VStateDict (state_dict (_model self))]>
  (<["network" := VStr (_network self)]>
  (<["num_class" := VInt (_num_classes self)]> ∅))).

End AdapterVocabulary.

(** ** The periodic callbacks *)

Section CallbackVocabulary.

Import Callbacks.

Context {MS : Type}.

Variable draw_bounding_boxes_with_name_tag :
  Image -> list BBox -> Z * Z * Z -> string -> Image.

(** The four callbacks constructed with a period. *)
Inductive PeriodicCallback : Type :=
| SegmentationImage (cb : @GenerateSegmentationImageCallback MS)
| AttentionMap (cb : @GenerateAttentionMapCallback MS)
| DetectionResult (cb : @VisualizeRandomObjectDetectionResult MS)
| Checkout (cb : @ModelCheckout MS).

Definition per_epoch (cb : PeriodicCallback) : Z :=
  match cb with
  | SegmentationImage cb => gsi_per_epoch cb
  | AttentionMap cb => gam_per_epoch cb
  | DetectionResult cb => vro_per_epoch cb
  | Checkout cb => mc_per_epoch cb
  end.

(** [callback(epoch)] *)
Definition invoke (cb : PeriodicCallback) (epoch : Z) : M (MS * Env) unit :=
  match cb with
  | SegmentationImage cb => GenerateSegmentationImageCallback__call__ cb epoch
  | AttentionMap cb => GenerateAttentionMapCallback__call__ cb epoch
  | DetectionResult cb =>
      VisualizeRandomObjectDetectionResult__call__ draw_bounding_boxes_with_name_tag cb epoch
  | Checkout cb => ModelCheckout__call__ cb epoch
  end.

End CallbackVocabulary.

(** ** The trainer *)

Section TrainerVocabulary.

Import XTrainer.

Context {W : Type}.

Local Abbreviation TS := (list Event * W)%type.

(** *** The order of the calls

    A step is a call without what it computed. *)
Inductive Step : Type :=
| StTrainBatch (train_x teacher : Tensor)
| StPredict (x : Tensor)
| StStart (i : Z)
| StReport (epoch : Z)
| StTotal
| StCallback (j : nat) (epoch : Z)
| StCallbackReturn (j : nat) (epoch : Z).

Definition step_of (ev : Event) : Step :=
  match ev with
  | EvTrainBatch x t => StTrainBatch x t
  | EvPredict x => StPredict x
  | EvPrint (MsgStart i _) => StStart i
  | EvPrint (MsgEpoch epoch _ _ _) => StReport epoch
  | EvPrint (MsgTotal _) => StTotal
  | EvCallback j epoch => StCallback j epoch
  | EvCallbackReturn j epoch => StCallbackReturn j epoch
  end.

Definition steps (s : TS) : list Step := step_of <$> fst s.

(** [c] follows the schedule [sched]: from any state, the steps it adds to
    the trace are exactly [sched] when it returns, and a prefix of [sched]
    when it raises. *)
Definition follows {A} (c : M TS A) (sched : list Step) : Prop :=
  forall s, exists done,
    steps (snd (c s)) = steps s ++ done /\
    (if is_ok (fst (c s)) then done = sched else done `prefix_of` sched).

(** The schedule of one epoch of [train_one_model]: a [train_batch] per
    batch of the loader, then for each metric a [predict] per batch of the
    test loader, then the report, then every callback in the order of the
    list, each called with the epoch index and returning before the next. *)
Definition train_steps (data_loader : DataLoader) : list Step :=
  (fun batch => StTrainBatch (try_cuda (fst batch)) (try_cuda (snd batch))) <$> data_loader.

Definition predict_steps (test_dataloader : option DataLoader) : list Step :=
  match test_dataloader with
  | None => []
  | Some data_loader => (fun batch => StPredict (fst batch)) <$> data_loader
  end.

Definition metric_steps (test_dataloader : option DataLoader)
    (metric_func_ls : list MetricFunc) : list Step :=
  concat ((fun _ => predict_steps test_dataloader) <$> metric_func_ls).

Definition callback_steps (callbacks : option (list (Z -> M W unit))) (epoch : Z)
    : list Step :=
  concat ((fun jc : nat * (Z -> M W unit) =>
             [StCallback (fst jc) epoch; StCallbackReturn (fst jc) epoch])
          <$> enumerate (default [] callbacks)).

Definition epoch_schedule (learning_table : LearningTable W)
    (test_dataloader : option DataLoader) (metric_func_ls : list MetricFunc)
    (epoch : Z) : list Step :=
  train_steps (data_loader learning_table)
  ++ metric_steps test_dataloader metric_func_ls
  ++ [StReport (epoch + 1)]
  ++ callback_steps (callbacks learning_table) epoch.

Definition train_one_model_schedule (learning_table : LearningTable W)
    (test_dataloader : option DataLoader) (metric_func_ls : list MetricFunc)
    : list Step :=
  concat (epoch_schedule learning_table test_dataloader metric_func_ls
          <$> range (epochs learning_table)).

(** *** The value of [train_epoch]

    [batch_losses model data_loader w losses w']: calling [train_batch] once
    per batch, in the order of the loader, from the state [w], returns the
    losses [losses] and leaves the state [w']. *)
Inductive batch_losses (model : BaseModel W) : DataLoader -> W -> list R -> W -> Prop :=
| batch_losses_nil (w : W) : batch_losses model [] w [] w
| batch_losses_cons (train_x teacher : Tensor) (rest : DataLoader)
    (w w1 w2 : W) (loss : R) (losses : list R) :
    train_batch model (try_cuda train_x) (try_cuda teacher) w = (Ok loss, w1) ->
    batch_losses model rest w1 losses w2 ->
    batch_losses model ((train_x, teacher) :: rest) w (loss :: losses) w2.

Definition train_events (data_loader : DataLoader) : list Event :=
  (fun batch => EvTrainBatch (try_cuda (fst batch)) (try_cuda (snd batch))) <$> data_loader.

End TrainerVocabulary.

(** ** A small network to run the adapter on

    One parameter, ["_fc.bias"], of one entry per class; the logits of every
    input are that parameter (cut or padded to the class count). *)

Definition toy_from_name (network : string) (num_classes : Z) (seed : nat) : Module_ :=
  mkModule (network, num_classes)
    {[ "_fc.bias" := mkTensor [Z.to_nat num_classes]
                        (replicate (Z.to_nat num_classes) (INR seed)) ]}
    true.

Definition toy_num_parameters (a : string * Z) : nat := 1%nat.

Definition toy_forward (a : string * Z) (p : gmap string Tensor) (training : bool)
    (x : Tensor) : Array2 * gmap string Tensor :=
  (replicate (batch_size x)
     (resize (Z.to_nat (snd a)) 0%R
        (match p !! "_fc.bias" with Some b => data b | None => [] end)),
   p).

(** A training step that reports the first entry of [teacher] as the loss
    and leaves the parameters where they are. *)
Definition toy_train_step (m : Module_) (o : Optimizer) (x teacher : Tensor)
    : R * Module_ * Optimizer :=
  (hd 0%R (data teacher), m, o).

Definition toy_adapter (lr : R) (seed : nat) : EfficientNet.t :=
  EfficientNet.__init__ toy_from_name toy_num_parameters 2 "efficientnet-b0"
    lr (9 / 10)%R (1 / 10000)%R seed.

Definition env0 : Env :=
  mkEnv ∅ ∅ [] true false (mkRng (fun _ => 0) 0) [].

(** A batch of four 1x1 one-channel images. *)
Definition batch4 : Tensor := mkTensor [4; 1; 1; 1]%nat [0; 0; 0; 0]%R.

(** A checkpoint callback over the small network, every 5 epochs. *)
Definition toy_checkout : @Callbacks.ModelCheckout EfficientNet.t :=
  {| Callbacks.mc_per_epoch := 5;
     Callbacks.mc_out_dir := "ckpt";
     Callbacks.mc_model := EfficientNet_BaseModel toy_forward toy_train_step |}.

Definition toy_draw (image : Image) (bboxes : list Callbacks.BBox) (color : Z * Z * Z)
    (text : string) : Image := image.

(** ** The trainer on the small network *)

Definition toy_model : BaseModel EfficientNet.St :=
  EfficientNet_BaseModel toy_forward toy_train_step.

Definition toy_trainer (n : nat) : XTrainer.t EfficientNet.St :=
  XTrainer.mk
    {| XTrainer.model_list := replicate n toy_model;
       XTrainer.assemble_predict := predict toy_model |}.

(** Batches of one image whose label tensor holds [v]. *)
Definition toy_batch (v : R) : Tensor * Tensor :=
  (mkTensor [1; 1; 1; 1]%nat [0%R], mkTensor [1%nat] [v]).

Definition toy_table (loader : XTrainer.DataLoader) (epochs : Z)
    : XTrainer.LearningTable EfficientNet.St :=
  {| XTrainer.data_loader := loader;
     XTrainer.epochs := epochs;
     XTrainer.callbacks := Some [invoke toy_draw (Checkout toy_checkout)] |}.

Definition toy_state : EfficientNet.St := (toy_adapter (1 / 10) 7, env0).

(** ** More vocabulary for the trainer *)

Section TrainerVocabulary2.

Import XTrainer.

Context {W : Type}.

(** [batch_metrics model_predict metric_func data_loader w metrics w']:
    calling [predict] once per batch, in the order of the loader, from the
    state [w], and applying [metric_func] to each result and its labels,
    gives the values [metrics] and leaves the state [w']. *)
Inductive batch_metrics (model_predict : Tensor -> M W Array2) (metric_func : MetricFunc)
  : DataLoader -> W -> list R -> W -> Prop :=
| batch_metrics_nil (w : W) : batch_metrics model_predict metric_func [] w [] w
| batch_metrics_cons (x teacher : Tensor) (rest : DataLoader)
    (w w1 w2 : W) (result : Array2) (metrics : list R) :
    model_predict x w = (Ok result, w1) ->
    batch_metrics model_predict metric_func rest w1 metrics w2 ->
    batch_metrics model_predict metric_func ((x, teacher) :: rest) w
      (mf_call metric_func result teacher :: metrics) w2.

Definition predict_events (data_loader : DataLoader) : list Event :=
  (fun batch => EvPredict (fst batch)) <$> data_loader.

(** The schedule of [fit]: for each learning table in order, the line that
    announces its model and the schedule of its training; then the
    [predict] calls of each metric on the assemble model; then the totals. *)
Definition fit_schedule (learning_tables : list (LearningTable W))
    (metric_func_ls : option (list MetricFunc))
    (test_dataloader : option DataLoader) : list Step :=
  concat (imap (fun i learning_table =>
                  StStart (Z.of_nat i)
                  :: train_one_model_schedule learning_table test_dataloader
                       (default [] metric_func_ls))
               learning_tables)
  ++ metric_steps test_dataloader (default [] metric_func_ls)
  ++ [StTotal].

End TrainerVocabulary2.

(** The step is a call of [predict]. *)
Definition is_predict (st : Step) : bool :=
  match st with StPredict _ => true | _ => false end.

(** A model over a call counter whose [train_batch] raises on a batch
    without labels, and otherwise reports the first label as the loss. *)
Definition fragile_model : BaseModel nat :=
  {| class_name := "Fragile";
     train_batch := fun x teacher n =>
       match data teacher with
       | [] => (Raise ValueError, S n)
       | v :: _ => (Ok v, S n)
       end;
     predict := fun x n => (Ok [data x], n);
     save_weight := fun path n => (Ok tt, n);
     load_weight := fun path n => (Ok tt, n);
     get_model_config := fun n => ∅ |}.

Definition fragile_trainer : XTrainer.t nat :=
  XTrainer.mk
    {| XTrainer.model_list := [fragile_model];
       XTrainer.assemble_predict := predict fragile_model |}.

(** A metric: the first entry of the first row of the prediction. *)
Definition first_entry : XTrainer.MetricFunc :=
  {| XTrainer.mf_name := "first_entry";
     XTrainer.mf_call := fun result teacher => hd 0%R (hd [] result) |}.

(** ** The runs of the trainer

    Reference runs of [train_one_model] and [fit] in which every call
    returns: which calls are made, on which arguments, in which order, each
    from the state the call before it left. *)

Section TrainerVocabulary3.

Import XTrainer.

Context {W : Type}.

(** [metric_values model_predict test_dataloader metric_func_ls w metric_str w']:
    computing the metrics in the order of the list, each as the mean over
    the batches of the test loader ([batch_metrics]), from the state [w],
    gives the named values [metric_str] and leaves the state [w'].  With a
    metric to compute there is a test loader, and it has a batch. *)
Inductive metric_values (model_predict : Tensor -> M W Array2)
    (test_dataloader : option DataLoader)
  : list MetricFunc -> W -> list (string * R) -> W -> Prop :=
| metric_values_nil (w : W) : metric_values model_predict test_dataloader [] w [] w
| metric_values_cons (metric_func : MetricFunc) (rest : list MetricFunc)
    (data_loader : DataLoader) (w w1 w2 : W) (metrics : list R)
    (metric_str : list (string * R)) :
    test_dataloader = Some data_loader ->
    data_loader <> [] ->
    batch_metrics model_predict metric_func data_loader w metrics w1 ->
    metric_values model_predict test_dataloader rest w1 metric_str w2 ->
    metric_values model_predict test_dataloader (metric_func :: rest) w
      ((mf_name metric_func, (fsum metrics / INR (length metrics))%R) :: metric_str) w2.

Definition metric_events (test_dataloader : option DataLoader)
    (metric_func_ls : list MetricFunc) : list Event :=
  match test_dataloader with
  | None => []
  | Some data_loader => concat ((fun _ => predict_events data_loader) <$> metric_func_ls)
  end.

(** [callbacks_run callbacks epoch w w']: calling the callbacks with
    [epoch], in the order of the list, each from the state the one before
    it left, from the state [w], leaves the state [w']. *)
Inductive callbacks_run : list (Z -> M W unit) -> Z -> W -> W -> Prop :=
| callbacks_run_nil (epoch : Z) (w : W) : callbacks_run [] epoch w w
| callbacks_run_cons (callback : Z -> M W unit) (rest : list (Z -> M W unit))
    (epoch : Z) (w w1 w2 : W) :
    callback epoch w = (Ok tt, w1) ->
    callbacks_run rest epoch w1 w2 ->
    callbacks_run (callback :: rest) epoch w w2.

(** The calls and returns of the callbacks [first .. first + n - 1]. *)
Definition callback_events_from (first n : nat) (epoch : Z) : list Event :=
  concat ((fun j => [EvCallback j epoch; EvCallbackReturn j epoch]) <$> seq first n).

Definition callback_events (n : nat) (epoch : Z) : list Event :=
  callback_events_from 0 n epoch.

(** The events of one epoch up to its report: with the losses [losses] and
    the metric values [metric_str]. *)
Definition report_events (learning_table : LearningTable W)
    (test_dataloader : option DataLoader) (metric_func_ls : list MetricFunc)
    (epoch : Z) (losses : list R) (metric_str : list (string * R)) : list Event :=
  train_events (data_loader learning_table)
  ++ metric_events test_dataloader metric_func_ls
  ++ [EvPrint (MsgEpoch (epoch + 1) (epochs learning_table)
                 (fsum losses / INR (length losses))%R metric_str)].

(** [epochs_run model learning_table test_dataloader metric_func_ls epoch_ls w events w']:
    running the epochs of [epoch_ls] in order from the state [w]: in each,
    [train_batch] on every batch of the loader, then the metrics on
    [model]'s [predict], then the report of the mean loss and the metrics,
    then the callbacks of the table on the epoch; the next epoch starts from
    the state the last callback left.  [events] are the events of the run
    and [w'] the state it leaves. *)
Inductive epochs_run (model : BaseModel W) (learning_table : LearningTable W)
    (test_dataloader : option DataLoader) (metric_func_ls : list MetricFunc)
  : list Z -> W -> list Event -> W -> Prop :=
| epochs_run_nil (w : W) :
    epochs_run model learning_table test_dataloader metric_func_ls [] w [] w
| epochs_run_cons (epoch : Z) (rest : list Z) (w w1 w2 w3 w4 : W)
    (losses : list R) (metric_str : list (string * R)) (events : list Event) :
    data_loader learning_table <> [] ->
    batch_losses model (data_loader learning_table) w losses w1 ->
    metric_values (predict model) test_dataloader metric_func_ls w1 metric_str w2 ->
    callbacks_run (default [] (callbacks learning_table)) epoch w2 w3 ->
    epochs_run model learning_table test_dataloader metric_func_ls rest w3 events w4 ->
    epochs_run model learning_table test_dataloader metric_func_ls (epoch :: rest) w
      (report_events learning_table test_dataloader metric_func_ls epoch losses metric_str
       ++ callback_events (length (default [] (callbacks learning_table))) epoch
       ++ events)
      w4.

(** [fit_run test_dataloader metric_func_ls i models learning_tables w events w']:
    training the models of [models], numbered from [i], each on the
    learning table at its own position, one after the other from the state
    [w]: the line that announces the model, then all the epochs of its
    table ([epochs_run]). *)
Inductive fit_run (test_dataloader : option DataLoader) (metric_func_ls : list MetricFunc)
  : nat -> list (BaseModel W) -> list (LearningTable W) -> W -> list Event -> W -> Prop :=
| fit_run_nil (i : nat) (w : W) : fit_run test_dataloader metric_func_ls i [] [] w [] w
| fit_run_cons (i : nat) (model : BaseModel W) (models : list (BaseModel W))
    (learning_table : LearningTable W) (learning_tables : list (LearningTable W))
    (w w1 w2 : W) (events events' : list Event) :
    epochs_run model learning_table test_dataloader metric_func_ls
      (range (epochs learning_table)) w events w1 ->
    fit_run test_dataloader metric_func_ls (S i) models learning_tables w1 events' w2 ->
    fit_run test_dataloader metric_func_ls i (model :: models)
      (learning_table :: learning_tables) w
      (EvPrint (MsgStart (Z.of_nat i) (get_model_config model w)) :: events ++ events') w2.

(** Two models that differ at most in [predict] (and in what the trainer
    does not use). *)
Definition same_training (model model' : BaseModel W) : Prop :=
  train_batch model = train_batch model' /\
  get_model_config model = get_model_config model'.

End TrainerVocabulary3.

(** A model and callbacks that keep a journal of their calls: the state is
    the list of the marks left, in the order of the calls.  [train_batch]
    leaves [id], [predict] leaves [id + 1], and a callback its own [id] plus
    the epoch it was called with. *)
Definition journal_model (id : Z) : BaseModel (list Z) :=
  {| class_name := "Journal";
     train_batch := fun x teacher log => (Ok (hd 0%R (data teacher)), log ++ [id]);
     predict := fun x log => (Ok [data x], log ++ [id + 1]);
     save_weight := fun path log => (Ok tt, log);
     load_weight := fun path log => (Ok tt, log);
     get_model_config := fun log => ∅ |}.

Definition journal_callback (id : Z) (epoch : Z) : M (list Z) unit :=
  fun log => (Ok tt, log ++ [id + epoch]).

(** A callback that raises at epoch 1. *)
Definition journal_callback_failing (id : Z) (epoch : Z) : M (list Z) unit :=
  fun log =>
    if decide (epoch = 1) then (Raise RuntimeError, log ++ [- id])
    else (Ok tt, log ++ [id + epoch]).

Definition journal_table (loader : XTrainer.DataLoader) (epochs : Z)
    (callbacks : list (Z -> M (list Z) unit)) : XTrainer.LearningTable (list Z) :=
  {| XTrainer.data_loader := loader;
     XTrainer.epochs := epochs;
     XTrainer.callbacks := Some callbacks |}.

Definition journal_trainer (models : list (BaseModel (list Z))) : XTrainer.t (list Z) :=
  XTrainer.mk
    {| XTrainer.model_list := models;
       XTrainer.assemble_predict := fun x log => (Ok [data x], log ++ [1]) |}.

(** A test loader of one batch, whose image holds [v]. *)
Definition journal_test (v : R) : XTrainer.DataLoader :=
  [(mkTensor [1%nat] [v], mkTensor [1%nat] [0%R])].

(** The events of one epoch of the journal model over the loader
    [[toy_batch 2]], with the metric [first_entry] on [journal_test 3],
    up to the report. *)
Definition journal_report (epoch epochs : Z) : list XTrainer.Event :=
  [XTrainer.EvTrainBatch (fst (toy_batch 2)) (snd (toy_batch 2));
   XTrainer.EvPredict (mkTensor [1%nat] [3%R]);
   XTrainer.EvPrint
     (XTrainer.MsgEpoch (epoch + 1) epochs ((2 + 0) / 1)%R
        [("first_entry", ((3 + 0) / 1)%R)])].

(** The model with another [predict]. *)
Definition with_predict {W : Type} (p : Tensor -> M W Array2) (model : BaseModel W)
    : BaseModel W :=
  {| class_name := class_name model;
     train_batch := train_batch model;
     predict := p;
     save_weight := save_weight model;
     load_weight := load_weight model;
     get_model_config := get_model_config model |}.

(** ** More vocabulary for the adapter *)

(** The adapter [b] after a successful [load_weight] of a checkpoint of
    [a]: everything of [a], except the network object and its mode, which
    stay [b]'s own. *)
Definition restored (b a : EfficientNet.t) : EfficientNet.t :=
  EfficientNet.mk (EfficientNet._num_classes a)
    (mkModule (arch (EfficientNet._model b)) (parameters (EfficientNet._model a))
       (training (EfficientNet._model b)))
    (EfficientNet._network a) (EfficientNet._optimizer a).

(** The environment after the two lines [load_weight] prints. *)
Definition after_load_prints (num_class : Z) (env : Env) : Env :=
  set_stdout (stdout env ++ ["The pretrained weight is loaded";
                             "Num classes: " +:+ pretty num_class]) env.

(** The small network with three classes. *)
Definition toy_adapter3 (lr : R) (seed : nat) : EfficientNet.t :=
  EfficientNet.__init__ toy_from_name toy_num_parameters 3 "efficientnet-b0"
    lr (9 / 10)%R (1 / 10000)%R seed.

(** ** More vocabulary for the callbacks *)


(** The callback's guard lets the epoch through. *)
Definition fires (per_epoch epoch : Z) : bool :=
  match Callbacks.skips per_epoch epoch with
  | Ok false => true
  | _ => false
  end.

(** The file [ModelCheckout] writes at an epoch. *)
Definition checkout_path {MS : Type} (cb : @Callbacks.ModelCheckout MS) (epoch : Z)
    : string :=
  Callbacks.mc_out_dir cb +:+ "/" +:+ class_name (Callbacks.mc_model cb) +:+ "_ep"
    +:+ pretty (epoch + 1) +:+ ".pth".

(** The file [GenerateSegmentationImageCallback] writes at an epoch. *)
Definition segmentation_path {MS : Type}
    (cb : @Callbacks.GenerateSegmentationImageCallback MS) (epoch : Z) : string :=
  Callbacks.gsi_output_dir cb +:+ "/result_image" +:+ pretty (epoch + 1) +:+ ".png".

(** The label of a box names an entry of a list of [n] names, counting
    from the end when negative. *)
Definition label_in_range (n : nat) (bbox : Callbacks.BBox) : Prop :=
  (- Z.of_nat n <= snd bbox < Z.of_nat n)%Z.

(** A segmentation model that draws the image itself, and a callback over
    it that fires at every epoch. *)
Definition toy_segmentation_model : SegmentationModel (unit * Env) :=
  {| seg_draw_predicted_result := fun img size palette => ret (mkImage img) |}.

Definition toy_segmentation (dataset : Callbacks.Dataset unit)
    : @Callbacks.GenerateSegmentationImageCallback unit :=
  Callbacks.GenerateSegmentationImageCallback__init__ [0; 0; 0]
    toy_segmentation_model "out" 1 dataset 150 None.

(** * Properties *)

(** ** The schedulers *)

Section SchedulerFacts.

Import Callbacks.

Local Open Scope R_scope.


Lemma two_lt_float_overflow : 2 < float_overflow.
Proof. unfold float_overflow. apply IZR_lt. reflexivity. Qed.

Lemma float_overflow_large : IZR (2 ^ 1000) + 1 < float_overflow.
Proof. unfold float_overflow. rewrite <- plus_IZR. apply IZR_lt. reflexivity. Qed.

Lemma in_float_range_ok (x : R) : Rabs x < float_overflow -> in_float_range x = Ok x.
Proof.
  intros H. unfold in_float_range.
  destruct (Rle_dec float_overflow (Rabs x)) as [Hle | _]; [lra | reflexivity].
Qed.





Lemma math_pow_positive_base (x y : R) :
  0 < x -> Rabs (Rpower x y) < float_overflow -> math_pow x y = Ok (Rpower x y).
Proof.
  intros Hx Hrange. unfold math_pow.
  destruct (Req_dec_T y 0) as [-> | Hy].
  - rewrite Rpower_O by exact Hx. reflexivity.
  - destruct (Req_dec_T x 0) as [-> | _]; [lra | ].
    destruct (Rlt_dec 0 x) as [_ | H]; [ | contradiction].
    apply in_float_range_ok. exact Hrange.
Qed.



Lemma Int_part_of_IZR (z : Z) : Int_part (IZR z) = z.
Proof. symmetry. apply Int_part_spec. lra. Qed.

Lemma math_pow_integer (x : R) (z : Z) :
  x <> 0 \/ (0 <= z)%Z -> Rabs (powerRZ x z) < float_overflow ->
  math_pow x (IZR z) = Ok (powerRZ x z).
Proof.
  intros Hdom Hrange. unfold math_pow.
  destruct (Req_dec_T (IZR z) 0) as [Hz | Hz].
  - apply eq_IZR in Hz. subst z. reflexivity.
  - assert (z <> 0%Z) as Hz0 by (intros ->; apply Hz; reflexivity).
    destruct (Req_dec_T x 0) as [-> | Hx].
    + assert (0 < z)%Z as Hpos by (destruct Hdom as [H | H]; [congruence | lia]).
      destruct (Rlt_dec 0 (IZR z)) as [_ | H]; [ | exfalso; apply H, IZR_lt, Hpos].
      destruct z as [ | q | q]; try lia.
      cbn. rewrite pow_i by apply Pos2Nat.is_pos. reflexivity.
    + destruct (Rlt_dec 0 x) as [Hx0 | Hx0].
      * rewrite <- powerRZ_Rpower by exact Hx0.
        apply in_float_range_ok. exact Hrange.
      * rewrite Int_part_of_IZR.
        destruct (Req_dec_T (IZR z) (IZR z)) as [_ | H]; [ | congruence].
        apply in_float_range_ok. exact Hrange.
Qed.

Lemma math_pow_zero_base (y : R) : 0 < y -> math_pow 0 y = Ok 0.
Proof.
  intros Hy. unfold math_pow.
  destruct (Req_dec_T y 0) as [-> | _]; [lra | ].
  destruct (Req_dec_T 0 0) as [_ | H]; [ | congruence].
  destruct (Rlt_dec 0 y) as [_ | H]; [reflexivity | contradiction].
Qed.



Lemma round_near_one_cases (q : R) :
  (round_near_one q = q /\
   (q < 1 - / 18014398509481984 \/ 1 + / 9007199254740992 < q)) \/
  (round_near_one q = 1 /\ 1 - / 18014398509481984 <= q <= 1 + / 9007199254740992).
Proof.
  unfold round_near_one.
  change (IZR (2 ^ 54)) with 18014398509481984.
  change (IZR (2 ^ 53)) with 9007199254740992.
  destruct (Rle_dec (1 - / 18014398509481984) q) as [Hlo | Hlo].
  - destruct (Rle_dec q (1 + / 9007199254740992)) as [Hhi | Hhi].
    + right. auto.
    + left. split; [reflexivity | right; lra].
  - left. split; [reflexivity | left; lra].
Qed.




Lemma round_near_one_one : round_near_one 1 = 1.
Proof. destruct (round_near_one_cases 1) as [[-> _] | [-> _]]; reflexivity. Qed.

(** Two different ints, the divisor below 2^53 in magnitude: their quotient
    is too far from 1 to round to 1.0. *)
Lemma quotient_far_from_one (a b : Z) :
  b <> 0%Z -> (Z.abs b < 2 ^ 53)%Z -> a <> b ->
  IZR a / IZR b < 1 - / 9007199254740992 \/ 1 + / 9007199254740992 < IZR a / IZR b.
Proof.
  intros Hb Hsmall Hne.
  change (2 ^ 53)%Z with 9007199254740992%Z in Hsmall.
  assert (IZR b <> 0) as Hb0 by (intros H; apply eq_IZR in H; contradiction).
  assert (IZR a = IZR a / IZR b * IZR b) as E by (field; exact Hb0).
  assert (- 9007199254740991 <= IZR b <= 9007199254740991) as Hrange.
  { split; apply IZR_le; lia. }
  assert (IZR b <= -1 \/ 1 <= IZR b) as Hsign.
  { destruct (Z_lt_le_dec b 0); [left | right]; apply IZR_le; lia. }
  assert (IZR a - IZR b <= -1 \/ 1 <= IZR a - IZR b) as Hgap.
  { rewrite <- minus_IZR.
    destruct (Z_lt_le_dec a b); [left | right]; apply IZR_le; lia. }
  revert E. generalize (IZR a / IZR b). intros q E.
  destruct (Rlt_dec q (1 - / 9007199254740992)) as [Hlo | Hlo]; [left; exact Hlo | ].
  destruct (Rlt_dec (1 + / 9007199254740992) q) as [Hhi | Hhi]; [right; exact Hhi | ].
  exfalso.
  assert (- / 9007199254740992 <= q - 1 <= / 9007199254740992) as Hq by lra.
  assert (IZR a - IZR b = (q - 1) * IZR b) as E' by lra.
  destruct Hsign as [Hneg | Hpos].
  - assert ((q - 1) * IZR b <= / 9007199254740992 * 9007199254740991) by nra.
    assert (- (/ 9007199254740992 * 9007199254740991) <= (q - 1) * IZR b) by nra.
    lra.
  - assert ((q - 1) * IZR b <= / 9007199254740992 * 9007199254740991) by nra.
    assert (- (/ 9007199254740992 * 9007199254740991) <= (q - 1) * IZR b) by nra.
    lra.
Qed.

Lemma quotient_exact (a b : Z) :
  b <> 0%Z -> (Z.abs b < 2 ^ 53)%Z -> round_near_one (IZR a / IZR b) = IZR a / IZR b.
Proof.
  intros Hb Hsmall. destruct (Z.eq_dec a b) as [-> | Hne].
  - replace (IZR b / IZR b) with 1; [apply round_near_one_one | ].
    field. intros H. apply eq_IZR in H. contradiction.
  - pose proof (quotient_far_from_one a b Hb Hsmall Hne) as Hfar.
    destruct (round_near_one_cases (IZR a / IZR b)) as [[-> _] | [_ H]];
      [reflexivity | lra].
Qed.



Lemma scheduler_base_negative (max_epoch epoch : Z) :
  (0 < max_epoch < epoch)%Z -> 1 < IZR epoch / IZR max_epoch.
Proof.
  intros [Hm He]. apply IZR_lt in Hm. apply IZR_lt in He.
  assert (IZR epoch = IZR epoch / IZR max_epoch * IZR max_epoch) as E
    by (field; lra).
  revert E. generalize (IZR epoch / IZR max_epoch). intros q E. nra.
Qed.

(** The magnitude of a quotient of ints is at most that of the dividend. *)
Lemma quotient_bound (a b : Z) :
  b <> 0%Z -> Rabs (IZR a / IZR b) <= IZR (Z.abs a).
Proof.
  intros Hb. rewrite abs_IZR.
  assert (1 <= Rabs (IZR b)) as Hb1.
  { rewrite <- abs_IZR. apply IZR_le. lia. }
  assert (IZR b <> 0) as Hb0 by (intros H; apply eq_IZR in H; contradiction).
  assert (Rabs (IZR a / IZR b) * Rabs (IZR b) = Rabs (IZR a)) as E.
  { rewrite <- Rabs_mult. f_equal. field. exact Hb0. }
  pose proof (Rabs_pos (IZR a / IZR b)) as Hq.
  revert E Hq. generalize (Rabs (IZR a / IZR b)). intros q E Hq. nra.
Qed.

(** The call when the quotient is in the range of the floats, and when it
    is not. *)
Lemma LearningRateScheduler_call_rounded (max_epoch epoch : Z) (power : option R) :
  max_epoch <> 0%Z ->
  Rabs (round_near_one (IZR epoch / IZR max_epoch)) < float_overflow ->
  LearningRateScheduler__call__ (LearningRateScheduler__init__ max_epoch power) epoch
  = math_pow (1 - round_near_one (IZR epoch / IZR max_epoch)) (default (9 / 10) power).
Proof.
  intros Hm Hrange. unfold LearningRateScheduler__call__, truediv. cbn.
  destruct (decide (max_epoch = 0%Z)) as [E | _]; [contradiction | ].
  rewrite in_float_range_ok by exact Hrange. reflexivity.
Qed.

Lemma LearningRateScheduler_call_in_range (max_epoch epoch : Z) (power : option R) :
  max_epoch <> 0%Z -> (Z.abs max_epoch < 2 ^ 53)%Z ->
  Rabs (IZR epoch / IZR max_epoch) < float_overflow ->
  LearningRateScheduler__call__ (LearningRateScheduler__init__ max_epoch power) epoch
  = math_pow (1 - IZR epoch / IZR max_epoch) (default (9 / 10) power).
Proof.
  intros Hm Hsmall Hrange.
  rewrite LearningRateScheduler_call_rounded;
    rewrite ?quotient_exact by assumption; [reflexivity | exact Hm | exact Hrange].
Qed.





End SchedulerFacts.

Section Schedulers.

Import Callbacks.

Local Open Scope R_scope.




(** C7.  [WarmUpLRScheduler(warmup_lr, lr, warmup_epochs)(epoch)] is
    [warmup_lr] when [epoch < warmup_epochs] and [lr] otherwise. *)
Theorem WarmUpLRScheduler_call_spec (warmup_lr lr : R) (warmup_epochs epoch : Z) :
  let self := WarmUpLRScheduler__init__ (Some warmup_lr) (Some lr) (Some warmup_epochs) in
  ((epoch < warmup_epochs)%Z -> WarmUpLRScheduler__call__ self epoch = warmup_lr) /\
  ((warmup_epochs <= epoch)%Z -> WarmUpLRScheduler__call__ self epoch = lr).
Proof.
  cbn. unfold WarmUpLRScheduler__call__. cbn.
  split; intros H; destruct (decide (epoch < warmup_epochs)%Z); (reflexivity || lia).
Qed.

(** The spec's example for C7: with [warmup_lr = 0.01], [lr = 0.0001] and
    [warmup_epochs = 10], the value at epoch 5 is 0.01 and at epoch 10 is
    0.0001. *)
Lemma WarmUpLRScheduler_call_examples :
  WarmUpLRScheduler__call__
    (WarmUpLRScheduler__init__ (Some (1 / 100)) (Some (1 / 10000)) (Some 10%Z)) 5
  = 1 / 100 /\
  WarmUpLRScheduler__call__
    (WarmUpLRScheduler__init__ (Some (1 / 100)) (Some (1 / 10000)) (Some 10%Z)) 10
  = 1 / 10000.
Proof.
  split.
  - apply (proj1 (WarmUpLRScheduler_call_spec (1 / 100) (1 / 10000) 10 5)). lia.
  - apply (proj2 (WarmUpLRScheduler_call_spec (1 / 100) (1 / 10000) 10 10)). lia.
Defined.


(** At [max_epoch = 2^53] the quotient at the next epoch rounds to 1.0: the
    base is 0.0, and the call returns 0.0 where the base over the reals is
    negative. *)
Lemma LearningRateScheduler_call_rounds_to_one :
  LearningRateScheduler__call__ (LearningRateScheduler__init__ (2 ^ 53) None) (2 ^ 53 + 1)
  = Ok 0.
Proof.
  assert (round_near_one (IZR (2 ^ 53 + 1) / IZR (2 ^ 53)) = 1) as E.
  { destruct (round_near_one_cases (IZR (2 ^ 53 + 1) / IZR (2 ^ 53))) as [[_ H] | [E _]];
      [exfalso | exact E].
    change (IZR (2 ^ 53 + 1)) with 9007199254740993 in H.
    change (IZR (2 ^ 53)) with 9007199254740992 in H. lra. }
  rewrite LearningRateScheduler_call_rounded.
  - rewrite E. replace (1 - 1) with 0 by lra. apply math_pow_zero_base. cbn. lra.
  - discriminate.
  - rewrite E. pose proof two_lt_float_overflow. apply Rabs_def1; lra.
Qed.



End Schedulers.

(** ** The adapter *)

Section AdapterFacts.

Import EfficientNet.

Local Open Scope R_scope.

Lemma fsum_nil : fsum [] = 0.
Proof. reflexivity. Qed.

Lemma fsum_cons (v : R) (l : list R) : fsum (v :: l) = v + fsum l.
Proof. reflexivity. Qed.

Lemma fsum_app (l1 l2 : list R) : fsum (l1 ++ l2) = fsum l1 + fsum l2.
Proof.
  induction l1 as [ | v l1 IH].
  - rewrite app_nil_l, fsum_nil. lra.
  - rewrite <- app_comm_cons, !fsum_cons, IH. lra.
Qed.






End AdapterFacts.

Section Adapter.

Import EfficientNet.

Local Open Scope R_scope.

Variable network_forward :
  string * Z -> gmap string Tensor -> bool -> Tensor -> Array2 * gmap string Tensor.

Lemma set_grad_enabled_restore (env : Env) (g : bool) :
  set_grad_enabled (grad_enabled env) (set_grad_enabled g env) = env.
Proof. destruct env. reflexivity. Qed.

(** What [predict] returns, spelled out. *)
Lemma predict_unfold (self : t) (env : Env) (inputs : Tensor) :
  predict network_forward inputs (self, env) =
  let m := _model self in
  let '(out, params') := network_forward (arch m) (parameters m) false inputs in
  (Ok (Softmax_dim1 out),
   (set_model (mkModule (arch m) params' false) self, env)).
Proof.
  unfold predict, with_no_grad, call_model, on_model, on_self, zoom, bind, Torch.eval,
    modify, of_result, numpy, ret, try_cuda.
  cbn.
  destruct (network_forward (arch (_model self)) (parameters (_model self)) false inputs)
    as [out params'] eqn:E.
  cbn. rewrite set_grad_enabled_restore. reflexivity.
Qed.


Lemma save_weight_unfold (self : t) (env : Env) (path : string) :
  save_weight path (self, env) =
  (Ok tt, (self, set_fs (<[path := FPickle (checkpoint_of self)]> (fs env)) env)).
Proof. reflexivity. Qed.

Lemma checkpoint_of_lookup (self : t) :
  getitem (checkpoint_of self) "num_class" = Ok (VInt (_num_classes self)) /\
  getitem (checkpoint_of self) "network" = Ok (VStr (_network self)) /\
  getitem (checkpoint_of self) "state_dict" = Ok (VStateDict (state_dict (_model self))) /\
  getitem (checkpoint_of self) "optimizer"
  = Ok (VOptim (optimizer_state_dict (_optimizer self))).
Proof.
  unfold getitem, checkpoint_of.
  repeat split; simplify_map_eq; reflexivity.
Qed.

Lemma load_weight_of_checkpoint (a b : t) (env : Env) (path : string) :
  same_architecture a b ->
  fs env !! path = Some (FPickle (checkpoint_of a)) ->
  load_weight path (b, env) =
  (Ok tt,
   (mk (_num_classes a)
       (mkModule (arch (_model b)) (parameters (_model a)) (training (_model b)))
       (_network a) (_optimizer a),
    set_stdout (stdout env ++ ["The pretrained weight is loaded";
                               "Num classes: " +:+ pretty (_num_classes a)]) env)).
Proof.
  intros (Harch & Hshape & Hgroups) Hfile.
  destruct (checkpoint_of_lookup a) as (Hn & Hnet & Hsd & Hopt).
  unfold load_weight, bind, on_env, on_model, on_optimizer, on_self, zoom, load,
    of_result.
  cbn. rewrite Hfile. cbn. rewrite Hn. cbn. rewrite Hsd. cbn.
  unfold load_state_dict, state_dict. cbn.
  destruct (decide (shape <$> parameters (_model a) = shape <$> parameters (_model b)))
    as [_ | H]; [ | contradiction].
  cbn. rewrite Hopt. cbn.
  unfold optimizer_load_state_dict, optimizer_state_dict. cbn.
  destruct (decide (length (param_groups (_optimizer a))
                    = length (param_groups (_optimizer b)))) as [_ | H].
  2: { exfalso. apply H.
       rewrite <- (length_fmap pg_params (param_groups (_optimizer a))), Hgroups.
       apply length_fmap. }
  destruct (decide (pg_params <$> param_groups (_optimizer a)
                    = pg_params <$> param_groups (_optimizer b)))
    as [_ | H]; [ | contradiction].
  cbn. rewrite Hnet. cbn.
  destruct env. unfold set_stdout. cbn. rewrite <- app_assoc. reflexivity.
Qed.

(** C1.  [save_weight(path)] on an adapter [a], then [load_weight(path)] on
    an adapter [b] of the same architecture: both return, [b] then has the
    class count, the network name, the parameter state and the optimizer
    state of [a], and [predict] gives the same array on both for every
    input. *)
Theorem save_load_roundtrip (a b : t) (env : Env) (path : string) (inputs : Tensor) :
  same_architecture a b ->
  exists env1 b' env2,
    save_weight path (a, env) = (Ok tt, (a, env1)) /\
    load_weight path (b, env1) = (Ok tt, (b', env2)) /\
    _num_classes b' = _num_classes a /\
    _network b' = _network a /\
    state_dict (_model b') = state_dict (_model a) /\
    optimizer_state_dict (_optimizer b') = optimizer_state_dict (_optimizer a) /\
    fst (predict network_forward inputs (b', env2))
    = fst (predict network_forward inputs (a, env1)).
Proof.
  intros Hsame.
  eexists. eexists. eexists.
  split; [apply save_weight_unfold | ].
  split.
  { apply load_weight_of_checkpoint; [exact Hsame | ].
    cbn. apply lookup_insert_eq. }
  split; [reflexivity | ]. split; [reflexivity | ].
  split; [reflexivity | ]. split; [reflexivity | ].
  destruct Hsame as (Harch & _ & _).
  rewrite !predict_unfold. cbn. rewrite <- Harch.
  destruct (network_forward (arch (_model a)) (parameters (_model a)) false inputs).
  reflexivity.
Qed.

Lemma same_architecture_refl (a : t) : same_architecture a a.
Proof. repeat split. Qed.

Lemma same_architecture_sym (a b : t) : same_architecture a b -> same_architecture b a.
Proof. intros (H1 & H2 & H3). repeat split; symmetry; assumption. Qed.

Lemma same_architecture_trans (a b c : t) :
  same_architecture a b -> same_architecture b c -> same_architecture a c.
Proof.
  intros (H1 & H2 & H3) (H1' & H2' & H3').
  repeat split; etransitivity; eassumption.
Qed.

(** Adapters built by the constructor for the same network name and class
    count have the same architecture, whatever the learning rate, momentum,
    weight decay and initial parameters, as long as [from_name] gives
    networks whose parameter names and shapes depend on the name and the
    class count only. *)
Lemma fresh_same_architecture
    (from_name : string -> Z -> nat -> Module_) (num_parameters : string * Z -> nat)
    (num_classes : Z) (network : string)
    (lr1 momentum1 weight_decay1 lr2 momentum2 weight_decay2 : R) (seed1 seed2 : nat) :
  (forall n c s1 s2, arch (from_name n c s1) = arch (from_name n c s2)) ->
  (forall n c s1 s2,
     shape <$> parameters (from_name n c s1) = shape <$> parameters (from_name n c s2)) ->
  same_architecture
    (__init__ from_name num_parameters num_classes network lr1 momentum1 weight_decay1 seed1)
    (__init__ from_name num_parameters num_classes network lr2 momentum2 weight_decay2 seed2).
Proof.
  intros Harch Hshape. unfold same_architecture, __init__. cbn.
  split; [apply Harch | ]. split; [apply Hshape | ].
  rewrite (Harch network num_classes seed1 seed2). reflexivity.
Qed.

(** After the load, [b] has the architecture of [a] (and of the [b] before). *)
Lemma load_weight_same_architecture (a b : t) (env : Env) (path : string) :
  same_architecture a b ->
  fs env !! path = Some (FPickle (checkpoint_of a)) ->
  same_architecture a (fst (snd (load_weight path (b, env)))).
Proof.
  intros Hsame Hfile. rewrite (load_weight_of_checkpoint a b env path Hsame Hfile).
  destruct Hsame as (H1 & H2 & H3). repeat split; cbn; assumption.
Qed.

End Adapter.

Section AdapterExamples.

Import EfficientNet.

Local Open Scope R_scope.

Lemma toy_forward_eval_pure : eval_forward_pure toy_forward.
Proof. intros a p x. reflexivity. Qed.


Lemma toy_adapters_same_architecture (lr1 lr2 : R) (seed1 seed2 : nat) :
  same_architecture (toy_adapter lr1 seed1) (toy_adapter lr2 seed2).
Proof.
  apply fresh_same_architecture.
  - reflexivity.
  - intros n c s1 s2. unfold toy_from_name. cbn.
    rewrite !map_fmap_singleton. reflexivity.
Qed.

(** C1 at an adapter with learning rate 0.1 and parameters from seed 7,
    saved to ["w.pth"] and loaded into a new adapter with learning rate 0.5
    and parameters from seed 3. *)
Lemma save_load_roundtrip_example :
  exists env1 b' env2,
    save_weight "w.pth" (toy_adapter (1 / 10) 7, env0)
    = (Ok tt, (toy_adapter (1 / 10) 7, env1)) /\
    load_weight "w.pth" (toy_adapter (1 / 2) 3, env1) = (Ok tt, (b', env2)) /\
    _num_classes b' = _num_classes (toy_adapter (1 / 10) 7) /\
    _network b' = _network (toy_adapter (1 / 10) 7) /\
    state_dict (_model b') = state_dict (_model (toy_adapter (1 / 10) 7)) /\
    optimizer_state_dict (_optimizer b')
    = optimizer_state_dict (_optimizer (toy_adapter (1 / 10) 7)) /\
    fst (predict toy_forward batch4 (b', env2))
    = fst (predict toy_forward batch4 (toy_adapter (1 / 10) 7, env1)).
Proof.
  exact (save_load_roundtrip toy_forward (toy_adapter (1 / 10) 7) (toy_adapter (1 / 2) 3)
           env0 "w.pth" batch4
           (toy_adapters_same_architecture (1 / 10) (1 / 2) 7 3)).
Defined.


End AdapterExamples.

(** ** The periodic callbacks *)

Section PeriodicCallbacks.

Import Callbacks.

Context {MS : Type}.

Variable draw_bounding_boxes_with_name_tag :
  Image -> list BBox -> Z * Z * Z -> string -> Image.

Lemma skips_off_period (n epoch : Z) :
  n <> 0 -> (epoch + 1) `mod` n <> 0 -> skips n epoch = Ok true.
Proof.
  intros Hn Hmod. unfold skips, mod_.
  destruct (decide (n = 0)) as [E | _]; [contradiction | ].
  rewrite bool_decide_eq_false_2 by exact Hmod. reflexivity.
Qed.

Lemma skips_on_period (n epoch : Z) :
  n <> 0 -> (epoch + 1) `mod` n = 0 -> skips n epoch = Ok false.
Proof.
  intros Hn Hmod. unfold skips, mod_.
  destruct (decide (n = 0)) as [E | _]; [contradiction | ].
  rewrite bool_decide_eq_true_2 by exact Hmod. reflexivity.
Qed.

Lemma skips_zero_period (epoch : Z) : skips 0 epoch = Raise ZeroDivisionError.
Proof. reflexivity. Qed.

(** A callback whose guard skips, or raises, leaves everything as it was. *)
Lemma invoke_guarded (cb : @PeriodicCallback MS) (epoch : Z) (w : MS * Env) :
  match skips (per_epoch cb) epoch with
  | Ok true => invoke draw_bounding_boxes_with_name_tag cb epoch w = (Ok tt, w)
  | Ok false => True
  | Raise e => invoke draw_bounding_boxes_with_name_tag cb epoch w = (Raise e, w)
  end.
Proof.
  destruct cb as [cb | cb | cb | cb]; cbn [per_epoch invoke];
    unfold GenerateSegmentationImageCallback__call__,
      GenerateAttentionMapCallback__call__,
      VisualizeRandomObjectDetectionResult__call__, ModelCheckout__call__,
      bind, of_result;
    match goal with |- context [skips ?n epoch] => destruct (skips n epoch) as [[ | ] | e] end;
    reflexivity || exact I.
Qed.

(** C5.  A periodic callback invoked at an epoch with
    [(epoch + 1) % per_epoch != 0] returns without doing anything: no file
    is written, no weight is saved, and the models and the environment are
    as before. *)
Theorem periodic_callback_noop (cb : @PeriodicCallback MS) (epoch : Z) (w : MS * Env) :
  per_epoch cb <> 0 ->
  (epoch + 1) `mod` per_epoch cb <> 0 ->
  invoke draw_bounding_boxes_with_name_tag cb epoch w = (Ok tt, w).
Proof.
  intros Hn Hmod. pose proof (invoke_guarded cb epoch w) as H.
  rewrite (skips_off_period _ _ Hn Hmod) in H. exact H.
Qed.

(** The other direction of C5: a callback changes something only at an epoch
    with [(epoch + 1) % per_epoch == 0]. *)
Lemma periodic_callback_effect_on_period (cb : @PeriodicCallback MS) (epoch : Z)
    (w : MS * Env) :
  snd (invoke draw_bounding_boxes_with_name_tag cb epoch w) <> w ->
  per_epoch cb <> 0 /\ (epoch + 1) `mod` per_epoch cb = 0.
Proof.
  intros Hchange. pose proof (invoke_guarded cb epoch w) as H.
  destruct (decide (per_epoch cb = 0)) as [E | Hn].
  - rewrite E, skips_zero_period in H. rewrite H in Hchange. contradiction.
  - split; [exact Hn | ].
    destruct (decide ((epoch + 1) `mod` per_epoch cb = 0)) as [E | Hmod]; [exact E | ].
    rewrite (skips_off_period _ _ Hn Hmod) in H. rewrite H in Hchange. contradiction.
Qed.

(** At an epoch on the period, [ModelCheckout] saves the weights to
    [{out_dir}/{class}_ep{epoch + 1}.pth]. *)
Lemma ModelCheckout_saves_on_period (cb : @ModelCheckout MS) (epoch : Z) (w : MS * Env) :
  mc_per_epoch cb <> 0 ->
  (epoch + 1) `mod` mc_per_epoch cb = 0 ->
  ModelCheckout__call__ cb epoch w =
  save_weight (mc_model cb)
    (mc_out_dir cb +:+ "/" +:+ class_name (mc_model cb) +:+ "_ep"
       +:+ pretty (epoch + 1) +:+ ".pth") w.
Proof.
  intros Hn Hmod. unfold ModelCheckout__call__, bind, of_result.
  rewrite (skips_on_period _ _ Hn Hmod). reflexivity.
Qed.

End PeriodicCallbacks.

Section PeriodicCallbackExamples.

Import Callbacks.

Lemma toy_checkout_epoch4 :
  fs (snd (snd (invoke toy_draw (Checkout toy_checkout) 4 (toy_adapter (1 / 10) 7, env0))))
  = {[ "ckpt/EfficientNet_ep5.pth" := FPickle (checkpoint_of (toy_adapter (1 / 10) 7)) ]}.
Proof.
  cbn [invoke]. rewrite ModelCheckout_saves_on_period; [ | cbn; lia | reflexivity].
  reflexivity.
Qed.

(** The spec's example for C5: with [per_epoch = 5], epochs 0 to 3 leave
    everything as it was (and epoch 4 writes one file, see
    [toy_checkout_epoch4]). *)
Lemma periodic_callback_noop_example :
  Forall (fun epoch =>
            invoke toy_draw (Checkout toy_checkout) epoch (toy_adapter (1 / 10) 7, env0)
            = (Ok tt, (toy_adapter (1 / 10) 7, env0)))
         [0; 1; 2; 3].
Proof.
  assert (forall epoch, (epoch + 1) `mod` 5 <> 0 ->
            invoke toy_draw (Checkout toy_checkout) epoch (toy_adapter (1 / 10) 7, env0)
            = (Ok tt, (toy_adapter (1 / 10) 7, env0))) as H.
  { intros epoch Hmod.
    apply (periodic_callback_noop toy_draw (Checkout toy_checkout) epoch).
    - discriminate.
    - exact Hmod. }
  apply Forall_cons_2; [apply H; discriminate | ].
  apply Forall_cons_2; [apply H; discriminate | ].
  apply Forall_cons_2; [apply H; discriminate | ].
  apply Forall_cons_2; [apply H; discriminate | ].
  apply Forall_nil_2.
Defined.

End PeriodicCallbackExamples.

(** ** The trainer *)

Section TrainerFacts.

Import XTrainer.

Context {W : Type}.

Local Abbreviation TS := (list Event * W)%type.

Lemma follows_ret {A} (a : A) : follows (W := W) (ret a) [].
Proof. intros s. exists []. cbn. rewrite app_nil_r. auto. Qed.

Lemma follows_raise {A} (e : exn) (sched : list Step) :
  follows (W := W) (raise (A := A) e) sched.
Proof.
  intros s. exists []. cbn. rewrite app_nil_r. split; [reflexivity | apply prefix_nil].
Qed.

Lemma follows_of_result {A} (r : result A) (sched : list Step) :
  (is_ok r -> sched = []) -> follows (W := W) (of_result r) sched.
Proof.
  intros H s. exists []. cbn. rewrite app_nil_r. split; [reflexivity | ].
  destruct r; cbn in *; [symmetry; auto | apply prefix_nil].
Qed.

Lemma follows_emit (ev : Event) : follows (W := W) (emit ev) [step_of ev].
Proof.
  intros s. exists [step_of ev]. cbn. unfold steps. cbn.
  rewrite fmap_app. auto.
Qed.

Lemma follows_on_world {A} (c : M W A) : follows (on_world c) [].
Proof.
  intros s. exists []. unfold on_world, zoom. destruct (c (snd s)) as [r w'].
  cbn. rewrite app_nil_r. split; [reflexivity | ].
  destruct r; cbn; [reflexivity | apply prefix_nil].
Qed.

Lemma follows_bind {A B} (c : M TS A) (k : A -> M TS B) (sched1 sched2 : list Step) :
  follows c sched1 -> (forall a, follows (k a) sched2) ->
  follows (bind c k) (sched1 ++ sched2).
Proof.
  intros Hc Hk s. unfold bind.
  destruct (Hc s) as (done1 & Hsteps1 & Hdone1).
  destruct (c s) as [[a | e] s1]; cbn in Hsteps1, Hdone1.
  - subst done1.
    destruct (Hk a s1) as (done2 & Hsteps2 & Hdone2).
    exists (sched1 ++ done2). split.
    + rewrite Hsteps2, Hsteps1, app_assoc. reflexivity.
    + destruct (is_ok (fst (k a s1))); [congruence | ].
      apply prefix_app. exact Hdone2.
  - exists done1. cbn. split; [exact Hsteps1 | ].
    apply prefix_app_r. exact Hdone1.
Qed.

Lemma follows_for_each {A} (l : list A) (body : A -> M TS unit) (sched : A -> list Step) :
  (forall x, follows (body x) (sched x)) ->
  follows (for_each l body) (concat (sched <$> l)).
Proof.
  intros Hbody. induction l as [ | x l IH]; cbn [for_each].
  - apply follows_ret.
  - rewrite fmap_cons. cbn [concat].
    apply follows_bind; [apply Hbody | intros _; exact IH].
Qed.

Lemma follows_for_fold {A B} (l : list A) (acc : B) (body : B -> A -> M TS B)
    (sched : A -> list Step) :
  (forall acc x, follows (body acc x) (sched x)) ->
  follows (for_fold l acc body) (concat (sched <$> l)).
Proof.
  intros Hbody. revert acc. induction l as [ | x l IH]; intros acc; cbn [for_fold].
  - apply follows_ret.
  - rewrite fmap_cons. cbn [concat].
    apply follows_bind; [apply Hbody | intros acc'; apply IH].
Qed.

Lemma follows_eq {A} (c : M TS A) (sched1 sched2 : list Step) :
  sched1 = sched2 -> follows c sched1 -> follows c sched2.
Proof. intros ->. tauto. Qed.

Lemma concat_singletons {A B} (f : A -> B) (l : list A) :
  concat ((fun x => [f x]) <$> l) = f <$> l.
Proof. induction l as [ | x l IH]; cbn; [reflexivity | rewrite IH; reflexivity]. Qed.

Lemma train_epoch_follows (self : XTrainer.t W) (model : BaseModel W)
    (data_loader : DataLoader) :
  follows (train_epoch self model data_loader) (train_steps data_loader).
Proof.
  unfold train_epoch, train_steps.
  eapply follows_eq; [ | apply follows_bind].
  - rewrite app_nil_r. apply concat_singletons.
  - apply follows_for_fold. intros acc batch.
    eapply follows_eq; [ | apply follows_bind; [apply follows_emit | ]].
    + reflexivity.
    + intros _. eapply follows_eq; [ | apply follows_bind; [apply follows_on_world | ]].
      * reflexivity.
      * intros loss. apply follows_ret.
  - intros loss_list. apply follows_of_result. reflexivity.
Qed.

Lemma calc_metric_follows (self : XTrainer.t W) (model_predict : Tensor -> M W Array2)
    (test_dataloader : option DataLoader) (metric_func : MetricFunc) :
  follows (calc_metric self model_predict test_dataloader metric_func)
          (predict_steps test_dataloader).
Proof.
  unfold calc_metric, predict_steps.
  destruct test_dataloader as [data_loader | ]; [ | apply follows_raise].
  eapply follows_eq; [ | apply follows_bind].
  - rewrite app_nil_r. apply concat_singletons.
  - apply follows_for_fold. intros acc batch.
    eapply follows_eq; [ | apply follows_bind; [apply follows_emit | ]].
    + reflexivity.
    + intros _. eapply follows_eq; [ | apply follows_bind; [apply follows_on_world | ]].
      * reflexivity.
      * intros result. apply follows_ret.
  - intros metric_ls. apply follows_of_result. reflexivity.
Qed.

Lemma batch_losses_length (model : BaseModel W) (data_loader : DataLoader)
    (w w' : W) (losses : list R) :
  batch_losses model data_loader w losses w' -> length losses = length data_loader.
Proof. induction 1; cbn; congruence. Qed.

(** A model whose [train_batch] never raises has losses on every loader. *)
Lemma batch_losses_total (model : BaseModel W) (data_loader : DataLoader) (w : W) :
  (forall x t w0, is_ok (fst (train_batch model x t w0))) ->
  exists losses w', batch_losses model data_loader w losses w'.
Proof.
  intros Hok. revert w. induction data_loader as [ | [x t] rest IH]; intros w.
  - exists [], w. constructor.
  - pose proof (Hok (try_cuda x) (try_cuda t) w) as H.
    destruct (train_batch model (try_cuda x) (try_cuda t) w) as [[loss | e] w1] eqn:E;
      [ | contradiction].
    destruct (IH w1) as (losses & w' & Hrest).
    exists (loss :: losses), w'. econstructor; eassumption.
Qed.

Lemma bind_ok {S A B} (c : M S A) (k : A -> M S B) (s s' : S) (a : A) :
  c s = (Ok a, s') -> bind c k s = k a s'.
Proof. intros H. unfold bind. rewrite H. reflexivity. Qed.

Lemma bind_raise {S A B} (c : M S A) (k : A -> M S B) (s s' : S) (e : exn) :
  c s = (Raise e, s') -> bind c k s = (Raise e, s').
Proof. intros H. unfold bind. rewrite H. reflexivity. Qed.

Lemma train_epoch_loop (model : BaseModel W) (data_loader : DataLoader)
    (w w' : W) (losses : list R) :
  batch_losses model data_loader w losses w' ->
  forall (acc : list R) (tr : list Event),
    for_fold data_loader acc (fun loss_list batch =>
      let train_x := try_cuda (fst batch) in
      let teacher := try_cuda (snd batch) in
      bind (emit (EvTrainBatch train_x teacher)) (fun _ =>
      bind (on_world (train_batch model train_x teacher)) (fun loss =>
      ret (loss_list ++ [loss])))) (tr, w)
    = (Ok (acc ++ losses), (tr ++ train_events data_loader, w')).
Proof.
  induction 1 as [w | x t rest w w1 w2 loss losses Hcall _ IH]; intros acc tr.
  - cbn. rewrite !app_nil_r. reflexivity.
  - cbn [for_fold].
    erewrite bind_ok; [ | erewrite bind_ok by reflexivity;
                          erewrite bind_ok; [reflexivity | ];
                          unfold on_world, zoom; cbn [fst snd]; rewrite Hcall; reflexivity].
    rewrite IH. unfold train_events. rewrite fmap_cons.
    rewrite <- !app_assoc. reflexivity.
Qed.

(** C2.  When the loader has a batch and the calls of [train_batch], one
    per batch in the order of the loader, return the losses [losses],
    [train_epoch] makes exactly those calls and returns the arithmetic mean
    of [losses]; with a single batch, that is the loss of the batch. *)
Theorem train_epoch_mean (self : XTrainer.t W) (model : BaseModel W)
    (data_loader : DataLoader) (tr : list Event) (w w' : W) (losses : list R) :
  data_loader <> [] ->
  batch_losses model data_loader w losses w' ->
  train_epoch self model data_loader (tr, w)
  = (Ok (fsum losses / INR (length losses))%R, (tr ++ train_events data_loader, w')) /\
  length losses = length data_loader /\
  (forall loss, losses = [loss] ->
     train_epoch self model data_loader (tr, w)
     = (Ok loss, (tr ++ train_events data_loader, w'))).
Proof.
  intros Hne Hlosses.
  pose proof (batch_losses_length _ _ _ _ _ Hlosses) as Hlen.
  assert (train_epoch self model data_loader (tr, w)
          = (Ok (fsum losses / INR (length losses))%R,
             (tr ++ train_events data_loader, w'))) as Hrun.
  { unfold train_epoch.
    rewrite (bind_ok _ _ _ _ _ (train_epoch_loop model data_loader w w' losses Hlosses [] tr)).
    rewrite app_nil_l. unfold of_result, mean.
    destruct losses as [ | loss losses]; [ | reflexivity].
    destruct data_loader; [contradiction | discriminate]. }
  split; [exact Hrun | ]. split; [exact Hlen | ].
  intros loss ->. rewrite Hrun. do 2 f_equal. cbn. lra.
Qed.

(** On a loader with no batch [train_epoch] raises, and so does
    [train_one_model] when it has an epoch to run. *)
Lemma train_epoch_no_batch (self : XTrainer.t W) (model : BaseModel W) (s : TS) :
  train_epoch self model [] s = (Raise StatisticsError, s).
Proof. reflexivity. Qed.

Lemma train_one_model_no_batch (self : XTrainer.t W) (model : BaseModel W)
    (learning_table : LearningTable W) (test_dataloader : option DataLoader)
    (metric_func_ls : list MetricFunc) (s : TS) :
  data_loader learning_table = [] ->
  0 < epochs learning_table ->
  train_one_model self model learning_table test_dataloader metric_func_ls s
  = (Raise StatisticsError, s).
Proof.
  intros Hloader Hepochs.
  unfold train_one_model, range.
  destruct (Z.to_nat (epochs learning_table)) as [ | n] eqn:E; [lia | ].
  cbn [seq fmap list_fmap for_each]. rewrite Hloader. reflexivity.
Qed.

(** C4.  With a number of learning tables other than the number of models,
    [fit] raises [AssertionError] at once: the trace and the models' state
    are as before, so no [train_batch], callback or metric was run. *)
Theorem fit_length_mismatch (self : XTrainer.t W)
    (learning_tables : list (LearningTable W))
    (metric_func_ls : option (list MetricFunc)) (test_dataloader : option DataLoader)
    (s : TS) :
  length learning_tables <> length (model_list (_assemble_model self)) ->
  fit self learning_tables metric_func_ls test_dataloader s = (Raise AssertionError, s).
Proof.
  intros Hlen. unfold fit, bind at 1, assert.
  rewrite bool_decide_eq_false_2 by exact Hlen. reflexivity.
Qed.

End TrainerFacts.

Section TrainerExamples.

Import XTrainer.

Local Open Scope R_scope.

Lemma toy_train_batch (x t : Tensor) :
  train_batch toy_model x t toy_state = (Ok (hd 0 (data t)), toy_state).
Proof. reflexivity. Qed.

Lemma toy_batch_losses (vs : list R) :
  batch_losses toy_model (toy_batch <$> vs) toy_state vs toy_state.
Proof.
  induction vs as [ | v vs IH]; [constructor | ].
  rewrite fmap_cons. unfold toy_batch at 1.
  eapply batch_losses_cons; [ | exact IH].
  exact (toy_train_batch _ (mkTensor [1%nat] [v])).
Qed.

(** C2 on two batches with losses 2 and 4, and on the single batch with
    loss 2. *)
Lemma train_epoch_mean_example :
  train_epoch (toy_trainer 1) toy_model (toy_batch <$> [2; 4]) ([], toy_state)
  = (Ok ((2 + (4 + 0)) / (1 + 1)),
     (train_events (toy_batch <$> [2; 4]), toy_state)) /\
  train_epoch (toy_trainer 1) toy_model [toy_batch 2] ([], toy_state)
  = (Ok 2, (train_events [toy_batch 2], toy_state)).
Proof.
  assert (toy_batch <$> [2; 4] <> []) as Hne2 by discriminate.
  assert (toy_batch <$> [2] <> []) as Hne1 by discriminate.
  split.
  - exact (proj1 (train_epoch_mean (toy_trainer 1) toy_model (toy_batch <$> [2; 4]) []
                    toy_state toy_state [2; 4] Hne2 (toy_batch_losses [2; 4]))).
  - exact (proj2 (proj2 (train_epoch_mean (toy_trainer 1) toy_model (toy_batch <$> [2]) []
                           toy_state toy_state [2] Hne1 (toy_batch_losses [2])))
             2 eq_refl).
Defined.

(** C4 on two models and one learning table. *)
Lemma fit_length_mismatch_example :
  fit (toy_trainer 2) [toy_table [toy_batch 2] 3] None None ([], toy_state)
  = (Raise AssertionError, ([], toy_state)).
Proof.
  apply (fit_length_mismatch (toy_trainer 2)). cbn. lia.
Defined.

End TrainerExamples.

Section TrainerPropagation.

Import XTrainer.

Context {W : Type}.

Lemma range_pos (n : Z) : 0 < n -> exists rest, range n = 0 :: rest.
Proof.
  intros Hn. unfold range.
  destruct (Z.to_nat n) as [ | k] eqn:E; [lia | ].
  cbn. eexists. reflexivity.
Qed.

(** The failure of [train_epoch] on an empty loader goes through [fit] too:
    after the line that announces the first model, [fit] raises. *)
Lemma fit_empty_loader (self : XTrainer.t W) (learning_table : LearningTable W)
    (learning_tables : list (LearningTable W)) (model : BaseModel W)
    (models : list (BaseModel W)) (metric_func_ls : option (list MetricFunc))
    (test_dataloader : option DataLoader) (tr : list Event) (w : W) :
  model_list (_assemble_model self) = model :: models ->
  length learning_tables = length models ->
  data_loader learning_table = [] ->
  0 < epochs learning_table ->
  fit self (learning_table :: learning_tables) metric_func_ls test_dataloader (tr, w)
  = (Raise StatisticsError,
     (tr ++ [EvPrint (MsgStart 0 (get_model_config model w))], w)).
Proof.
  intros Hmodels Hlen Hloader Hepochs. unfold fit. rewrite Hmodels.
  erewrite bind_ok.
  2: { unfold assert. rewrite bool_decide_eq_true_2 by (cbn; lia). reflexivity. }
  apply bind_raise.
  destruct (range_pos (Z.of_nat (length (learning_table :: learning_tables))))
    as (rest & ->); [cbn; lia | ].
  cbn [for_each]. apply bind_raise.
  erewrite bind_ok by reflexivity.
  erewrite bind_ok by reflexivity.
  erewrite bind_ok by reflexivity.
  erewrite bind_ok by reflexivity.
  apply train_one_model_no_batch; assumption.
Qed.

(** C3.  On a loader with no batch, [train_epoch] raises (the mean of no
    loss), whatever the model and the state, and leaves the state as it
    was.  Nothing catches the exception: [train_one_model] with at least one
    epoch raises it before any report or callback, and so does [fit]. *)
Theorem train_epoch_empty_loader (self : XTrainer.t W) (model : BaseModel W)
    (tr : list Event) (w : W) :
  train_epoch self model [] (tr, w) = (Raise StatisticsError, (tr, w)) /\
  (forall learning_table test_dataloader metric_func_ls,
     data_loader learning_table = [] ->
     0 < epochs learning_table ->
     train_one_model self model learning_table test_dataloader metric_func_ls (tr, w)
     = (Raise StatisticsError, (tr, w))) /\
  (forall learning_table learning_tables models metric_func_ls test_dataloader,
     model_list (_assemble_model self) = model :: models ->
     length learning_tables = length models ->
     data_loader learning_table = [] ->
     0 < epochs learning_table ->
     fit self (learning_table :: learning_tables) metric_func_ls test_dataloader (tr, w)
     = (Raise StatisticsError,
        (tr ++ [EvPrint (MsgStart 0 (get_model_config model w))], w))).
Proof.
  split; [apply train_epoch_no_batch | ].
  split.
  - intros. apply train_one_model_no_batch; assumption.
  - intros learning_table learning_tables models metric_func_ls test_dataloader
      Hmodels Hlen Hloader Hepochs.
    apply (fit_empty_loader self learning_table learning_tables model models);
      assumption.
Qed.

End TrainerPropagation.

Section TrainerTraces.

Import XTrainer.

(** Two epochs over one batch, no metric, one callback: the calls made, in
    order, and the run returns. *)
Lemma train_one_model_example :
  let run := train_one_model (toy_trainer 1) toy_model (toy_table [toy_batch 2] 2)
               None [] ([], toy_state) in
  fst run = Ok tt /\
  steps (snd run)
  = [ StTrainBatch (fst (toy_batch 2)) (snd (toy_batch 2));
      StReport 1; StCallback 0 0; StCallbackReturn 0 0;
      StTrainBatch (fst (toy_batch 2)) (snd (toy_batch 2));
      StReport 2; StCallback 0 1; StCallbackReturn 0 1 ].
Proof. cbn zeta. split; reflexivity. Qed.

End TrainerTraces.

(** ** More on the trainer *)

Section TrainerMore.

Import XTrainer.

Context {W : Type}.

Local Abbreviation TS := (list Event * W)%type.

Local Open Scope R_scope.

Lemma for_fold_app {S A B} (l1 l2 : list A) (acc : B) (body : B -> A -> M S B) :
  forall s,
    for_fold (l1 ++ l2) acc body s
    = bind (for_fold l1 acc body) (fun acc' => for_fold l2 acc' body) s.
Proof.
  revert acc. induction l1 as [ | x l1 IH]; intros acc s.
  - reflexivity.
  - cbn [app for_fold]. unfold bind.
    destruct (body acc x s) as [[acc' | e] s']; [ | reflexivity].
    rewrite IH. reflexivity.
Qed.

Lemma train_events_app (l1 l2 : DataLoader) :
  train_events (l1 ++ l2) = train_events l1 ++ train_events l2.
Proof. unfold train_events. apply fmap_app. Qed.

(** X1.  [train_epoch] stops at the first batch whose [train_batch] raises: the
    exception goes to the caller, the batches after it are not touched, and
    the state is the one the failing call left. *)
Lemma train_epoch_raises (self : XTrainer.t W) (model : BaseModel W)
    (before after : DataLoader) (train_x teacher : Tensor)
    (tr : list Event) (w w1 w2 : W) (losses : list R) (e : exn) :
  batch_losses model before w losses w1 ->
  train_batch model (try_cuda train_x) (try_cuda teacher) w1 = (Raise e, w2) ->
  train_epoch self model (before ++ (train_x, teacher) :: after) (tr, w)
  = (Raise e, (tr ++ train_events (before ++ [(train_x, teacher)]), w2)).
Proof.
  intros Hbefore Hcall. unfold train_epoch.
  apply bind_raise. rewrite for_fold_app.
  erewrite bind_ok by (apply train_epoch_loop; exact Hbefore).
  cbn [for_fold]. apply bind_raise.
  erewrite bind_ok by reflexivity.
  apply bind_raise. unfold on_world, zoom. cbn [fst snd]. rewrite Hcall.
  rewrite train_events_app, app_assoc. reflexivity.
Qed.

Lemma fsum_bounds (lo hi : R) (l : list R) :
  Forall (fun v => lo <= v <= hi) l ->
  lo * INR (length l) <= fsum l <= hi * INR (length l).
Proof.
  induction 1 as [ | v l Hv _ IH].
  - rewrite fsum_nil. cbn [length]. change (INR 0) with 0. lra.
  - rewrite fsum_cons. cbn [length]. rewrite S_INR. lra.
Qed.

Lemma mean_bounds (lo hi : R) (l : list R) :
  l <> [] -> Forall (fun v => lo <= v <= hi) l ->
  lo <= fsum l / INR (length l) <= hi.
Proof.
  intros Hne Hl. pose proof (fsum_bounds lo hi l Hl) as [H1 H2].
  assert (0 < INR (length l)) as Hn.
  { apply lt_0_INR. destruct l; [contradiction | cbn; lia]. }
  split.
  - apply Rmult_le_reg_r with (INR (length l)); [exact Hn | ].
    unfold Rdiv. rewrite Rmult_assoc, Rinv_l by lra. lra.
  - apply Rmult_le_reg_r with (INR (length l)); [exact Hn | ].
    unfold Rdiv. rewrite Rmult_assoc, Rinv_l by lra. lra.
Qed.

Lemma train_epoch_value (self : XTrainer.t W) (model : BaseModel W)
    (data_loader : DataLoader) (tr : list Event) (w w' : W) (losses : list R) :
  data_loader <> [] ->
  batch_losses model data_loader w losses w' ->
  train_epoch self model data_loader (tr, w)
  = (Ok (fsum losses / INR (length losses)), (tr ++ train_events data_loader, w')).
Proof.
  intros Hne Hlosses. unfold train_epoch.
  rewrite (bind_ok _ _ _ _ _ (train_epoch_loop model data_loader w w' losses Hlosses [] tr)).
  rewrite app_nil_l. unfold of_result, mean.
  destruct losses as [ | loss losses]; [ | reflexivity].
  inversion Hlosses; subst; contradiction.
Qed.

(** X2.  The mean loss [train_epoch] returns lies between the smallest and the
    largest loss of the epoch. *)
Lemma train_epoch_between (self : XTrainer.t W) (model : BaseModel W)
    (data_loader : DataLoader) (tr : list Event) (w w' : W) (losses : list R)
    (lo hi : R) :
  data_loader <> [] ->
  batch_losses model data_loader w losses w' ->
  Forall (fun v => lo <= v <= hi) losses ->
  exists mean_loss,
    fst (train_epoch self model data_loader (tr, w)) = Ok mean_loss /\
    lo <= mean_loss <= hi.
Proof.
  intros Hne Hlosses Hbound.
  rewrite (train_epoch_value self model data_loader tr w w' losses Hne Hlosses).
  eexists. split; [reflexivity | ].
  apply mean_bounds; [ | exact Hbound].
  destruct losses; [ | discriminate].
  inversion Hlosses; subst; contradiction.
Qed.

Lemma calc_metric_loop (model_predict : Tensor -> M W Array2) (metric_func : MetricFunc)
    (data_loader : DataLoader) (w w' : W) (metrics : list R) :
  batch_metrics model_predict metric_func data_loader w metrics w' ->
  forall (acc : list R) (tr : list Event),
    for_fold data_loader acc (fun metric_ls batch =>
      let x := fst batch in
      let teacher := snd batch in
      bind (emit (EvPredict x)) (fun _ =>
      bind (on_world (model_predict x)) (fun result =>
      ret (metric_ls ++ [mf_call metric_func result teacher])))) (tr, w)
    = (Ok (acc ++ metrics), (tr ++ predict_events data_loader, w')).
Proof.
  induction 1 as [w | x t rest w w1 w2 result metrics Hcall _ IH]; intros acc tr.
  - cbn. rewrite !app_nil_r. reflexivity.
  - cbn [for_fold].
    erewrite bind_ok; [ | erewrite bind_ok by reflexivity;
                          erewrite bind_ok; [reflexivity | ];
                          unfold on_world, zoom; cbn [fst snd]; rewrite Hcall; reflexivity].
    rewrite IH. unfold predict_events. rewrite fmap_cons.
    rewrite <- !app_assoc. reflexivity.
Qed.

(** X3.  [calc_metric] on a loader with a batch: one [predict] per batch in the
    order of the loader and nothing else (no training step), and the value
    is the mean of the metric over the batches. *)
Lemma calc_metric_mean (self : XTrainer.t W) (model_predict : Tensor -> M W Array2)
    (metric_func : MetricFunc) (data_loader : DataLoader)
    (tr : list Event) (w w' : W) (metrics : list R) :
  data_loader <> [] ->
  batch_metrics model_predict metric_func data_loader w metrics w' ->
  calc_metric self model_predict (Some data_loader) metric_func (tr, w)
  = (Ok (fsum metrics / INR (length metrics)), (tr ++ predict_events data_loader, w')).
Proof.
  intros Hne Hmetrics. unfold calc_metric.
  rewrite (bind_ok _ _ _ _ _
             (calc_metric_loop model_predict metric_func data_loader w w' metrics
                Hmetrics [] tr)).
  rewrite app_nil_l. unfold of_result, mean.
  destruct metrics as [ | m metrics]; [ | reflexivity].
  inversion Hmetrics; subst; contradiction.
Qed.

(** X4.  With a metric to compute and no test loader, [train_one_model] raises
    [TypeError], but only after the whole first epoch of training has run. *)
Lemma train_one_model_metric_without_loader (self : XTrainer.t W) (model : BaseModel W)
    (learning_table : LearningTable W) (metric_func : MetricFunc)
    (metric_func_ls : list MetricFunc) (tr : list Event) (w w' : W) (losses : list R) :
  (0 < epochs learning_table)%Z ->
  data_loader learning_table <> [] ->
  batch_losses model (data_loader learning_table) w losses w' ->
  train_one_model self model learning_table None (metric_func :: metric_func_ls) (tr, w)
  = (Raise TypeError, (tr ++ train_events (data_loader learning_table), w')).
Proof.
  intros Hepochs Hne Hlosses. unfold train_one_model.
  destruct (range_pos (epochs learning_table) Hepochs) as (rest & ->).
  cbn [for_each]. apply bind_raise.
  erewrite bind_ok by (apply train_epoch_value; eassumption).
  apply bind_raise. reflexivity.
Qed.

Lemma train_one_model_follows (self : XTrainer.t W) (model : BaseModel W)
    (learning_table : LearningTable W) (test_dataloader : option DataLoader)
    (metric_func_ls : list MetricFunc) :
  follows (train_one_model self model learning_table test_dataloader metric_func_ls)
          (train_one_model_schedule learning_table test_dataloader metric_func_ls).
Proof.
  unfold train_one_model, train_one_model_schedule.
  apply follows_for_each. intros epoch. unfold epoch_schedule.
  apply follows_bind; [apply train_epoch_follows | intros mean_loss].
  apply follows_bind.
  { unfold metric_steps. apply follows_for_fold. intros acc metric_func.
    eapply follows_eq; [ | apply follows_bind; [apply calc_metric_follows | ]].
    - apply app_nil_r.
    - intros metric. apply follows_ret. }
  intros metric_str.
  apply follows_bind; [apply (follows_emit (EvPrint (MsgEpoch _ _ _ _))) | intros _].
  unfold callback_steps. apply follows_for_each. intros jc.
  eapply follows_eq; [ | apply follows_bind; [apply follows_emit | ]].
  - reflexivity.
  - intros _. eapply follows_eq; [ | apply follows_bind; [apply follows_on_world | ]].
    + reflexivity.
    + intros _. apply follows_emit.
Qed.

Lemma follows_bind_result {A B} (r : result A) (k : A -> M TS B) (sched : list Step) :
  (forall a, r = Ok a -> follows (k a) sched) ->
  follows (bind (of_result r) k) sched.
Proof.
  intros Hk. destruct r as [a | e].
  - intros s. exact (Hk a eq_refl s).
  - intros s. exists []. cbn. rewrite app_nil_r. split; [reflexivity | apply prefix_nil].
Qed.

Lemma follows_assert (b : bool) : follows (W := W) (assert b) [].
Proof. destruct b; [apply follows_ret | apply follows_raise]. Qed.

Lemma index_of_nat {A} (l : list A) (j : nat) (x : A) :
  l !! j = Some x -> index l (Z.of_nat j) = Ok x.
Proof.
  intros Hj. unfold index.
  pose proof (lookup_lt_Some _ _ _ Hj) as Hlt.
  destruct (decide (Z.of_nat j < 0)%Z) as [H | _]; [lia | ].
  destruct (decide (0 <= Z.of_nat j < Z.of_nat (length l))%Z) as [_ | H]; [ | lia].
  rewrite Nat2Z.id, Hj. reflexivity.
Qed.

Lemma concat_range_imap {A B} (l : list A) (f : Z -> A -> list B) :
  concat ((fun i => match index l i with Ok x => f i x | Raise _ => [] end)
          <$> range (Z.of_nat (length l)))
  = concat (imap (fun j x => f (Z.of_nat j) x) l).
Proof.
  f_equal. unfold range. rewrite Nat2Z.id. apply list_eq. intros j.
  rewrite list_lookup_imap, !list_lookup_fmap.
  destruct (l !! j) as [x | ] eqn:Hj.
  - rewrite lookup_seq_lt by (eapply lookup_lt_Some; exact Hj).
    cbn. rewrite (index_of_nat l j x Hj). reflexivity.
  - rewrite lookup_seq_ge by (apply lookup_ge_None; exact Hj). reflexivity.
Qed.

Lemma fit_follows (self : XTrainer.t W) (learning_tables : list (LearningTable W))
    (metric_func_ls : option (list MetricFunc)) (test_dataloader : option DataLoader) :
  follows (fit self learning_tables metric_func_ls test_dataloader)
          (fit_schedule learning_tables metric_func_ls test_dataloader).
Proof.
  unfold fit, fit_schedule.
  eapply follows_eq; [ | apply follows_bind; [apply follows_assert | intros _]].
  { reflexivity. }
  apply follows_bind.
  - rewrite <- (concat_range_imap learning_tables
                  (fun i learning_table =>
                     StStart i :: train_one_model_schedule learning_table test_dataloader
                                    (default [] metric_func_ls))).
    apply follows_for_each. intros i.
    apply follows_bind_result. intros learning_table ->.
    apply follows_bind_result. intros model _.
    eapply follows_eq; [ | apply follows_bind; [apply follows_on_world | intros w]].
    { reflexivity. }
    apply (follows_bind _ _ [StStart i]).
    + apply (follows_emit (EvPrint (MsgStart i _))).
    + intros _. apply train_one_model_follows.
  - intros _. apply follows_bind.
    + unfold metric_steps. apply follows_for_fold. intros acc metric_func.
      eapply follows_eq; [ | apply follows_bind; [apply calc_metric_follows | ]].
      * apply app_nil_r.
      * intros metric. apply follows_ret.
    + intros total. apply (follows_emit (EvPrint (MsgTotal _))).
Qed.

Lemma fit_schedule_without_metrics (learning_tables : list (LearningTable W))
    (test_dataloader : option DataLoader) :
  Forall (fun st => is_predict st = false)
         (fit_schedule learning_tables None test_dataloader).
Proof.
  unfold fit_schedule. cbn [default metric_steps fmap list_fmap concat app].
  apply Forall_app. split; [ | repeat constructor].
  apply Forall_concat. apply Forall_lookup. intros j sched Hj.
  rewrite list_lookup_imap in Hj.
  destruct (learning_tables !! j) as [learning_table | ]; [ | discriminate].
  cbn in Hj. injection Hj as <-.
  apply Forall_cons_2; [reflexivity | ].
  unfold train_one_model_schedule. apply Forall_concat, Forall_fmap.
  apply Forall_forall. intros epoch _. cbn. unfold epoch_schedule.
  apply Forall_app. split.
  { unfold train_steps. apply Forall_fmap, Forall_forall. intros; reflexivity. }
  cbn [metric_steps fmap list_fmap concat app].
  apply Forall_cons_2; [reflexivity | ].
  unfold callback_steps. apply Forall_concat, Forall_fmap.
  apply Forall_forall. intros jc _. cbn. repeat constructor.
Qed.

End TrainerMore.

Section TrainerMoreExamples.

Import XTrainer.

Local Open Scope R_scope.

Lemma fragile_batch_losses (vs : list R) (n : nat) :
  batch_losses fragile_model (toy_batch <$> vs) n vs (length vs + n)%nat.
Proof.
  revert n. induction vs as [ | v vs IH]; intros n; [constructor | ].
  rewrite fmap_cons. unfold toy_batch at 1.
  eapply batch_losses_cons; [reflexivity | ].
  replace (length (v :: vs) + n)%nat with (length vs + S n)%nat by (cbn; lia).
  apply IH.
Qed.

(** A batch whose label tensor is empty. *)
Lemma train_epoch_raises_example :
  train_epoch fragile_trainer fragile_model
    ([toy_batch 2] ++ (mkTensor [1%nat] [0], mkTensor [0%nat] []) :: [toy_batch 4])
    ([], 0%nat)
  = (Raise ValueError,
     (train_events ([toy_batch 2] ++ [(mkTensor [1%nat] [0], mkTensor [0%nat] [])]),
      2%nat)).
Proof.
  exact (train_epoch_raises fragile_trainer fragile_model [toy_batch 2] [toy_batch 4]
           (mkTensor [1%nat] [0]) (mkTensor [0%nat] []) [] 0%nat 1%nat 2%nat [2]
           ValueError (fragile_batch_losses [2] 0) eq_refl).
Defined.

Lemma train_epoch_between_example :
  exists mean_loss,
    fst (train_epoch fragile_trainer fragile_model (toy_batch <$> [2; 4]) ([], 0%nat))
    = Ok mean_loss /\
    2 <= mean_loss <= 4.
Proof.
  assert (toy_batch <$> [2; 4] <> []) as Hne by discriminate.
  assert (Forall (fun v => 2 <= v <= 4) [2; 4]) as Hbound
    by (repeat (apply Forall_cons_2; [lra | ]); apply Forall_nil_2).
  exact (train_epoch_between fragile_trainer fragile_model (toy_batch <$> [2; 4]) []
           0%nat 2%nat [2; 4] 2 4 Hne (fragile_batch_losses [2; 4] 0) Hbound).
Defined.

Lemma fragile_batch_metrics :
  batch_metrics (predict fragile_model) first_entry
    [(mkTensor [1%nat] [3], mkTensor [1%nat] [0]);
     (mkTensor [1%nat] [5], mkTensor [1%nat] [0])]
    0%nat [3; 5] 0%nat.
Proof.
  apply (batch_metrics_cons (predict fragile_model) first_entry
           (mkTensor [1%nat] [3]) (mkTensor [1%nat] [0]) _ 0%nat 0%nat 0%nat [[3]] [5]);
    [reflexivity | ].
  apply (batch_metrics_cons (predict fragile_model) first_entry
           (mkTensor [1%nat] [5]) (mkTensor [1%nat] [0]) _ 0%nat 0%nat 0%nat [[5]] []);
    [reflexivity | ].
  constructor.
Qed.

Lemma calc_metric_mean_example :
  calc_metric fragile_trainer (predict fragile_model)
    (Some [(mkTensor [1%nat] [3], mkTensor [1%nat] [0]);
           (mkTensor [1%nat] [5], mkTensor [1%nat] [0])])
    first_entry ([], 0%nat)
  = (Ok ((3 + (5 + 0)) / (1 + 1)),
     ([EvPredict (mkTensor [1%nat] [3]); EvPredict (mkTensor [1%nat] [5])], 0%nat)).
Proof.
  assert ([(mkTensor [1%nat] [3], mkTensor [1%nat] [0]);
           (mkTensor [1%nat] [5], mkTensor [1%nat] [0])] <> []) as Hne by discriminate.
  exact (calc_metric_mean fragile_trainer (predict fragile_model) first_entry _ []
           0%nat 0%nat [3; 5] Hne fragile_batch_metrics).
Defined.

Lemma train_one_model_metric_without_loader_example :
  train_one_model fragile_trainer fragile_model
    {| data_loader := toy_batch <$> [2; 4]; epochs := 3; callbacks := None |}
    None [first_entry] ([], 0%nat)
  = (Raise TypeError, (train_events (toy_batch <$> [2; 4]), 2%nat)).
Proof.
  assert (0 < 3)%Z as Hepochs by lia.
  assert (toy_batch <$> [2; 4] <> []) as Hne by discriminate.
  exact (train_one_model_metric_without_loader fragile_trainer fragile_model
           {| data_loader := toy_batch <$> [2; 4]; epochs := 3; callbacks := None |}
           first_entry [] [] 0%nat 2%nat [2; 4] Hepochs Hne (fragile_batch_losses [2; 4] 0)).
Defined.

End TrainerMoreExamples.

(** ** The runs of the trainer *)

Section TrainerRuns.

Import XTrainer.

Context {W : Type}.

Local Abbreviation TS := (list Event * W)%type.

Lemma for_each_app {S A} (l1 l2 : list A) (body : A -> M S unit) (s : S) :
  for_each (l1 ++ l2) body s = bind (for_each l1 body) (fun _ => for_each l2 body) s.
Proof.
  revert s. induction l1 as [ | x l1 IH]; intros s.
  - reflexivity.
  - cbn [app for_each]. unfold bind.
    destruct (body x s) as [[[] | e] s']; [ | reflexivity].
    rewrite IH. reflexivity.
Qed.

Lemma for_each_ext {S A} (l : list A) (f g : A -> M S unit) :
  (forall x s, f x s = g x s) -> forall s, for_each l f s = for_each l g s.
Proof.
  intros H. induction l as [ | x l IH]; intros s; cbn [for_each]; [reflexivity | ].
  unfold bind. rewrite H.
  destruct (g x s) as [[[] | e] s']; [apply IH | reflexivity].
Qed.

Lemma bind_congr {S A B} (c c' : M S A) (k k' : A -> M S B) (s : S) :
  c s = c' s -> (forall a s', k a s' = k' a s') -> bind c k s = bind c' k' s.
Proof.
  intros Hc Hk. unfold bind. rewrite Hc.
  destruct (c' s) as [[a | e] s']; [apply Hk | reflexivity].
Qed.

Lemma bind_of_result_congr {S A B} (r r' : result A) (k k' : A -> M S B) (s : S) :
  match r, r' with
  | Ok x, Ok x' => k x s = k' x' s
  | Raise e, Raise e' => e = e'
  | _, _ => False
  end ->
  bind (of_result r) k s = bind (of_result r') k' s.
Proof.
  destruct r as [x | e], r' as [x' | e']; cbn; intros H;
    try contradiction; [exact H | subst e'; reflexivity].
Qed.

Lemma range_of_nat (n : nat) : range (Z.of_nat n) = Z.of_nat <$> seq 0 n.
Proof. unfold range. rewrite Nat2Z.id. reflexivity. Qed.

Lemma range_split (k n : Z) :
  0 <= k < n -> exists rest, range n = range k ++ k :: rest.
Proof.
  intros Hk. unfold range.
  replace (Z.to_nat n) with (Z.to_nat k + S (Z.to_nat (n - k - 1)))%nat by lia.
  rewrite seq_app, fmap_app. cbn [seq fmap list_fmap].
  rewrite Nat.add_0_l, Z2Nat.id by lia.
  eexists. reflexivity.
Qed.

Lemma calc_metric_value (self : XTrainer.t W) (model_predict : Tensor -> M W Array2)
    (metric_func : MetricFunc) (data_loader : DataLoader)
    (tr : list Event) (w w' : W) (metrics : list R) :
  data_loader <> [] ->
  batch_metrics model_predict metric_func data_loader w metrics w' ->
  calc_metric self model_predict (Some data_loader) metric_func (tr, w)
  = (Ok (fsum metrics / INR (length metrics))%R, (tr ++ predict_events data_loader, w')).
Proof.
  intros Hne Hmetrics. unfold calc_metric.
  rewrite (bind_ok _ _ _ _ _
             (calc_metric_loop model_predict metric_func data_loader w w' metrics
                Hmetrics [] tr)).
  rewrite app_nil_l. unfold of_result, mean.
  destruct metrics as [ | m metrics]; [ | reflexivity].
  inversion Hmetrics; subst; contradiction.
Qed.

Lemma metric_events_nil (test_dataloader : option DataLoader) :
  metric_events test_dataloader [] = [].
Proof. destruct test_dataloader; reflexivity. Qed.

Lemma metric_values_loop (self : XTrainer.t W) (model_predict : Tensor -> M W Array2)
    (test_dataloader : option DataLoader) (metric_func_ls : list MetricFunc)
    (w w' : W) (metric_str : list (string * R)) :
  metric_values model_predict test_dataloader metric_func_ls w metric_str w' ->
  forall (acc : list (string * R)) (tr : list Event),
    for_fold metric_func_ls acc (fun metric_str metric_func =>
      bind (calc_metric self model_predict test_dataloader metric_func) (fun metric =>
      ret (metric_str ++ [(mf_name metric_func, metric)]))) (tr, w)
    = (Ok (acc ++ metric_str), (tr ++ metric_events test_dataloader metric_func_ls, w')).
Proof.
  induction 1 as [w | metric_func rest data_loader w w1 w2 metrics metric_str
                      Htest Hne Hbatch _ IH]; intros acc tr.
  - cbn [for_fold]. rewrite metric_events_nil, !app_nil_r. reflexivity.
  - cbn [for_fold]. subst test_dataloader.
    erewrite bind_ok;
      [ | erewrite bind_ok; [reflexivity | apply calc_metric_value; eassumption]].
    rewrite IH. cbn [metric_events fmap list_fmap concat].
    rewrite <- !app_assoc. reflexivity.
Qed.

Lemma callbacks_loop (callbacks : list (Z -> M W unit)) (epoch : Z) (w w' : W) :
  callbacks_run callbacks epoch w w' ->
  forall (first : nat) (tr : list Event),
    for_each (zip (seq first (length callbacks)) callbacks) (fun jc =>
      bind (emit (EvCallback (fst jc) epoch)) (fun _ =>
      bind (on_world (snd jc epoch)) (fun _ =>
      emit (EvCallbackReturn (fst jc) epoch)))) (tr, w)
    = (Ok tt, (tr ++ callback_events_from first (length callbacks) epoch, w')).
Proof.
  induction 1 as [epoch w | callback rest epoch w w1 w2 Hcall _ IH]; intros first tr.
  - cbn. rewrite app_nil_r. reflexivity.
  - cbn [length seq zip_with for_each].
    erewrite bind_ok;
      [ | erewrite bind_ok by reflexivity;
          erewrite bind_ok; [reflexivity | ];
          unfold on_world, zoom; cbn [fst snd]; rewrite Hcall; reflexivity].
    rewrite IH. unfold callback_events_from. cbn [seq fmap list_fmap concat fst snd].
    rewrite <- !app_assoc. reflexivity.
Qed.

Lemma callbacks_loop_raise (before : list (Z -> M W unit)) (epoch : Z) (w w1 : W) :
  callbacks_run before epoch w w1 ->
  forall (callback : Z -> M W unit) (after : list (Z -> M W unit)) (e : exn) (w2 : W)
         (first : nat) (tr : list Event),
    callback epoch w1 = (Raise e, w2) ->
    for_each (zip (seq first (length (before ++ callback :: after)))
                  (before ++ callback :: after)) (fun jc =>
      bind (emit (EvCallback (fst jc) epoch)) (fun _ =>
      bind (on_world (snd jc epoch)) (fun _ =>
      emit (EvCallbackReturn (fst jc) epoch)))) (tr, w)
    = (Raise e,
       (tr ++ callback_events_from first (length before) epoch
           ++ [EvCallback (first + length before) epoch], w2)).
Proof.
  induction 1 as [epoch w | cb rest epoch w w1 w2 Hcall _ IH];
    intros callback after e w' first tr Hfail.
  - cbn [app length seq zip_with for_each]. apply bind_raise.
    erewrite bind_ok by reflexivity.
    apply bind_raise. unfold on_world, zoom. cbn [fst snd]. rewrite Hfail.
    rewrite Nat.add_0_r. reflexivity.
  - cbn [app length seq zip_with for_each].
    erewrite bind_ok;
      [ | erewrite bind_ok by reflexivity;
          erewrite bind_ok; [reflexivity | ];
          unfold on_world, zoom; cbn [fst snd]; rewrite Hcall; reflexivity].
    rewrite (IH callback after e w' (S first) _ Hfail).
    unfold callback_events_from. cbn [seq fmap list_fmap concat fst snd].
    rewrite <- !app_assoc, Nat.add_succ_r. reflexivity.
Qed.

(** One epoch of [train_one_model] up to the callbacks. *)
Lemma epoch_report (self : XTrainer.t W) (model : BaseModel W)
    (learning_table : LearningTable W) (test_dataloader : option DataLoader)
    (metric_func_ls : list MetricFunc) (epoch : Z) (tr : list Event) (w w1 w2 : W)
    (losses : list R) (metric_str : list (string * R)) {A}
    (k : M TS A) :
  data_loader learning_table <> [] ->
  batch_losses model (data_loader learning_table) w losses w1 ->
  metric_values (predict model) test_dataloader metric_func_ls w1 metric_str w2 ->
  bind (train_epoch self model (data_loader learning_table)) (fun mean_loss =>
  bind (for_fold metric_func_ls ([] : list (string * R)) (fun metric_str metric_func =>
          bind (calc_metric self (predict model) test_dataloader metric_func) (fun metric =>
          ret (metric_str ++ [(mf_name metric_func, metric)])))) (fun metric_str =>
  bind (emit (EvPrint (MsgEpoch (epoch + 1) (epochs learning_table) mean_loss metric_str)))
       (fun _ => k))) (tr, w)
  = k (tr ++ report_events learning_table test_dataloader metric_func_ls epoch
               losses metric_str, w2).
Proof.
  intros Hne Hlosses Hmetrics.
  erewrite bind_ok by (apply train_epoch_value; eassumption).
  erewrite bind_ok by (apply metric_values_loop; eassumption).
  erewrite bind_ok by reflexivity.
  unfold report_events. cbn [fst snd app]. rewrite <- !app_assoc. reflexivity.
Qed.

Lemma train_one_model_loop (self : XTrainer.t W) (model : BaseModel W)
    (learning_table : LearningTable W) (test_dataloader : option DataLoader)
    (metric_func_ls : list MetricFunc) (epoch_ls : list Z) (w w' : W)
    (events : list Event) :
  epochs_run model learning_table test_dataloader metric_func_ls epoch_ls w events w' ->
  forall tr : list Event,
    for_each epoch_ls (fun epoch =>
      bind (train_epoch self model (data_loader learning_table)) (fun mean_loss =>
      bind (for_fold metric_func_ls ([] : list (string * R)) (fun metric_str metric_func =>
              bind (calc_metric self (predict model) test_dataloader metric_func)
                   (fun metric => ret (metric_str ++ [(mf_name metric_func, metric)]))))
           (fun metric_str =>
      bind (emit (EvPrint (MsgEpoch (epoch + 1) (epochs learning_table) mean_loss
                             metric_str))) (fun _ =>
      let callbacks := default [] (callbacks learning_table) in
      for_each (enumerate callbacks) (fun jc =>
        bind (emit (EvCallback (fst jc) epoch)) (fun _ =>
        bind (on_world (snd jc epoch)) (fun _ =>
        emit (EvCallbackReturn (fst jc) epoch)))))))) (tr, w)
    = (Ok tt, (tr ++ events, w')).
Proof.
  induction 1 as [w | epoch rest w w1 w2 w3 w4 losses metric_str events
                      Hne Hlosses Hmetrics Hcallbacks _ IH]; intros tr.
  - cbn. rewrite app_nil_r. reflexivity.
  - cbn [for_each].
    erewrite bind_ok.
    2: { rewrite (epoch_report self model learning_table test_dataloader metric_func_ls
                    epoch tr w w1 w2 losses metric_str _ Hne Hlosses Hmetrics).
         cbn zeta. unfold enumerate. apply callbacks_loop. exact Hcallbacks. }
    rewrite IH. unfold callback_events. rewrite <- !app_assoc. reflexivity.
Qed.

(** C9.  [train_one_model] runs the epochs [0 .. epochs - 1] one after the
    other.  When every call returns ([epochs_run]), it returns, and its run
    is this one: in epoch [k], [train_batch] on every batch, then each
    metric on the model's [predict], then the report, then every callback
    of the table called with [k], in the order of the list, each from the
    state the call before it left; epoch [k + 1] starts from the state the
    last callback of epoch [k] left.  When a callback raises at epoch [k],
    [train_one_model] raises the same exception from the state that call
    left: no later callback and no step of a later epoch is run.  Whatever
    raises, the steps made are a prefix of the schedule. *)
Theorem train_one_model_sequential (self : XTrainer.t W) (model : BaseModel W)
    (learning_table : LearningTable W) (test_dataloader : option DataLoader)
    (metric_func_ls : list MetricFunc) (tr : list Event) (w : W) :
  (forall (events : list Event) (w' : W),
     epochs_run model learning_table test_dataloader metric_func_ls
       (range (epochs learning_table)) w events w' ->
     train_one_model self model learning_table test_dataloader metric_func_ls (tr, w)
     = (Ok tt, (tr ++ events, w'))) /\
  (forall (k : Z) (before after : list (Z -> M W unit)) (callback : Z -> M W unit)
          (events : list Event) (w1 w2 w3 w4 w5 : W) (losses : list R)
          (metric_str : list (string * R)) (e : exn),
     0 <= k < epochs learning_table ->
     default [] (callbacks learning_table) = before ++ callback :: after ->
     epochs_run model learning_table test_dataloader metric_func_ls (range k) w events w1 ->
     data_loader learning_table <> [] ->
     batch_losses model (data_loader learning_table) w1 losses w2 ->
     metric_values (predict model) test_dataloader metric_func_ls w2 metric_str w3 ->
     callbacks_run before k w3 w4 ->
     callback k w4 = (Raise e, w5) ->
     train_one_model self model learning_table test_dataloader metric_func_ls (tr, w)
     = (Raise e,
        (tr ++ events
            ++ report_events learning_table test_dataloader metric_func_ls k
                 losses metric_str
            ++ callback_events (length before) k
            ++ [EvCallback (length before) k], w5))) /\
  follows (train_one_model self model learning_table test_dataloader metric_func_ls)
          (train_one_model_schedule learning_table test_dataloader metric_func_ls).
Proof.
  split; [ | split].
  - intros events w' Hrun. unfold train_one_model.
    apply train_one_model_loop. exact Hrun.
  - intros k before after callback events w1 w2 w3 w4 w5 losses metric_str e
      Hk Hcallbacks Hrun Hne Hlosses Hmetrics Hbefore Hfail.
    unfold train_one_model.
    destruct (range_split k (epochs learning_table) Hk) as (rest & ->).
    rewrite for_each_app.
    erewrite bind_ok by (apply train_one_model_loop; exact Hrun).
    cbn [for_each]. apply bind_raise.
    rewrite (epoch_report self model learning_table test_dataloader metric_func_ls
               k (tr ++ events) w1 w2 w3 losses metric_str _ Hne Hlosses Hmetrics).
    cbn zeta. unfold enumerate. rewrite Hcallbacks.
    rewrite (callbacks_loop_raise before k w3 w4 Hbefore callback after e w5 0 _ Hfail).
    unfold callback_events. rewrite <- !app_assoc. reflexivity.
  - apply train_one_model_follows.
Qed.

Lemma fit_run_length (test_dataloader : option DataLoader)
    (metric_func_ls : list MetricFunc) (i : nat) (models : list (BaseModel W))
    (learning_tables : list (LearningTable W)) (w w' : W) (events : list Event) :
  fit_run test_dataloader metric_func_ls i models learning_tables w events w' ->
  length learning_tables = length models.
Proof. induction 1; cbn; congruence. Qed.

Lemma index_middle {A} (l1 l2 : list A) (x : A) :
  index (l1 ++ x :: l2) (Z.of_nat (length l1)) = Ok x.
Proof. apply index_of_nat. apply list_lookup_middle. reflexivity. Qed.

Lemma fit_loop (self : XTrainer.t W) (test_dataloader : option DataLoader)
    (metric_func_ls : list MetricFunc) (i : nat) (models : list (BaseModel W))
    (learning_tables : list (LearningTable W)) (w w' : W) (events : list Event) :
  fit_run test_dataloader metric_func_ls i models learning_tables w events w' ->
  forall (all_tables tables_before : list (LearningTable W))
         (models_before : list (BaseModel W)) (tr : list Event),
    all_tables = tables_before ++ learning_tables ->
    model_list (_assemble_model self) = models_before ++ models ->
    length tables_before = i ->
    length models_before = i ->
    for_each (Z.of_nat <$> seq i (length learning_tables)) (fun i =>
      bind (of_result (index all_tables i)) (fun learning_table =>
      bind (of_result (index (model_list (_assemble_model self)) i)) (fun model =>
      bind (on_world get) (fun w =>
      bind (emit (EvPrint (MsgStart i (get_model_config model w)))) (fun _ =>
      train_one_model self model learning_table test_dataloader metric_func_ls)))))
      (tr, w)
    = (Ok tt, (tr ++ events, w')).
Proof.
  induction 1 as [i w | i model models learning_table learning_tables w w1 w2
                          events events' Hrun _ IH];
    intros all_tables tables_before models_before tr Htables Hmodels Hlen1 Hlen2.
  - cbn. rewrite app_nil_r. reflexivity.
  - cbn [length seq fmap list_fmap for_each].
    erewrite bind_ok.
    2: { erewrite bind_ok.
         2: { unfold of_result. rewrite Htables, <- Hlen1, index_middle. reflexivity. }
         erewrite bind_ok.
         2: { unfold of_result. rewrite Hmodels, <- Hlen2, index_middle. reflexivity. }
         erewrite bind_ok by reflexivity.
         erewrite bind_ok by reflexivity.
         unfold train_one_model. apply train_one_model_loop. exact Hrun. }
    rewrite (IH all_tables (tables_before ++ [learning_table])
               (models_before ++ [model])).
    + cbn [fst snd]. rewrite <- !app_assoc. reflexivity.
    + rewrite Htables, <- app_assoc. reflexivity.
    + rewrite Hmodels, <- app_assoc. reflexivity.
    + rewrite length_app. cbn. lia.
    + rewrite length_app. cbn. lia.
Qed.

(** X5.  [fit] trains model [i] on learning table [i], for [i = 0, 1, ...] in
    order, each from the state the training before it left, and then
    computes the metrics on the assemble model and prints them: when every
    call returns ([fit_run], [metric_values]), [fit] returns and its run is
    this one.  Whatever raises, the steps made are a prefix of the
    schedule. *)
Theorem fit_in_table_order (self : XTrainer.t W)
    (learning_tables : list (LearningTable W))
    (metric_func_ls : option (list MetricFunc)) (test_dataloader : option DataLoader)
    (tr : list Event) (w : W) :
  (forall (events : list Event) (w1 w2 : W) (total_metric_str : list (string * R)),
     fit_run test_dataloader (default [] metric_func_ls) 0
       (model_list (_assemble_model self)) learning_tables w events w1 ->
     metric_values (assemble_predict (_assemble_model self)) test_dataloader
       (default [] metric_func_ls) w1 total_metric_str w2 ->
     fit self learning_tables metric_func_ls test_dataloader (tr, w)
     = (Ok tt,
        (tr ++ events
            ++ metric_events test_dataloader (default [] metric_func_ls)
            ++ [EvPrint (MsgTotal total_metric_str)], w2))) /\
  follows (fit self learning_tables metric_func_ls test_dataloader)
          (fit_schedule learning_tables metric_func_ls test_dataloader).
Proof.
  split; [ | apply fit_follows].
  intros events w1 w2 total_metric_str Hrun Htotal.
  pose proof (fit_run_length _ _ _ _ _ _ _ _ Hrun) as Hlen.
  unfold fit.
  erewrite bind_ok.
  2: { unfold assert. rewrite bool_decide_eq_true_2 by exact Hlen. reflexivity. }
  cbn zeta. rewrite range_of_nat.
  erewrite bind_ok.
  2: { apply (fit_loop self test_dataloader (default [] metric_func_ls) 0
                (model_list (_assemble_model self)) learning_tables w w1 events Hrun
                learning_tables [] []); reflexivity. }
  erewrite bind_ok by (apply metric_values_loop; exact Htotal).
  cbn [app]. unfold emit, modify. cbn [fst snd].
  rewrite <- !app_assoc. reflexivity.
Qed.

Lemma index_Forall2 {A} (P : A -> A -> Prop) (l l' : list A) (i : Z) :
  Forall2 P l l' ->
  match index l i, index l' i with
  | Ok x, Ok x' => P x x'
  | Raise e, Raise e' => e = e'
  | _, _ => False
  end.
Proof.
  intros H. unfold index. rewrite <- (Forall2_length _ _ _ H).
  destruct (decide (0 <= (if decide (i < 0) then Z.of_nat (length l) + i else i)
                    < Z.of_nat (length l))) as [Hi | _]; [ | reflexivity].
  destruct (l !! Z.to_nat (if decide (i < 0) then Z.of_nat (length l) + i else i))
    as [x | ] eqn:Hx.
  - destruct (Forall2_lookup_l _ _ _ _ _ H Hx) as (x' & -> & HP). exact HP.
  - assert (l' !! Z.to_nat (if decide (i < 0) then Z.of_nat (length l) + i else i)
            = None) as ->; [ | reflexivity].
    apply lookup_ge_None. rewrite <- (Forall2_length _ _ _ H).
    apply lookup_ge_None. exact Hx.
Qed.

Lemma train_one_model_same_training (self self' : XTrainer.t W) (model model' : BaseModel W)
    (learning_table : LearningTable W) (test_dataloader test_dataloader' : option DataLoader)
    (s : TS) :
  same_training model model' ->
  train_one_model self model learning_table test_dataloader [] s
  = train_one_model self' model' learning_table test_dataloader' [] s.
Proof.
  intros [Htrain _]. unfold train_one_model, train_epoch. cbn [for_fold].
  rewrite Htrain. reflexivity.
Qed.

(** X6.  Without metric functions (the default), [fit] never calls [predict]:
    its run (result, trace and state) is the same whatever the [predict]
    of the models and of the assemble model are, and whatever the test
    loader is; and no step of its trace is a [predict]. *)
Theorem fit_without_metrics_never_predicts (self self' : XTrainer.t W)
    (learning_tables : list (LearningTable W))
    (test_dataloader test_dataloader' : option DataLoader) (s : TS) :
  Forall2 same_training (model_list (_assemble_model self))
                        (model_list (_assemble_model self')) ->
  fit self learning_tables None test_dataloader s
  = fit self' learning_tables None test_dataloader' s /\
  exists done,
    steps (snd (fit self learning_tables None test_dataloader s)) = steps s ++ done /\
    Forall (fun st => is_predict st = false) done.
Proof.
  intros Hmodels. split.
  - unfold fit. rewrite <- (Forall2_length _ _ _ Hmodels).
    cbn [default for_fold].
    apply bind_congr; [reflexivity | intros _ s0].
    apply bind_congr; [ | reflexivity].
    apply for_each_ext. intros i s1.
    apply bind_congr; [reflexivity | intros learning_table s2].
    pose proof (index_Forall2 same_training _ _ i Hmodels) as Hi.
    apply bind_of_result_congr.
    destruct (index (model_list (_assemble_model self)) i) as [model | e],
             (index (model_list (_assemble_model self')) i) as [model' | e'];
      try contradiction; [ | exact Hi].
    apply bind_congr; [reflexivity | intros w s3].
    rewrite (proj2 Hi).
    apply bind_congr; [reflexivity | intros _ s4].
    apply train_one_model_same_training. exact Hi.
  - destruct (fit_follows self learning_tables None test_dataloader s)
      as (done & Hsteps & Hdone).
    exists done. split; [exact Hsteps | ].
    pose proof (fit_schedule_without_metrics learning_tables test_dataloader) as Hsched.
    destruct (is_ok (fst (fit self learning_tables None test_dataloader s))).
    + subst done. exact Hsched.
    + destruct Hdone as (rest & Hrest). rewrite Hrest in Hsched.
      apply Forall_app in Hsched. tauto.
Qed.

End TrainerRuns.

Section TrainerRunExamples.

Import XTrainer.

Lemma journal_batch_losses (id : Z) (log : list Z) :
  batch_losses (journal_model id) [toy_batch 2] log [2%R] (log ++ [id]).
Proof.
  apply (batch_losses_cons (journal_model id) _ _ [] log (log ++ [id]) (log ++ [id]) 2 []);
    [reflexivity | constructor].
Qed.

Lemma journal_batch_metrics (p : Tensor -> M (list Z) Array2) (mark : Z) (log : list Z) :
  (forall x log, p x log = (Ok [data x], log ++ [mark])) ->
  batch_metrics p first_entry (journal_test 3) log [3%R] (log ++ [mark]).
Proof.
  intros Hp.
  apply (batch_metrics_cons p first_entry (mkTensor [1%nat] [3%R]) (mkTensor [1%nat] [0%R])
           [] log (log ++ [mark]) (log ++ [mark]) [[3%R]] []);
    [apply Hp | constructor].
Qed.

Lemma journal_metric_values (p : Tensor -> M (list Z) Array2) (mark : Z) (log : list Z) :
  (forall x log, p x log = (Ok [data x], log ++ [mark])) ->
  metric_values p (Some (journal_test 3)) [first_entry] log
    [("first_entry", (fsum [3] / INR (length [3%R]))%R)] (log ++ [mark]).
Proof.
  intros Hp.
  apply (metric_values_cons p (Some (journal_test 3)) first_entry [] (journal_test 3)
           log (log ++ [mark]) (log ++ [mark]) [3%R] []);
    [reflexivity | discriminate | apply journal_batch_metrics; exact Hp | constructor].
Qed.

Lemma journal_callbacks_run_2 (epoch : Z) (log : list Z) :
  callbacks_run [journal_callback 100; journal_callback 200] epoch log
    ((log ++ [100 + epoch]) ++ [200 + epoch]).
Proof.
  apply (callbacks_run_cons (journal_callback 100) [journal_callback 200] epoch log
           (log ++ [100 + epoch]) ((log ++ [100 + epoch]) ++ [200 + epoch]));
    [reflexivity | ].
  apply (callbacks_run_cons (journal_callback 200) [] epoch (log ++ [100 + epoch])
           ((log ++ [100 + epoch]) ++ [200 + epoch])
           ((log ++ [100 + epoch]) ++ [200 + epoch]));
    [reflexivity | constructor].
Qed.

Lemma journal_callbacks_run_1 (id epoch : Z) (log : list Z) :
  callbacks_run [journal_callback id] epoch log (log ++ [id + epoch]).
Proof.
  apply (callbacks_run_cons (journal_callback id) [] epoch log
           (log ++ [id + epoch]) (log ++ [id + epoch]));
    [reflexivity | constructor].
Qed.

(** One epoch of the journal model [id] over a table of loader
    [[toy_batch 2]] whose callbacks leave [marks]. *)
Lemma journal_epoch (id : Z) (learning_table : LearningTable (list Z)) (epoch : Z)
    (rest : list Z) (log log3 log4 : list Z) (events : list Event) :
  data_loader learning_table = [toy_batch 2] ->
  callbacks_run (default [] (callbacks learning_table)) epoch ((log ++ [id]) ++ [id + 1]) log3 ->
  epochs_run (journal_model id) learning_table (Some (journal_test 3)) [first_entry]
    rest log3 events log4 ->
  epochs_run (journal_model id) learning_table (Some (journal_test 3)) [first_entry]
    (epoch :: rest) log
    (report_events learning_table (Some (journal_test 3)) [first_entry] epoch [2%R]
       [("first_entry", (fsum [3] / INR (length [3%R]))%R)]
     ++ callback_events (length (default [] (callbacks learning_table))) epoch
     ++ events)
    log4.
Proof.
  intros Hloader Hcallbacks Hrest.
  apply (epochs_run_cons (journal_model id) learning_table (Some (journal_test 3))
           [first_entry] epoch rest log (log ++ [id]) ((log ++ [id]) ++ [id + 1]) log3 log4
           [2%R] [("first_entry", (fsum [3] / INR (length [3%R]))%R)] events).
  - rewrite Hloader. discriminate.
  - rewrite Hloader. apply journal_batch_losses.
  - apply journal_metric_values. reflexivity.
  - exact Hcallbacks.
  - exact Hrest.
Qed.

Lemma journal_epochs_run :
  epochs_run (journal_model 10)
    (journal_table [toy_batch 2] 2 [journal_callback 100; journal_callback 200])
    (Some (journal_test 3)) [first_entry] (range 2) []
    (journal_report 0 2
     ++ [EvCallback 0 0; EvCallbackReturn 0 0; EvCallback 1 0; EvCallbackReturn 1 0]
     ++ journal_report 1 2
     ++ [EvCallback 0 1; EvCallbackReturn 0 1; EvCallback 1 1; EvCallbackReturn 1 1])
    [10; 11; 100; 200; 10; 11; 101; 201].
Proof.
  exact (journal_epoch 10 (journal_table [toy_batch 2] 2
                             [journal_callback 100; journal_callback 200])
           0 [1] [] [10; 11; 100; 200] [10; 11; 100; 200; 10; 11; 101; 201] _ eq_refl
           (journal_callbacks_run_2 0 [10; 11])
           (journal_epoch 10 (journal_table [toy_batch 2] 2
                                [journal_callback 100; journal_callback 200])
              1 [] [10; 11; 100; 200] [10; 11; 100; 200; 10; 11; 101; 201]
              [10; 11; 100; 200; 10; 11; 101; 201] [] eq_refl
              (journal_callbacks_run_2 1 [10; 11; 100; 200; 10; 11])
              (epochs_run_nil _ _ _ _ _))).
Qed.

Lemma journal_callbacks_run_3 (log : list Z) :
  callbacks_run [journal_callback 100; journal_callback_failing 200; journal_callback 300]
    0 log (((log ++ [100]) ++ [200]) ++ [300]).
Proof.
  apply (callbacks_run_cons (journal_callback 100)
           [journal_callback_failing 200; journal_callback 300] 0 log
           (log ++ [100]) (((log ++ [100]) ++ [200]) ++ [300]));
    [reflexivity | ].
  apply (callbacks_run_cons (journal_callback_failing 200) [journal_callback 300] 0
           (log ++ [100]) ((log ++ [100]) ++ [200]) (((log ++ [100]) ++ [200]) ++ [300]));
    [reflexivity | ].
  apply (callbacks_run_cons (journal_callback 300) [] 0
           ((log ++ [100]) ++ [200]) (((log ++ [100]) ++ [200]) ++ [300])
           (((log ++ [100]) ++ [200]) ++ [300]));
    [reflexivity | constructor].
Qed.

Lemma journal_failing_epochs_run :
  epochs_run (journal_model 10)
    (journal_table [toy_batch 2] 3
       [journal_callback 100; journal_callback_failing 200; journal_callback 300])
    (Some (journal_test 3)) [first_entry] (range 1) []
    (journal_report 0 3
     ++ [EvCallback 0 0; EvCallbackReturn 0 0; EvCallback 1 0; EvCallbackReturn 1 0;
         EvCallback 2 0; EvCallbackReturn 2 0])
    [10; 11; 100; 200; 300].
Proof.
  exact (journal_epoch 10
           (journal_table [toy_batch 2] 3
              [journal_callback 100; journal_callback_failing 200; journal_callback 300])
           0 [] [] [10; 11; 100; 200; 300] [10; 11; 100; 200; 300] [] eq_refl
           (journal_callbacks_run_3 [10; 11]) (epochs_run_nil _ _ _ _ _)).
Qed.

(** C9 on the journal model: two epochs over one batch, one metric, two
    callbacks.  The journal shows the order of the calls and the epoch each
    callback was called with.  With a callback that raises at epoch 1, the
    run stops there. *)
Lemma train_one_model_sequential_example :
  train_one_model (journal_trainer [journal_model 10]) (journal_model 10)
    (journal_table [toy_batch 2] 2 [journal_callback 100; journal_callback 200])
    (Some (journal_test 3)) [first_entry] ([], [])
  = (Ok tt,
     (journal_report 0 2
      ++ [EvCallback 0 0; EvCallbackReturn 0 0; EvCallback 1 0; EvCallbackReturn 1 0]
      ++ journal_report 1 2
      ++ [EvCallback 0 1; EvCallbackReturn 0 1; EvCallback 1 1; EvCallbackReturn 1 1],
      [10; 11; 100; 200; 10; 11; 101; 201])) /\
  train_one_model (journal_trainer [journal_model 10]) (journal_model 10)
    (journal_table [toy_batch 2] 3
       [journal_callback 100; journal_callback_failing 200; journal_callback 300])
    (Some (journal_test 3)) [first_entry] ([], [])
  = (Raise RuntimeError,
     (journal_report 0 3
      ++ [EvCallback 0 0; EvCallbackReturn 0 0; EvCallback 1 0; EvCallbackReturn 1 0;
          EvCallback 2 0; EvCallbackReturn 2 0]
      ++ journal_report 1 3
      ++ [EvCallback 0 1; EvCallbackReturn 0 1; EvCallback 1 1],
      [10; 11; 100; 200; 300; 10; 11; 101; -200])).
Proof.
  split.
  - exact (proj1 (train_one_model_sequential (journal_trainer [journal_model 10])
                    (journal_model 10)
                    (journal_table [toy_batch 2] 2
                       [journal_callback 100; journal_callback 200])
                    (Some (journal_test 3)) [first_entry] [] [])
             _ _ journal_epochs_run).
  - assert (0 <= 1 < 3) as Hk by lia.
    assert ([toy_batch 2] <> []) as Hne by discriminate.
    exact (proj1 (proj2 (train_one_model_sequential (journal_trainer [journal_model 10])
                           (journal_model 10)
                           (journal_table [toy_batch 2] 3
                              [journal_callback 100; journal_callback_failing 200;
                               journal_callback 300])
                           (Some (journal_test 3)) [first_entry] [] []))
             1 [journal_callback 100] [journal_callback 300] (journal_callback_failing 200)
             _ [10; 11; 100; 200; 300] [10; 11; 100; 200; 300; 10]
             [10; 11; 100; 200; 300; 10; 11] [10; 11; 100; 200; 300; 10; 11; 101]
             [10; 11; 100; 200; 300; 10; 11; 101; -200] [2%R]
             [("first_entry", (fsum [3] / INR (length [3%R]))%R)] RuntimeError
             Hk eq_refl journal_failing_epochs_run Hne
             (journal_batch_losses 10 [10; 11; 100; 200; 300])
             (journal_metric_values (predict (journal_model 10)) 11
                [10; 11; 100; 200; 300; 10] (fun _ _ => eq_refl))
             (journal_callbacks_run_1 100 1 [10; 11; 100; 200; 300; 10; 11])
             eq_refl).
Defined.

Lemma journal_fit_run :
  fit_run (Some (journal_test 3)) [first_entry] 0
    [journal_model 10; journal_model 20]
    [journal_table [toy_batch 2] 1 [journal_callback 100];
     journal_table [toy_batch 2] 2 [journal_callback 200]]
    []
    (EvPrint (MsgStart 0 ∅)
     :: (journal_report 0 1 ++ [EvCallback 0 0; EvCallbackReturn 0 0])
     ++ EvPrint (MsgStart 1 ∅)
     :: journal_report 0 2 ++ [EvCallback 0 0; EvCallbackReturn 0 0]
     ++ journal_report 1 2 ++ [EvCallback 0 1; EvCallbackReturn 0 1])
    [10; 11; 100; 20; 21; 200; 20; 21; 201].
Proof.
  exact (fit_run_cons (Some (journal_test 3)) [first_entry] 0
           (journal_model 10) [journal_model 20]
           (journal_table [toy_batch 2] 1 [journal_callback 100])
           [journal_table [toy_batch 2] 2 [journal_callback 200]]
           [] [10; 11; 100] [10; 11; 100; 20; 21; 200; 20; 21; 201] _ _
           (journal_epoch 10 (journal_table [toy_batch 2] 1 [journal_callback 100])
              0 [] [] [10; 11; 100] [10; 11; 100] [] eq_refl
              (journal_callbacks_run_1 100 0 [10; 11]) (epochs_run_nil _ _ _ _ _))
           (fit_run_cons (Some (journal_test 3)) [first_entry] 1
              (journal_model 20) []
              (journal_table [toy_batch 2] 2 [journal_callback 200]) []
              [10; 11; 100] [10; 11; 100; 20; 21; 200; 20; 21; 201]
              [10; 11; 100; 20; 21; 200; 20; 21; 201] _ []
              (journal_epoch 20 (journal_table [toy_batch 2] 2 [journal_callback 200])
                 0 [1] [10; 11; 100] [10; 11; 100; 20; 21; 200]
                 [10; 11; 100; 20; 21; 200; 20; 21; 201] _ eq_refl
                 (journal_callbacks_run_1 200 0 [10; 11; 100; 20; 21])
                 (journal_epoch 20 (journal_table [toy_batch 2] 2 [journal_callback 200])
                    1 [] [10; 11; 100; 20; 21; 200]
                    [10; 11; 100; 20; 21; 200; 20; 21; 201]
                    [10; 11; 100; 20; 21; 200; 20; 21; 201] [] eq_refl
                    (journal_callbacks_run_1 200 1 [10; 11; 100; 20; 21; 200; 20; 21])
                    (epochs_run_nil _ _ _ _ _)))
              (fit_run_nil _ _ 2 _))).
Qed.

(** X5 on two journal models: the first table (one epoch) trains the model
    10, the second (two epochs) the model 20, and the totals are computed
    on the assemble model (mark 1) at the end. *)
Lemma fit_in_table_order_example :
  fit (journal_trainer [journal_model 10; journal_model 20])
    [journal_table [toy_batch 2] 1 [journal_callback 100];
     journal_table [toy_batch 2] 2 [journal_callback 200]]
    (Some [first_entry]) (Some (journal_test 3)) ([], [])
  = (Ok tt,
     ((EvPrint (MsgStart 0 ∅)
       :: (journal_report 0 1 ++ [EvCallback 0 0; EvCallbackReturn 0 0])
       ++ EvPrint (MsgStart 1 ∅)
       :: journal_report 0 2 ++ [EvCallback 0 0; EvCallbackReturn 0 0]
       ++ journal_report 1 2 ++ [EvCallback 0 1; EvCallbackReturn 0 1])
      ++ [EvPredict (mkTensor [1%nat] [3%R]);
          EvPrint (MsgTotal [("first_entry", ((3 + 0) / 1)%R)])],
      [10; 11; 100; 20; 21; 200; 20; 21; 201; 1])).
Proof.
  exact (proj1 (fit_in_table_order (journal_trainer [journal_model 10; journal_model 20])
                  [journal_table [toy_batch 2] 1 [journal_callback 100];
                   journal_table [toy_batch 2] 2 [journal_callback 200]]
                  (Some [first_entry]) (Some (journal_test 3)) [] [])
           _ [10; 11; 100; 20; 21; 200; 20; 21; 201]
           [10; 11; 100; 20; 21; 200; 20; 21; 201; 1] _
           journal_fit_run
           (journal_metric_values
              (assemble_predict
                 (_assemble_model (journal_trainer [journal_model 10; journal_model 20])))
              1 [10; 11; 100; 20; 21; 200; 20; 21; 201] (fun _ _ => eq_refl))).
Defined.

(** X6 on the journal model: with a [predict] that raises, on the model and
    on the assemble model, and with a test loader, the run is the same. *)
Lemma fit_without_metrics_never_predicts_example :
  fit (journal_trainer [journal_model 10])
    [journal_table [toy_batch 2] 2 [journal_callback 100]] None None ([], [])
  = fit (XTrainer.mk
           {| model_list := [with_predict (fun _ => raise RuntimeError) (journal_model 10)];
              assemble_predict := fun _ => raise RuntimeError |})
      [journal_table [toy_batch 2] 2 [journal_callback 100]] None
      (Some (journal_test 3)) ([], []) /\
  exists done,
    steps (snd (fit (journal_trainer [journal_model 10])
                  [journal_table [toy_batch 2] 2 [journal_callback 100]] None None
                  ([], [])))
    = steps (([], []) : list Event * list Z) ++ done /\
    Forall (fun st => is_predict st = false) done.
Proof.
  assert (same_training (journal_model 10)
            (with_predict (fun _ => raise RuntimeError) (journal_model 10))) as Hsame
    by (split; reflexivity).
  assert (Forall2 same_training [journal_model 10]
            [with_predict (fun _ => raise RuntimeError) (journal_model 10)]) as Hmodels
    by (constructor; [exact Hsame | constructor]).
  exact (fit_without_metrics_never_predicts (journal_trainer [journal_model 10])
           (XTrainer.mk
              {| model_list :=
                   [with_predict (fun _ => raise RuntimeError) (journal_model 10)];
                 assemble_predict := fun _ => raise RuntimeError |})
           [journal_table [toy_batch 2] 2 [journal_callback 100]] None
           (Some (journal_test 3)) ([], [])
           Hmodels).
Defined.

End TrainerRunExamples.

(** ** More on the adapter *)

Section AdapterMore.

Import EfficientNet.

Local Open Scope R_scope.

Variable network_forward :
  string * Z -> gmap string Tensor -> bool -> Tensor -> Array2 * gmap string Tensor.

(** X7.  [load_weight] lets the failure of [torch.load] through: on a path with
    no file it raises [FileNotFoundError], on a file that is not a
    checkpoint (an image or a figure a callback wrote) it raises too, and in
    both cases nothing was printed and the adapter is as it was. *)
Theorem load_weight_unreadable (self : t) (env : Env) (weight_path : string) :
  (fs env !! weight_path = None ->
   load_weight weight_path (self, env) = (Raise FileNotFoundError, (self, env))) /\
  (forall f, fs env !! weight_path = Some f ->
   (forall obj, f <> FPickle obj) ->
   exists e, load_weight weight_path (self, env) = (Raise e, (self, env))).
Proof.
  unfold load_weight, bind, on_env, zoom, load. cbn [fst snd].
  split.
  - intros ->. reflexivity.
  - intros f -> Hf. destruct f as [obj | img | fig].
    + exfalso. exact (Hf obj eq_refl).
    + eexists. reflexivity.
    + eexists. reflexivity.
Qed.

Lemma load_weight_prefix (self : t) (env : Env) (weight_path : string)
    (params : gmap string PyVal) (n : Z) :
  fs env !! weight_path = Some (FPickle params) ->
  params !! "num_class" = Some (VInt n) ->
  load_weight weight_path (self, env)
  = bind (of_result (getitem params "state_dict")) (fun sd =>
      bind (on_model (load_state_dict sd)) (fun _ =>
      bind (of_result (getitem params "optimizer")) (fun osd =>
      bind (on_optimizer (optimizer_load_state_dict osd)) (fun _ =>
      bind (of_result (getitem params "network")) (fun network =>
        match network with
        | VStr s => on_self (modify (set_network s))
        | _ => raise TypeError
        end)))))
      (set_num_classes n self, after_load_prints n env).
Proof.
  intros Hfile Hn.
  unfold load_weight at 1, load, on_env, zoom.
  unfold bind at 1. cbn [fst snd]. rewrite Hfile.
  unfold bind at 1. unfold bind at 1. cbn [print modify fst snd].
  unfold of_result at 1, getitem at 1. rewrite Hn.
  unfold bind at 1. unfold bind at 1. unfold bind at 1. cbn [print modify fst snd].
  unfold bind at 1. unfold on_self at 1, zoom at 1. cbn [modify fst snd].
  destruct env. unfold after_load_prints, set_stdout. cbn.
  rewrite <- app_assoc. reflexivity.
Qed.

(** X8.  [load_weight] is not atomic.  A checkpoint without ['num_class'] is
    refused with [KeyError] after the first line is printed, the adapter
    untouched; one with a class count but no ['state_dict'] is refused with
    [KeyError] after [_num_classes] has already been replaced. *)
Theorem load_weight_missing_key (self : t) (env : Env) (weight_path : string)
    (params : gmap string PyVal) :
  fs env !! weight_path = Some (FPickle params) ->
  (params !! "num_class" = None ->
   load_weight weight_path (self, env)
   = (Raise KeyError,
      (self, set_stdout (stdout env ++ ["The pretrained weight is loaded"]) env))) /\
  (forall n, params !! "num_class" = Some (VInt n) ->
   params !! "state_dict" = None ->
   load_weight weight_path (self, env)
   = (Raise KeyError, (set_num_classes n self, after_load_prints n env))).
Proof.
  intros Hfile. split.
  - intros Hn. unfold load_weight, load, on_env, zoom.
    unfold bind at 1. cbn [fst snd]. rewrite Hfile.
    unfold bind at 1. unfold bind at 1. cbn [print modify fst snd].
    unfold of_result at 1, getitem at 1. rewrite Hn. reflexivity.
  - intros n Hn Hsd.
    rewrite (load_weight_prefix self env weight_path params n Hfile Hn).
    unfold bind at 1, of_result, getitem. rewrite Hsd. reflexivity.
Qed.

(** X9.  A checkpoint of an adapter whose parameters have other names or shapes
    is refused with [RuntimeError] by the network's strict load, after both
    lines are printed; the optimizer and the network name are still the
    adapter's own, but [_num_classes] is already the checkpoint's. *)
Theorem load_weight_shape_mismatch (a b : t) (env : Env) (weight_path : string) :
  fs env !! weight_path = Some (FPickle (checkpoint_of a)) ->
  shape <$> parameters (_model a) <> shape <$> parameters (_model b) ->
  exists b',
    load_weight weight_path (b, env)
    = (Raise RuntimeError, (b', after_load_prints (_num_classes a) env)) /\
    _num_classes b' = _num_classes a /\
    _network b' = _network b /\
    _optimizer b' = _optimizer b.
Proof.
  intros Hfile Hshape.
  destruct (checkpoint_of_lookup a) as (Hn & _ & Hsd & _).
  assert (checkpoint_of a !! "num_class" = Some (VInt (_num_classes a))) as Hn'.
  { unfold getitem in Hn. destruct (checkpoint_of a !! "num_class"); congruence. }
  exists (set_num_classes (_num_classes a) b). split; [ | repeat split].
  rewrite (load_weight_prefix b env weight_path _ _ Hfile Hn').
  unfold bind at 1. rewrite Hsd. unfold of_result.
  unfold bind at 1. unfold on_model, on_self, zoom, load_state_dict, state_dict.
  cbn [fst snd _model set_num_classes].
  destruct (decide (shape <$> parameters (_model a) = shape <$> parameters (_model b)))
    as [E | _]; [contradiction | ].
  destruct b as [n [ar ps tr] net o]. reflexivity.
Qed.

Lemma load_weight_restores (a b : t) (env : Env) (path : string) :
  same_architecture a b ->
  fs env !! path = Some (FPickle (checkpoint_of a)) ->
  load_weight path (b, env)
  = (Ok tt, (restored b a, after_load_prints (_num_classes a) env)).
Proof. apply load_weight_of_checkpoint. Qed.


(** X11.  [load_weight] replaces the optimizer's hyperparameters: an adapter built
    with learning rate [lr2] that loads the checkpoint of one built with
    [lr1] (same network name and class count) continues with [lr1], and
    with the momentum and weight decay of the checkpoint. *)
Theorem load_weight_overrides_hyperparameters
    (from_name : string -> Z -> nat -> Module_) (num_parameters : string * Z -> nat)
    (num_classes : Z) (network : string)
    (lr1 momentum1 weight_decay1 lr2 momentum2 weight_decay2 : R) (seed1 seed2 : nat)
    (env : Env) (path : string) :
  (forall n c s1 s2, arch (from_name n c s1) = arch (from_name n c s2)) ->
  (forall n c s1 s2,
     shape <$> parameters (from_name n c s1) = shape <$> parameters (from_name n c s2)) ->
  let a := __init__ from_name num_parameters num_classes network
             lr1 momentum1 weight_decay1 seed1 in
  let b := __init__ from_name num_parameters num_classes network
             lr2 momentum2 weight_decay2 seed2 in
  let env1 := snd (snd (save_weight path (a, env))) in
  exists b' env2,
    load_weight path (b, env1) = (Ok tt, (b', env2)) /\
    pg_lr <$> param_groups (get_optimizer b') = [lr1] /\
    pg_momentum <$> param_groups (get_optimizer b') = [momentum1] /\
    pg_weight_decay <$> param_groups (get_optimizer b') = [weight_decay1].
Proof.
  intros Harch Hshape a b env1.
  assert (same_architecture a b) as Hsame
    by (apply fresh_same_architecture; assumption).
  eexists. eexists. split.
  - apply load_weight_restores; [exact Hsame | ].
    subst env1. rewrite save_weight_unfold. cbn. apply lookup_insert_eq.
  - repeat split.
Qed.

(** X12.  [predict] does not depend on the mode the network was left in nor on
    the gradient mode, and (the forward pass being pure in inference mode)
    a second [predict] gives the same array and changes nothing more. *)
Theorem predict_repeatable (self : t) (env : Env) (inputs : Tensor) :
  eval_forward_pure network_forward ->
  (forall mode g,
     fst (predict network_forward inputs
            (set_model (mkModule (arch (_model self)) (parameters (_model self)) mode) self,
             set_grad_enabled g env))
     = fst (predict network_forward inputs (self, env))) /\
  (let first := predict network_forward inputs (self, env) in
   predict network_forward inputs (snd first) = first).
Proof.
  intros Hpure. split.
  - intros mode g. rewrite !predict_unfold. cbn.
    destruct (network_forward (arch (_model self)) (parameters (_model self)) false inputs).
    reflexivity.
  - cbn zeta. rewrite predict_unfold. cbn zeta.
    pose proof (Hpure (arch (_model self)) (parameters (_model self)) inputs) as Hp.
    destruct (network_forward (arch (_model self)) (parameters (_model self)) false inputs)
      as [out params'] eqn:E.
    cbn [fst snd] in *. subst params'.
    rewrite predict_unfold. cbn. rewrite E. reflexivity.
Qed.

End AdapterMore.

Section AdapterMoreExamples.

Import EfficientNet.

Local Open Scope R_scope.

(** An environment whose ["w.pth"] holds an empty dictionary. *)
Lemma load_weight_missing_key_example :
  load_weight "w.pth" (toy_adapter (1 / 10) 7, set_fs {[ "w.pth" := FPickle ∅ ]} env0)
  = (Raise KeyError,
     (toy_adapter (1 / 10) 7,
      set_stdout ["The pretrained weight is loaded"]
        (set_fs {[ "w.pth" := FPickle ∅ ]} env0))).
Proof.
  assert (fs (set_fs {[ "w.pth" := FPickle ∅ ]} env0) !! "w.pth"
          = Some (FPickle ∅)) as Hfile by reflexivity.
  exact (proj1 (load_weight_missing_key (toy_adapter (1 / 10) 7) _ "w.pth" ∅ Hfile)
           eq_refl).
Defined.

Lemma toy_shapes_differ :
  shape <$> parameters (_model (toy_adapter3 (1 / 10) 7))
  <> shape <$> parameters (_model (toy_adapter (1 / 10) 7)).
Proof.
  cbn. rewrite !map_fmap_singleton. intros H.
  apply (f_equal (fun m => m !! "_fc.bias")) in H.
  rewrite !lookup_singleton_eq in H. discriminate.
Qed.

(** The checkpoint of a 3-class adapter loaded into a 2-class adapter. *)
Lemma load_weight_shape_mismatch_example :
  let env1 := snd (snd (save_weight "w.pth" (toy_adapter3 (1 / 10) 7, env0))) in
  exists b',
    load_weight "w.pth" (toy_adapter (1 / 10) 7, env1)
    = (Raise RuntimeError, (b', after_load_prints 3 env1)) /\
    _num_classes b' = 3%Z /\
    _network b' = _network (toy_adapter (1 / 10) 7) /\
    _optimizer b' = _optimizer (toy_adapter (1 / 10) 7).
Proof.
  cbn zeta.
  assert (fs (snd (snd (save_weight "w.pth" (toy_adapter3 (1 / 10) 7, env0)))) !! "w.pth"
          = Some (FPickle (checkpoint_of (toy_adapter3 (1 / 10) 7)))) as Hfile
    by (rewrite save_weight_unfold; apply lookup_insert_eq).
  exact (load_weight_shape_mismatch (toy_adapter3 (1 / 10) 7) (toy_adapter (1 / 10) 7)
           _ "w.pth" Hfile toy_shapes_differ).
Defined.


Lemma load_weight_overrides_hyperparameters_example :
  let env1 := snd (snd (save_weight "w.pth" (toy_adapter (1 / 10) 7, env0))) in
  exists b' env2,
    load_weight "w.pth" (toy_adapter (1 / 2) 3, env1) = (Ok tt, (b', env2)) /\
    pg_lr <$> param_groups (get_optimizer b') = [1 / 10] /\
    pg_momentum <$> param_groups (get_optimizer b') = [9 / 10] /\
    pg_weight_decay <$> param_groups (get_optimizer b') = [1 / 10000].
Proof.
  assert (forall n c s1 s2, arch (toy_from_name n c s1) = arch (toy_from_name n c s2))
    as Harch by reflexivity.
  assert (forall n c s1 s2,
            shape <$> parameters (toy_from_name n c s1)
            = shape <$> parameters (toy_from_name n c s2)) as Hshape.
  { intros n c s1 s2. unfold toy_from_name. cbn.
    rewrite !map_fmap_singleton. reflexivity. }
  exact (load_weight_overrides_hyperparameters toy_from_name toy_num_parameters 2
           "efficientnet-b0" (1 / 10) (9 / 10) (1 / 10000) (1 / 2) (9 / 10) (1 / 10000)
           7 3 env0 "w.pth" Harch Hshape).
Defined.

Lemma predict_repeatable_example :
  (forall mode g,
     fst (predict toy_forward batch4
            (set_model (mkModule (arch (_model (toy_adapter (1 / 10) 7)))
                          (parameters (_model (toy_adapter (1 / 10) 7))) mode)
               (toy_adapter (1 / 10) 7),
             set_grad_enabled g env0))
     = fst (predict toy_forward batch4 (toy_adapter (1 / 10) 7, env0))) /\
  (let first := predict toy_forward batch4 (toy_adapter (1 / 10) 7, env0) in
   predict toy_forward batch4 (snd first) = first).
Proof.
  exact (predict_repeatable toy_forward (toy_adapter (1 / 10) 7) env0 batch4
           toy_forward_eval_pure).
Defined.

End AdapterMoreExamples.

(** ** More on the callbacks *)

Section CallbacksMore.

Import Callbacks.

Context {MS : Type}.

Variable draw_bounding_boxes_with_name_tag :
  Image -> list BBox -> Z * Z * Z -> string -> Image.

(** X13.  The guard of the periodic callbacks sees a negative period as its
    absolute value: [(epoch + 1) % -n] is zero exactly when
    [(epoch + 1) % n] is. *)
Theorem skips_negative_period (n epoch : Z) : skips (- n) epoch = skips n epoch.
Proof.
  unfold skips, mod_.
  destruct (decide (n = 0)) as [-> | Hn]; [reflexivity | ].
  destruct (decide (- n = 0)) as [E | _]; [lia | ].
  do 2 f_equal. apply bool_decide_ext. split; intros H.
  - rewrite <- (Z.opp_involutive n). apply Z_mod_zero_opp_r. exact H.
  - apply Z_mod_zero_opp_r. exact H.
Qed.

(** X14.  With a period of zero a periodic callback is not silent: every call
    raises [ZeroDivisionError] (and changes nothing). *)
Theorem periodic_callback_zero_period (cb : @PeriodicCallback MS) (epoch : Z)
    (w : MS * Env) :
  per_epoch cb = 0 ->
  invoke draw_bounding_boxes_with_name_tag cb epoch w = (Raise ZeroDivisionError, w).
Proof.
  intros Hzero.
  pose proof (invoke_guarded draw_bounding_boxes_with_name_tag cb epoch w) as H.
  rewrite Hzero in H. exact H.
Qed.

Lemma fires_iff (n epoch : Z) :
  fires n epoch = true <-> n <> 0 /\ (epoch + 1) `mod` n = 0.
Proof.
  unfold fires, skips, mod_.
  destruct (decide (n = 0)) as [-> | Hn]; [split; [discriminate | tauto] | ].
  destruct (decide ((epoch + 1) `mod` n = 0)) as [E | E].
  - rewrite bool_decide_eq_true_2 by exact E. cbn. tauto.
  - rewrite bool_decide_eq_false_2 by exact E. cbn. split; [discriminate | tauto].
Qed.

Lemma div_succ (k n : Z) :
  0 < n -> 0 <= k ->
  (k + 1) `div` n = k `div` n + (if decide ((k + 1) `mod` n = 0) then 1 else 0).
Proof.
  intros Hn Hk.
  pose proof (Z.div_mod k n ltac:(lia)) as Hk'.
  pose proof (Z.mod_pos_bound k n Hn) as Hr.
  destruct (decide (k `mod` n + 1 = n)) as [E | E].
  - assert ((k + 1) `mod` n = 0) as Hmod.
    { symmetry. apply (Z.mod_unique_pos _ _ (k `div` n + 1)); lia. }
    assert ((k + 1) `div` n = k `div` n + 1) as Hdiv.
    { symmetry. apply (Z.div_unique_pos _ _ _ 0); lia. }
    rewrite Hdiv. destruct (decide ((k + 1) `mod` n = 0)); [reflexivity | contradiction].
  - assert ((k + 1) `mod` n = k `mod` n + 1) as Hmod.
    { symmetry. apply (Z.mod_unique_pos _ _ (k `div` n)); lia. }
    assert ((k + 1) `div` n = k `div` n) as Hdiv.
    { symmetry. apply (Z.div_unique_pos _ _ _ (k `mod` n + 1)); lia. }
    rewrite Hdiv. destruct (decide ((k + 1) `mod` n = 0)); lia.
Qed.

Lemma range_succ (k : nat) : range (Z.of_nat (S k)) = range (Z.of_nat k) ++ [Z.of_nat k].
Proof.
  unfold range. rewrite !Nat2Z.id. rewrite seq_S, fmap_app. reflexivity.
Qed.

Lemma firings_count (n : Z) (k : nat) :
  0 < n ->
  Z.of_nat (length (filter (fun epoch => fires n epoch = true) (range (Z.of_nat k))))
  = Z.of_nat k `div` n.
Proof.
  intros Hn. induction k as [ | k IH].
  - cbn. rewrite Z.div_0_l by lia. reflexivity.
  - rewrite range_succ, filter_app, length_app, Nat2Z.inj_add, IH.
    rewrite Nat2Z.inj_succ, <- Z.add_1_r.
    rewrite (div_succ (Z.of_nat k) n Hn) by lia. f_equal.
    rewrite filter_cons, filter_nil.
    destruct (decide ((Z.of_nat k + 1) `mod` n = 0)) as [E | E].
    + rewrite decide_True; [reflexivity | ]. apply fires_iff. split; [lia | exact E].
    + rewrite decide_False; [reflexivity | ].
      rewrite fires_iff. intros [_ H]. contradiction.
Qed.

(** X15.  Over [epochs] epochs a callback with a positive period [n] fires
    [epochs // n] times: at the epochs [n - 1], [2n - 1], ... *)
Theorem periodic_callback_firings (n epochs : Z) :
  0 < n -> 0 <= epochs ->
  Z.of_nat (length (filter (fun epoch => fires n epoch = true) (range epochs)))
  = epochs `div` n /\
  (forall epoch, fires n epoch = true <-> (epoch + 1) `mod` n = 0).
Proof.
  intros Hn Hepochs. split.
  - rewrite <- (Z2Nat.id epochs Hepochs). apply firings_count. exact Hn.
  - intros epoch. rewrite fires_iff. split; [tauto | ]. intros H. split; [lia | exact H].
Qed.

End CallbacksMore.

Section CheckoutMore.

Import Callbacks.

Lemma string_length_append (s t : string) :
  String.length (s +:+ t) = (String.length s + String.length t)%nat.
Proof. induction s as [ | c s IH]; simpl; [reflexivity | f_equal; exact IH]. Qed.

Lemma string_append_inj_r (s1 s2 t : string) : s1 +:+ t = s2 +:+ t -> s1 = s2.
Proof.
  revert s2. induction s1 as [ | c1 s1 IH]; intros [ | c2 s2] H.
  - reflexivity.
  - apply (f_equal String.length) in H.
    rewrite !string_length_append in H. simpl in H. lia.
  - apply (f_equal String.length) in H.
    rewrite !string_length_append in H. simpl in H. lia.
  - cbn in H. injection H as -> H. f_equal. apply IH. exact H.
Qed.

Lemma checkout_path_inj {MS : Type} (cb : @ModelCheckout MS) (epoch1 epoch2 : Z) :
  checkout_path cb epoch1 = checkout_path cb epoch2 -> epoch1 = epoch2.
Proof.
  unfold checkout_path. intros H.
  do 4 apply String.app_inj in H.
  apply string_append_inj_r in H. apply (inj pretty) in H. lia.
Qed.

Lemma ModelCheckout_call_on_period {MS : Type} (cb : @ModelCheckout MS) (epoch : Z)
    (w : MS * Env) :
  mc_per_epoch cb <> 0 ->
  (epoch + 1) `mod` mc_per_epoch cb = 0 ->
  ModelCheckout__call__ cb epoch w = save_weight (mc_model cb) (checkout_path cb epoch) w.
Proof.
  intros Hn Hmod. unfold ModelCheckout__call__, bind, of_result.
  rewrite (skips_on_period _ _ Hn Hmod). reflexivity.
Qed.

Variable network_forward :
  string * Z -> gmap string Tensor -> bool -> Tensor -> Array2 * gmap string Tensor.
Variable train_step :
  Module_ -> Optimizer -> Tensor -> Tensor -> R * Module_ * Optimizer.

(** X16.  The checkpoint [ModelCheckout] writes for an [EfficientNet] at an epoch
    on the period can be loaded: the adapter is not changed by the callback,
    and [load_weight] of the written file into an adapter of the same
    architecture gives it the saved state. *)
Theorem ModelCheckout_checkpoint_loadable (cb : @ModelCheckout EfficientNet.t)
    (epoch : Z) (a b : EfficientNet.t) (env : Env) :
  mc_model cb = EfficientNet_BaseModel network_forward train_step ->
  mc_per_epoch cb <> 0 ->
  (epoch + 1) `mod` mc_per_epoch cb = 0 ->
  same_architecture a b ->
  let w1 := snd (ModelCheckout__call__ cb epoch (a, env)) in
  fst w1 = a /\
  EfficientNet.load_weight (checkout_path cb epoch) (b, snd w1)
  = (Ok tt, (restored b a, after_load_prints (EfficientNet._num_classes a) (snd w1))).
Proof.
  intros Hmodel Hn Hmod Hsame. cbn zeta.
  rewrite (ModelCheckout_call_on_period cb epoch _ Hn Hmod), Hmodel.
  cbn [save_weight EfficientNet_BaseModel]. rewrite save_weight_unfold. cbn [fst snd].
  split; [reflexivity | ].
  apply load_weight_restores; [exact Hsame | ].
  cbn. apply lookup_insert_eq.
Qed.

(** X17.  Checkpoints of different epochs go to different files: after the
    callback has run at two epochs on the period, both files are there. *)
Theorem ModelCheckout_keeps_earlier_checkpoints (cb : @ModelCheckout EfficientNet.t)
    (epoch1 epoch2 : Z) (a : EfficientNet.t) (env : Env) :
  mc_model cb = EfficientNet_BaseModel network_forward train_step ->
  mc_per_epoch cb <> 0 ->
  (epoch1 + 1) `mod` mc_per_epoch cb = 0 ->
  (epoch2 + 1) `mod` mc_per_epoch cb = 0 ->
  epoch1 <> epoch2 ->
  let w1 := snd (ModelCheckout__call__ cb epoch1 (a, env)) in
  let w2 := snd (ModelCheckout__call__ cb epoch2 w1) in
  checkout_path cb epoch1 <> checkout_path cb epoch2 /\
  fs (snd w2) !! checkout_path cb epoch1 = Some (FPickle (checkpoint_of a)) /\
  fs (snd w2) !! checkout_path cb epoch2 = Some (FPickle (checkpoint_of a)).
Proof.
  intros Hmodel Hn Hmod1 Hmod2 Hne. cbn zeta.
  assert (checkout_path cb epoch1 <> checkout_path cb epoch2) as Hpath
    by (intros H; apply Hne, (checkout_path_inj cb); exact H).
  split; [exact Hpath | ].
  rewrite (ModelCheckout_call_on_period cb epoch1 _ Hn Hmod1), Hmodel.
  cbn [save_weight EfficientNet_BaseModel]. rewrite save_weight_unfold. cbn [fst snd].
  rewrite (ModelCheckout_call_on_period cb epoch2 _ Hn Hmod2), Hmodel.
  cbn [save_weight EfficientNet_BaseModel]. rewrite save_weight_unfold. cbn [fst snd fs set_fs].
  split.
  - rewrite lookup_insert_ne by (intros H; apply Hpath; symmetry; exact H).
    apply lookup_insert_eq.
  - apply lookup_insert_eq.
Qed.

End CheckoutMore.

Section CallbacksMore2.

Import Callbacks.

Context {MS : Type}.

Variable draw_bounding_boxes_with_name_tag :
  Image -> list BBox -> Z * Z * Z -> string -> Image.

Lemma randint_empty (e : Env) : randint 0 (Z.of_nat 0) e = (Raise ValueError, e).
Proof. reflexivity. Qed.

(** X18.  At an epoch on the period, a callback over an empty dataset raises
    [ValueError] from the random draw, before any file is written: the
    segmentation and detection callbacks leave everything as it was, the
    attention-map callback has by then put its model in inference mode. *)
Theorem sampling_callbacks_empty_dataset (epoch : Z) (w : MS * Env) :
  (forall cb : @GenerateSegmentationImageCallback MS,
     gsi_per_epoch cb <> 0 -> (epoch + 1) `mod` gsi_per_epoch cb = 0 ->
     gsi_dataset cb = [] ->
     GenerateSegmentationImageCallback__call__ cb epoch w = (Raise ValueError, w)) /\
  (forall cb : @VisualizeRandomObjectDetectionResult MS,
     vro_per_epoch cb <> 0 -> (epoch + 1) `mod` vro_per_epoch cb = 0 ->
     vro_dataset cb = [] ->
     VisualizeRandomObjectDetectionResult__call__ draw_bounding_boxes_with_name_tag
       cb epoch w = (Raise ValueError, w)) /\
  (forall cb : @GenerateAttentionMapCallback MS,
     gam_per_epoch cb <> 0 -> (epoch + 1) `mod` gam_per_epoch cb = 0 ->
     gam_dataset cb = [] ->
     GenerateAttentionMapCallback__call__ cb epoch w
     = match abn_eval (gam_model cb) w with
       | (Ok _, w1) => (Raise ValueError, w1)
       | (Raise e, w1) => (Raise e, w1)
       end).
Proof.
  repeat split; intros cb Hn Hmod Hds.
  - unfold GenerateSegmentationImageCallback__call__, bind, of_result.
    rewrite (skips_on_period _ _ Hn Hmod), Hds.
    unfold on_env, zoom. cbn [length fst snd]. rewrite randint_empty.
    destruct w. reflexivity.
  - unfold VisualizeRandomObjectDetectionResult__call__, bind, of_result.
    rewrite (skips_on_period _ _ Hn Hmod), Hds.
    unfold on_env, zoom. cbn [length fst snd]. rewrite randint_empty.
    destruct w. reflexivity.
  - unfold GenerateAttentionMapCallback__call__, bind, of_result.
    rewrite (skips_on_period _ _ Hn Hmod), Hds.
    destruct (abn_eval (gam_model cb) w) as [[[] | e] w1]; [ | reflexivity].
    unfold on_env, zoom. cbn [length fst snd]. rewrite randint_empty.
    destruct w1. reflexivity.
Qed.

Lemma index_in_range {A} (l : list A) (i : Z) :
  0 <= i < Z.of_nat (length l) ->
  exists x, l !! Z.to_nat i = Some x /\ index l i = Ok x.
Proof.
  intros Hi.
  destruct (lookup_lt_is_Some_2 l (Z.to_nat i) ltac:(lia)) as [x Hx].
  exists x. split; [exact Hx | ].
  rewrite <- (Z2Nat.id i) by lia. apply index_of_nat. exact Hx.
Qed.

(** X19.  At an epoch on the period and with a dataset that is not empty, the
    segmentation callback takes one random draw, which always names an
    element of the dataset (never [IndexError]), runs the model's drawing
    routine on that image, and saves the result as
    [{output_dir}/result_image{epoch + 1}.png]. *)
Theorem segmentation_callback_sample (cb : @GenerateSegmentationImageCallback MS)
    (epoch : Z) (ms : MS) (env : Env) :
  gsi_per_epoch cb <> 0 ->
  (epoch + 1) `mod` gsi_per_epoch cb = 0 ->
  gsi_dataset cb <> [] ->
  let g := np_random env in
  let i := rng_draws g (rng_pos g) `mod` Z.of_nat (length (gsi_dataset cb)) in
  exists item,
    gsi_dataset cb !! Z.to_nat i = Some item /\
    GenerateSegmentationImageCallback__call__ cb epoch (ms, env)
    = bind (seg_draw_predicted_result (gsi_model cb) (fst item)
              (tail (shape (fst item))) (gsi_color_palette cb))
           (fun result_img =>
              on_env (image_save result_img (segmentation_path cb epoch)))
           (ms, set_np_random (mkRng (rng_draws g) (S (rng_pos g))) env).
Proof.
  intros Hn Hmod Hds g i.
  assert (0 < Z.of_nat (length (gsi_dataset cb))) as Hlen.
  { destruct (gsi_dataset cb); [contradiction | cbn; lia]. }
  assert (0 <= i < Z.of_nat (length (gsi_dataset cb))) as Hi
    by (apply Z.mod_pos_bound; exact Hlen).
  destruct (index_in_range (gsi_dataset cb) i Hi) as (item & Hitem & Hindex).
  exists item. split; [exact Hitem | ].
  unfold GenerateSegmentationImageCallback__call__.
  erewrite bind_ok by (unfold of_result; rewrite (skips_on_period _ _ Hn Hmod); reflexivity).
  cbn match.
  erewrite bind_ok.
  2: { unfold on_env, zoom, randint. cbn [fst snd].
       destruct (decide (Z.of_nat (length (gsi_dataset cb)) <= 0)) as [H | _]; [lia | ].
       rewrite Z.sub_0_r, Z.add_0_l. reflexivity. }
  fold g. fold i.
  erewrite bind_ok by (unfold of_result; rewrite Hindex; reflexivity).
  reflexivity.
Qed.

Lemma index_ok_iff {A} (l : list A) (i : Z) :
  is_ok (index l i) = true <-> - Z.of_nat (length l) <= i < Z.of_nat (length l).
Proof.
  unfold index.
  destruct (decide (i < 0)) as [Hneg | Hpos].
  - destruct (decide (0 <= Z.of_nat (length l) + i < Z.of_nat (length l))) as [Hr | Hr].
    + destruct (lookup_lt_is_Some_2 l (Z.to_nat (Z.of_nat (length l) + i)) ltac:(lia))
        as [x ->]. cbn. split; [lia | reflexivity].
    + cbn. split; [discriminate | lia].
  - destruct (decide (0 <= i < Z.of_nat (length l))) as [Hr | Hr].
    + destruct (lookup_lt_is_Some_2 l (Z.to_nat i) ltac:(lia)) as [x ->].
      cbn. split; [lia | reflexivity].
    + cbn. split; [discriminate | lia].
Qed.

Lemma index_raises {A} (l : list A) (i : Z) (e : exn) :
  index l i = Raise e -> e = IndexError.
Proof.
  unfold index. repeat case_decide; try congruence;
    match goal with |- context [l !! ?j] => destruct (l !! j) end; congruence.
Qed.

Lemma draw_each_ok (self : @VisualizeRandomObjectDetectionResult MS) (bboxes : list BBox) :
  forall image,
    (is_ok (draw_each draw_bounding_boxes_with_name_tag self image bboxes) = true
     <-> Forall (label_in_range (length (vro_label_names self))) bboxes) /\
    (forall e, draw_each draw_bounding_boxes_with_name_tag self image bboxes = Raise e ->
               e = IndexError).
Proof.
  induction bboxes as [ | bbox rest IH]; intros image; cbn [draw_each].
  - split; [split; [constructor | reflexivity] | discriminate].
  - pose proof (index_ok_iff (vro_label_names self) (snd bbox)) as Hok.
    destruct (index (vro_label_names self) (snd bbox)) as [text | e0] eqn:Hindex.
    + destruct (IH (draw_bounding_boxes_with_name_tag image [bbox]
                      (vro_teacher_color self) text)) as [IH1 IH2].
      split; [ | exact IH2].
      rewrite IH1. split.
      * intros H. apply Forall_cons_2; [apply Hok; reflexivity | exact H].
      * intros H. inversion H; assumption.
    + split.
      * cbn. split; [discriminate | ].
        intros H. inversion H as [ | ? ? Hbbox _]. apply Hok in Hbbox. discriminate.
      * intros e [= <-]. eapply index_raises. exact Hindex.
Qed.

(** X20.  [_draw_teacher_bboxes] gives the image back as it is for [None] and for
    an empty list; otherwise it returns exactly when every box's label is a
    valid index of [label_names] (negative labels count from the end), and
    raises [IndexError] if one is not. *)
Theorem draw_teacher_bboxes_labels (self : @VisualizeRandomObjectDetectionResult MS)
    (image : Image) (teacher_bboxes : option (list BBox)) :
  (default [] teacher_bboxes = [] ->
   _draw_teacher_bboxes draw_bounding_boxes_with_name_tag self image teacher_bboxes
   = Ok image) /\
  (is_ok (_draw_teacher_bboxes draw_bounding_boxes_with_name_tag self image teacher_bboxes)
   = true
   <-> Forall (label_in_range (length (vro_label_names self))) (default [] teacher_bboxes)) /\
  (forall e,
     _draw_teacher_bboxes draw_bounding_boxes_with_name_tag self image teacher_bboxes
     = Raise e -> e = IndexError).
Proof.
  destruct teacher_bboxes as [[ | bbox rest] | ]; cbn [default _draw_teacher_bboxes].
  - repeat split; try discriminate. constructor.
  - destruct (draw_each_ok self (bbox :: rest) image) as [H1 H2].
    split; [discriminate | ]. split; [exact H1 | exact H2].
  - repeat split; try discriminate. constructor.
Qed.

End CallbacksMore2.

Section SchedulersMore.

Import Callbacks.

Local Open Scope R_scope.




(** X22.  With [power = 1] the schedule is the straight line
    [1 - epoch/max_epoch], also outside [0 .. max_epoch]: for [max_epoch]
    not zero and below 2^53 in magnitude, at every epoch of magnitude up to
    2^1000 the call returns it, without raising, and past a positive
    [max_epoch] the value is negative. *)
Theorem LearningRateScheduler_linear (max_epoch epoch : Z) :
  max_epoch <> 0%Z -> (Z.abs max_epoch < 2 ^ 53)%Z -> (Z.abs epoch <= 2 ^ 1000)%Z ->
  LearningRateScheduler__call__ (LearningRateScheduler__init__ max_epoch (Some 1)) epoch
  = Ok (1 - IZR epoch / IZR max_epoch) /\
  ((0 < max_epoch < epoch)%Z -> 1 - IZR epoch / IZR max_epoch < 0).
Proof.
  intros Hm Hsmall He.
  pose proof (quotient_bound epoch max_epoch Hm) as Hq.
  apply IZR_le in He.
  pose proof float_overflow_large as Hlarge.
  assert (0 <= IZR (2 ^ 1000)) as Hpos by (apply IZR_le; apply Z.leb_le; reflexivity).
  pose proof (Rle_abs (IZR epoch / IZR max_epoch)) as Hq1.
  pose proof (Rle_abs (- (IZR epoch / IZR max_epoch))) as Hq2.
  rewrite Rabs_Ropp in Hq2.
  split.
  - rewrite LearningRateScheduler_call_in_range;
      [ | exact Hm | exact Hsmall | apply Rabs_def1; lra].
    change (default (9 / 10) (Some 1)) with 1.
    rewrite (math_pow_integer _ 1).
    + rewrite powerRZ_1. reflexivity.
    + right. lia.
    + rewrite powerRZ_1. apply Rabs_def1; lra.
  - intros Hlt. pose proof (scheduler_base_negative max_epoch epoch Hlt). lra.
Qed.


Lemma LearningRateScheduler_linear_example :
  LearningRateScheduler__call__ (LearningRateScheduler__init__ 10 (Some 1)) 15
  = Ok (1 - IZR 15 / IZR 10) /\
  ((0 < 10 < 15)%Z -> 1 - IZR 15 / IZR 10 < 0).
Proof.
  assert (10 <> 0)%Z as H10 by lia.
  assert (Z.abs 10 < 2 ^ 53)%Z as Hs by reflexivity.
  assert (Z.abs 15 <= 2 ^ 1000)%Z as H15 by (apply Z.leb_le; reflexivity).
  exact (LearningRateScheduler_linear 10 15 H10 Hs H15).
Defined.

End SchedulersMore.

Section CallbacksMoreExamples.

Import Callbacks.

(** A checkpoint callback with a period of zero. *)
Lemma periodic_callback_zero_period_example :
  invoke toy_draw
    (Checkout {| mc_per_epoch := 0; mc_out_dir := "ckpt"; mc_model := toy_model |})
    4 toy_state
  = (Raise ZeroDivisionError, toy_state).
Proof.
  exact (periodic_callback_zero_period toy_draw
           (Checkout {| mc_per_epoch := 0; mc_out_dir := "ckpt"; mc_model := toy_model |})
           4 toy_state eq_refl).
Defined.

(** Twelve epochs with a period of 5: two firings. *)
Lemma periodic_callback_firings_example :
  Z.of_nat (length (filter (fun epoch => fires 5 epoch = true) (range 12))) = 12 `div` 5 /\
  (forall epoch, fires 5 epoch = true <-> (epoch + 1) `mod` 5 = 0).
Proof.
  assert (0 < 5) as H5 by lia.
  assert (0 <= 12) as H12 by lia.
  exact (periodic_callback_firings 5 12 H5 H12).
Defined.

Lemma ModelCheckout_checkpoint_loadable_example :
  let w1 := snd (ModelCheckout__call__ toy_checkout 4 (toy_adapter (1 / 10) 7, env0)) in
  fst w1 = toy_adapter (1 / 10) 7 /\
  EfficientNet.load_weight (checkout_path toy_checkout 4) (toy_adapter (1 / 2) 3, snd w1)
  = (Ok tt, (restored (toy_adapter (1 / 2) 3) (toy_adapter (1 / 10) 7),
             after_load_prints 2 (snd w1))).
Proof.
  assert (mc_per_epoch toy_checkout <> 0) as Hn by discriminate.
  exact (ModelCheckout_checkpoint_loadable toy_forward toy_train_step toy_checkout 4
           (toy_adapter (1 / 10) 7) (toy_adapter (1 / 2) 3) env0 eq_refl Hn eq_refl
           (toy_adapters_same_architecture _ _ _ _)).
Defined.

Lemma ModelCheckout_keeps_earlier_checkpoints_example :
  let w1 := snd (ModelCheckout__call__ toy_checkout 4 (toy_adapter (1 / 10) 7, env0)) in
  let w2 := snd (ModelCheckout__call__ toy_checkout 9 w1) in
  checkout_path toy_checkout 4 <> checkout_path toy_checkout 9 /\
  fs (snd w2) !! checkout_path toy_checkout 4
  = Some (FPickle (checkpoint_of (toy_adapter (1 / 10) 7))) /\
  fs (snd w2) !! checkout_path toy_checkout 9
  = Some (FPickle (checkpoint_of (toy_adapter (1 / 10) 7))).
Proof.
  assert (mc_per_epoch toy_checkout <> 0) as Hn by discriminate.
  assert (4 <> 9) as Hne by lia.
  exact (ModelCheckout_keeps_earlier_checkpoints toy_forward toy_train_step toy_checkout
           4 9 (toy_adapter (1 / 10) 7) env0 eq_refl Hn eq_refl eq_refl Hne).
Defined.

(** The segmentation callback over a dataset of two images. *)
Lemma segmentation_callback_sample_example :
  let ds := [(mkTensor [1; 1; 1]%nat [0%R], tt); (mkTensor [1; 1; 1]%nat [1%R], tt)] in
  exists item,
    ds !! 0%nat = Some item /\
    GenerateSegmentationImageCallback__call__ (toy_segmentation ds) 0 (tt, env0)
    = bind (seg_draw_predicted_result toy_segmentation_model (fst item)
              (tail (shape (fst item))) [0; 0; 0])
           (fun result_img =>
              on_env (image_save result_img (segmentation_path (toy_segmentation ds) 0)))
           (tt, set_np_random (mkRng (fun _ => 0) 1) env0).
Proof.
  cbn zeta.
  assert (gsi_per_epoch
            (toy_segmentation
               [(mkTensor [1; 1; 1]%nat [0%R], tt); (mkTensor [1; 1; 1]%nat [1%R], tt)])
          <> 0) as Hn by discriminate.
  assert (gsi_dataset
            (toy_segmentation
               [(mkTensor [1; 1; 1]%nat [0%R], tt); (mkTensor [1; 1; 1]%nat [1%R], tt)])
          <> []) as Hds by discriminate.
  exact (segmentation_callback_sample
           (toy_segmentation
              [(mkTensor [1; 1; 1]%nat [0%R], tt); (mkTensor [1; 1; 1]%nat [1%R], tt)])
           0 tt env0 Hn eq_refl Hds).
Defined.

Lemma sampling_callbacks_empty_dataset_example :
  GenerateSegmentationImageCallback__call__ (toy_segmentation []) 0 (tt, env0)
  = (Raise ValueError, (tt, env0)).
Proof.
  assert (gsi_per_epoch (toy_segmentation []) <> 0) as Hn by discriminate.
  exact (proj1 (sampling_callbacks_empty_dataset toy_draw 0 (tt, env0))
           (toy_segmentation []) Hn eq_refl eq_refl).
Defined.

End CallbacksMoreExamples.
